(** * Research-paper backend: the request handlers of [src/server.ts]

    A shallow embedding of the Express handlers (search-papers,
    generate-report, suggest-prompt, analyze-paper, save-search) and of the
    two authentication middlewares, with the properties the specification
    states about them.

    Asynchronous code is written in a free monad over the outbound calls
    (search API, completion API, identity service, record store, the
    response object); an interpreter answers the calls from a [world] and
    records them in a trace.  [Promise.all] is interpreted by interleaving
    the suspended tasks in the order the world settles them, writing each
    result into its own slot.  Logging ([console.error], [console.log])
    is left out: nothing reads it. *)

From Stdlib Require Import ZArith QArith Ascii String List Lia.
From stdpp Require Import base list strings pretty.

Local Open Scope Z_scope.

#[local] Set Warnings "-register-all".

(** ** JavaScript values *)

(** Values as [JSON.parse] and property access produce them.  Numbers are
    the integers: the handlers only test numbers for truthiness or render
    them in a template.  Strings are sequences of code units below 256,
    one [ascii] each; template text is kept as the bytes of the source
    file. *)
Inductive jsval : Type :=
| JUndefined
| JNull
| JBool (b : bool)
| JNum (n : Z)
| JStr (s : string)
| JArr (items : list jsval)
| JObj (fields : list (string * jsval)).

(** What a [throw] carries: an [Error] (or subclass) with its name and
    message, or any other value. *)
Inductive exn : Type :=
| JsError (name message : string)
| NonError (v : jsval).

Definition Error (message : string) : exn := JsError "Error" message.
Definition TypeError (message : string) : exn := JsError "TypeError" message.

(** [error instanceof Error ? error.message : fallback] *)
Definition message_or (e : exn) (fallback : string) : string :=
  match e with
  | JsError _ m => m
  | NonError _ => fallback
  end.

Inductive result (A : Type) : Type :=
| Ok (a : A)
| Exn (e : exn).
Arguments Ok {A} a.
Arguments Exn {A} e.

(** ToBoolean *)
Definition truthy (v : jsval) : bool :=
  match v with
  | JUndefined | JNull => false
  | JBool b => b
  | JNum n => negb (n =? 0)
  | JStr s => negb (String.eqb s "")
  | JArr _ | JObj _ => true
  end.

(** [a || b] *)
Definition js_or (a b : jsval) : jsval := if truthy a then a else b.

Definition nullish (v : jsval) : bool :=
  match v with
  | JUndefined | JNull => true
  | _ => false
  end.

Fixpoint own_prop (k : string) (fields : list (string * jsval)) : option jsval :=
  match fields with
  | [] => None
  | (k', v) :: rest => if String.eqb k k' then Some v else own_prop k rest
  end.

(** [v.k], for the property names the handlers read ([choices], [message],
    [content], [query], [id], ...): an own property of an object, absent
    on primitives and arrays, a [TypeError] on [null] and [undefined]. *)
Definition get_prop (v : jsval) (k : string) : result jsval :=
  match v with
  | JUndefined =>
      Exn (TypeError ("Cannot read properties of undefined (reading '" +:+ k +:+ "')"))
  | JNull =>
      Exn (TypeError ("Cannot read properties of null (reading '" +:+ k +:+ "')"))
  | JObj fields => Ok (default JUndefined (own_prop k fields))
  | _ => Ok JUndefined
  end.

(** [v?.k] *)
Definition opt_prop (v : jsval) (k : string) : jsval :=
  match v with
  | JObj fields => default JUndefined (own_prop k fields)
  | _ => JUndefined
  end.

(** [o.k = x] on an object literal or parsed object: replace in place, or
    append a new key. *)
Fixpoint set_own (k : string) (x : jsval) (fields : list (string * jsval))
  : list (string * jsval) :=
  match fields with
  | [] => [(k, x)]
  | (k', v) :: rest =>
      if String.eqb k k' then (k, x) :: rest else (k', v) :: set_own k x rest
  end.

(** [arr[0]] *)
Definition first_item (items : list jsval) : jsval := default JUndefined (head items).

(** [Array.isArray(v)] together with [v.length === 0] *)
Definition is_array (v : jsval) : bool :=
  match v with JArr _ => true | _ => false end.

Definition array_items (v : jsval) : list jsval :=
  match v with JArr l => l | _ => [] end.

(** ToString, as a template literal applies it.  Two renderings of
    JavaScript are not covered: a number of magnitude 1e21 or more, which
    it writes in exponent form, and an object with an own [toString]
    key, for which the conversion throws. *)
Fixpoint to_string (v : jsval) : string :=
  match v with
  | JUndefined => "undefined"
  | JNull => "null"
  | JBool true => "true"
  | JBool false => "false"
  | JNum n => pretty n
  | JStr s => s
  | JArr items =>
      String.concat ","
        (map (fun x => if nullish x then "" else to_string x) items)
  | JObj _ => "[object Object]"
  end.

(** ** String methods *)

Module Str.

(** The double quote, for template text. *)
Definition dq : string := String "034"%char EmptyString.
(** Line feed. *)
Definition nl : string := String "010"%char EmptyString.
(** [s] between double quotes. *)
Definition q (s : string) : string := dq +:+ s +:+ dq.

(** White space as [trim] sees it, among the code units below 256. *)
Definition is_space (c : ascii) : bool :=
  let n := nat_of_ascii c in
  ((9 <=? n) && (n <=? 13))%nat || (n =? 32)%nat || (n =? 160)%nat.

Fixpoint trim_start (s : string) : string :=
  match s with
  | String c rest => if is_space c then trim_start rest else s
  | EmptyString => s
  end.

(** Drops trailing white space: a character is kept when something that
    is kept follows it or when it is not white space itself. *)
Fixpoint trim_end (s : string) : string :=
  match s with
  | EmptyString => EmptyString
  | String c rest =>
      match trim_end rest with
      | EmptyString => if is_space c then EmptyString else String c EmptyString
      | kept => String c kept
      end
  end.

(** [s.trim()] *)
Definition trim (s : string) : string := trim_end (trim_start s).

(** [s.replace(/\n/g, ' ')] *)
Fixpoint replace_newlines (s : string) : string :=
  match s with
  | EmptyString => EmptyString
  | String c rest =>
      String (if Ascii.eqb c "010" then " "%char else c) (replace_newlines rest)
  end.

(** [s.split(sep)] for a one-character separator: never empty. *)
Fixpoint split (sep : ascii) (s : string) : list string :=
  match s with
  | EmptyString => [EmptyString]
  | String c rest =>
      if Ascii.eqb c sep then EmptyString :: split sep rest
      else
        match split sep rest with
        | piece :: pieces => String c piece :: pieces
        | [] => [String c EmptyString]
        end
  end.

(** [s.startsWith(p)] *)
Definition starts_with (p s : string) : bool := String.prefix p s.

(** [s.replace(pat, rep)] with a string pattern: the first occurrence
    only. *)
Definition replace_first (pat rep s : string) : string :=
  match String.index 0 pat s with
  | Some i =>
      String.substring 0 i s +:+ rep +:+
      String.substring (i + String.length pat)
        (String.length s - (i + String.length pat)) s
  | None => s
  end.

(** [s.substring(0, n)] *)
Definition substring0 (n : nat) (s : string) : string := String.substring 0 n s.

(** [l.join(sep)] on an array of strings *)
Definition join (sep : string) (l : list string) : string := String.concat sep l.

End Str.

(** ** The DOM of the search response *)

(** The document [DOMParser.parseFromString] builds: elements with their
    tag name and children, and text. *)
Inductive xml : Type :=
| XText (s : string)
| XElem (tag : string) (children : list xml).

Module Dom.

(** The element itself (when it matches) and its matching descendants,
    in document order. *)
Fixpoint matching (name : string) (n : xml) : list xml :=
  match n with
  | XText _ => []
  | XElem tag children =>
      (if String.eqb tag name then [n] else [])
        ++ flat_map (matching name) children
  end.

Definition children_of (n : xml) : list xml :=
  match n with
  | XText _ => []
  | XElem _ children => children
  end.

(** [node.getElementsByTagName(name)]: descendants only. *)
Definition getElementsByTagName (name : string) (n : xml) : list xml :=
  flat_map (matching name) (children_of n).

(** [node.textContent] *)
Fixpoint textContent (n : xml) : string :=
  match n with
  | XText s => s
  | XElem _ children => String.concat "" (map textContent children)
  end.

End Dom.

(** ** The language runtime and the process environment *)

(** Built-ins the handlers call and whose results are not computed here:
    the JSON and XML parsers (either may throw), URI escaping, the clock
    and the environment variables. *)
Class Runtime : Type := {
  JSON_parse : string -> result jsval;
  (** the document node, whose children are the top-level nodes *)
  parseFromString : string -> result xml;
  encodeURIComponent : string -> string;
  (** [new Date().toLocaleDateString()] *)
  toLocaleDateString : string;
  (** [new Date().toISOString()] *)
  toISOString : string;
  process_env : string -> option string
}.

(** [process.env.NAME] *)
Definition env_var `{Runtime} (name : string) : jsval :=
  match process_env name with
  | Some s => JStr s
  | None => JUndefined
  end.

(** ** Data model *)

Record Paper : Type := {
  title : string;
  authors : list string;
  abstract : string;
  link : string
}.

Record PaperAnalysis : Type := {
  paper : Paper;
  analysis : jsval
}.

Definition json_of_paper (p : Paper) : jsval :=
  JObj [("title", JStr (title p));
        ("authors", JArr (map JStr (authors p)));
        ("abstract", JStr (abstract p));
        ("link", JStr (link p))].

Definition json_of_analysis (a : PaperAnalysis) : jsval :=
  JObj [("paper", json_of_paper (paper a)); ("analysis", analysis a)].

(** ** Outbound calls *)

Record message : Type := { role : string; content : string }.

(** The object passed to [JSON.stringify] as a completion request. *)
Record chat_body : Type := {
  model : string;
  messages : list message;
  temperature : Q;
  max_tokens : Z;
  min_new_tokens : option Z
}.

Record request : Type := {
  url : string;
  method : string;
  headers : list (string * string);
  body : option chat_body
}.

(** What [fetch] resolves to.  [text] and [json] are the results of the
    body readers, either of which may reject; reading the body is not a
    call of its own. *)
Record fetch_response : Type := {
  ok : bool;
  status : Z;
  statusText : string;
  text : result string;
  json : result jsval
}.

(** What the handler answers: [res.status(s).json(body)], or the reply
    Express's error handler produces after [next(error)]. *)
Inductive reply : Type :=
| Json (status : Z) (body : jsval)
| ErrorPage (e : exn).

(** The calls a handler makes, indexed by what they resolve to.  A
    rejected promise is an [Exn]. *)
Inductive call : Type -> Type :=
| Fetch (r : request) : call (result fetch_response)
| GetUser (token : jsval) : call (result jsval)
| Insert (table : string) (row : jsval) : call (result jsval)
| Send (r : reply) : call unit.

Inductive event : Type :=
| Fetched (r : request)
| AskedUser (token : jsval)
| Inserted (table : string) (row : jsval)
| Sent (r : reply).

Definition event_of {X} (c : call X) : event :=
  match c with
  | Fetch r => Fetched r
  | GetUser token => AskedUser token
  | Insert table row => Inserted table row
  | Send r => Sent r
  end.

(** ** Programs *)

(** Code over a signature [E] of calls: it returns, throws, or makes a
    call and continues with the answer. *)
Inductive prog (E : Type -> Type) (A : Type) : Type :=
| Ret (a : A)
| Throw (e : exn)
| Vis {X : Type} (c : E X) (k : X -> prog E A).
Arguments Ret {E A} a.
Arguments Throw {E A} e.
Arguments Vis {E A X} c k.

Fixpoint bind {E A B} (p : prog E A) (f : A -> prog E B) : prog E B :=
  match p with
  | Ret a => f a
  | Throw e => Throw e
  | Vis c k => Vis c (fun x => bind (k x) f)
  end.

(** [try { p } catch (e) { h e }] *)
Fixpoint try_catch {E A} (p : prog E A) (h : exn -> prog E A) : prog E A :=
  match p with
  | Ret a => Ret a
  | Throw e => h e
  | Vis c k => Vis c (fun x => try_catch (k x) h)
  end.

Declare Scope prog_scope.
Delimit Scope prog_scope with prog.
Notation "x <- c ;; k" := (bind c (fun x => k))
  (at level 100, c at next level, right associativity) : prog_scope.
Notation "c ;;; k" := (bind c (fun _ => k))
  (at level 100, right associativity) : prog_scope.
Local Open Scope prog_scope.

(** A synchronous operation that may throw. *)
Definition lift {E A} (r : result A) : prog E A :=
  match r with
  | Ok a => Ret a
  | Exn e => Throw e
  end.

(** Handler code may also join a batch of tasks: [Promise.all(tasks)],
    which resolves to the tasks' values or rejects. *)
Inductive hcall : Type -> Type :=
| Out {X} (c : call X) : hcall X
| All {B} (tasks : list (prog call B)) : hcall (result (list B)).

Class Outbound (E : Type -> Type) : Type :=
  outbound : forall X, call X -> E X.
#[export] Instance call_outbound : Outbound call := fun _ c => c.
#[export] Instance hcall_outbound : Outbound hcall := @Out.

(** [await c] for a call whose promise may reject. *)
Definition await {E} `{Outbound E} {A} (c : call (result A)) : prog E A :=
  Vis (outbound _ c) lift.

Definition fetch {E} `{Outbound E} (r : request) : prog E fetch_response :=
  await (Fetch r).

(** [res.status(s).json(body)] *)
Definition send {E} `{Outbound E} (s : Z) (b : jsval) : prog E unit :=
  Vis (outbound _ (Send (Json s b))) Ret.

(** [next(error)] *)
Definition next_error {E} `{Outbound E} (e : exn) : prog E unit :=
  Vis (outbound _ (Send (ErrorPage e))) Ret.

(** [await Promise.all(tasks)] *)
Definition Promise_all {B} (tasks : list (prog call B)) : prog hcall (list B) :=
  Vis (All tasks) lift.

(** ** The world and the interpreter *)

(** The outside world of one request: how each service answers a call,
    given the call's position in the trace, and the order in which the
    pending tasks of a batch settle. *)
Record world : Type := {
  net : nat -> request -> result fetch_response;
  identity : nat -> jsval -> result jsval;
  store : nat -> string -> jsval -> result jsval;
  settle_order : list nat
}.

Definition trace : Type := list event.

Definition answer (w : world) (n : nat) {X} (c : call X) : X :=
  match c in call X return X with
  | Fetch r => net w n r
  | GetUser token => identity w n token
  | Insert table row => store w n table row
  | Send _ => tt
  end.

(** Calls that complete at once, without suspending the caller. *)
Definition sync_answer {X} (c : call X) : option X :=
  match c in call X return option X with
  | Send _ => Some tt
  | _ => None
  end.

(** Sequential execution: every call is answered where it is made. *)
Fixpoint run_task (w : world) {A} (p : prog call A) (tr : trace)
  : result A * trace :=
  match p with
  | Ret a => (Ok a, tr)
  | Throw e => (Exn e, tr)
  | Vis c k => run_task w (k (answer w (length tr) c)) (tr ++ [event_of c])
  end.

(** A task of a batch: suspended at an awaited call made at trace
    position [pos], or settled. *)
Inductive slot (B : Type) : Type :=
| Waiting {X : Type} (pos : nat) (c : call X) (k : X -> prog call B)
| Settled (r : result B).
Arguments Waiting {B X} pos c k.
Arguments Settled {B} r.

(** Runs a task up to its next awaited call, which it issues. *)
Fixpoint start {B} (p : prog call B) (tr : trace) : slot B * trace :=
  match p with
  | Ret a => (Settled (Ok a), tr)
  | Throw e => (Settled (Exn e), tr)
  | Vis c k =>
      match sync_answer c with
      | Some x => start (k x) (tr ++ [event_of c])
      | None => (Waiting (length tr) c k, tr ++ [event_of c])
      end
  end.

(** The state of a join: one slot per task, by index; the first rejection
    seen; the trace. *)
Record join (B : Type) : Type := {
  slots : list (slot B);
  rejected : option exn;
  events : trace
}.
Arguments slots {B} j.
Arguments rejected {B} j.
Arguments events {B} j.

Definition note {B} (s : slot B) (rej : option exn) : option exn :=
  match rej, s with
  | None, Settled (Exn e) => Some e
  | _, _ => rej
  end.

(** [tasks.map(async ...)]: each task runs, in order, up to its first
    await. *)
Fixpoint start_all {B} (tasks : list (prog call B)) (j : join B) : join B :=
  match tasks with
  | [] => j
  | t :: rest =>
      let '(s, tr) := start t (events j) in
      start_all rest
        {| slots := slots j ++ [s]; rejected := note s (rejected j); events := tr |}
  end.

(** The call task [i] waits for settles: the task continues up to its
    next await and its slot is rewritten.  Nothing happens when task [i]
    is not waiting. *)
Definition resume (w : world) {B} (j : join B) (i : nat) : join B :=
  match slots j !! i with
  | Some (Waiting pos c k) =>
      let '(s, tr) := start (k (answer w pos c)) (events j) in
      {| slots := <[i := s]> (slots j); rejected := note s (rejected j); events := tr |}
  | _ => j
  end.

(** Tasks still waiting once the world's settle order is used up settle
    in index order, each running to its end. *)
Definition finish (w : world) {B} (j : join B) (i : nat) : join B :=
  match slots j !! i with
  | Some (Waiting pos c k) =>
      let '(r, tr) := run_task w (k (answer w pos c)) (events j) in
      {| slots := <[i := Settled r]> (slots j);
         rejected := note (Settled r) (rejected j);
         events := tr |}
  | _ => j
  end.

Definition value_of {B} (s : slot B) : option B :=
  match s with
  | Settled (Ok a) => Some a
  | _ => None
  end.

(** The promise of [Promise.all]: rejected with the first rejection,
    otherwise fulfilled with the values slot by slot. *)
Definition joined {B} (j : join B) : result (list B) :=
  match rejected j with
  | Some e => Exn e
  | None => Ok (omap value_of (slots j))
  end.

Definition promise_all (w : world) {B} (tasks : list (prog call B)) (tr : trace)
  : result (list B) * trace :=
  let j0 := start_all tasks {| slots := []; rejected := None; events := tr |} in
  let j1 := fold_left (resume w) (settle_order w) j0 in
  let j2 := fold_left (finish w) (seq 0 (length tasks)) j1 in
  (joined j2, events j2).

Definition handle (w : world) {X} (c : hcall X) (tr : trace) : X * trace :=
  match c in hcall X return X * trace with
  | Out c => (answer w (length tr) c, tr ++ [event_of c])
  | All tasks => promise_all w tasks tr
  end.

(** Execution of handler code. *)
Fixpoint run (w : world) {A} (p : prog hcall A) (tr : trace) : result A * trace :=
  match p with
  | Ret a => (Ok a, tr)
  | Throw e => (Exn e, tr)
  | Vis c k => let '(x, tr') := handle w c tr in run w (k x) tr'
  end.

(** ** Requests and shared pieces of the handlers *)

(** An incoming request: the [Authorization] header when present, the
    parsed body, and [req.user] once a middleware has set it. *)
Record Request : Type := {
  authorization : option string;
  req_body : jsval;
  user : jsval
}.

Definition set_user (req : Request) (u : jsval) : Request :=
  {| authorization := authorization req; req_body := req_body req; user := u |}.

Definition error_body (msg : string) : jsval := JObj [("error", JStr msg)].

Definition completions_url : string := "https://openrouter.ai/api/v1/chat/completions".
Definition completions_model : string := "qwen/qwen2.5-vl-72b-instruct:free".
Definition default_origin : string := "http://localhost:5173".

(** The POST a handler sends to the completion endpoint with one user
    message. *)
Definition completion_request `{Runtime} (referer : string)
    (extra_headers : list (string * string))
    (prompt : string) (temp : Q) (tokens : Z) (min_new : option Z) : request :=
  {| url := completions_url;
     method := "POST";
     headers :=
       [("Authorization", "Bearer " +:+ to_string (env_var "OPENROUTER_API_KEY"));
        ("HTTP-Referer", referer);
        ("Content-Type", "application/json")] ++ extra_headers;
     body := Some {| model := completions_model;
                     messages := [{| role := "user"; content := prompt |}];
                     temperature := temp;
                     max_tokens := tokens;
                     min_new_tokens := min_new |} |}.

Definition is_completion_call (e : event) : bool :=
  match e with
  | Fetched r => String.eqb (url r) completions_url
  | _ => false
  end.

Definition is_insert (e : event) : bool :=
  match e with Inserted _ _ => true | _ => false end.

(** [!choices || !Array.isArray(choices) || choices.length === 0] *)
Definition no_choices (choices : jsval) : bool :=
  negb (truthy choices) || negb (is_array choices)
  || (length (array_items choices) =? 0)%nat.

(** [choices[0]?.message?.content] *)
Definition first_content (choices : jsval) : jsval :=
  opt_prop (opt_prop (first_item (array_items choices)) "message") "content".

(** [process.env.CORS_ORIGIN || 'http://localhost:5173'] *)
Definition cors_origin `{Runtime} : string :=
  to_string (js_or (env_var "CORS_ORIGIN") (JStr default_origin)).

(** ** The search API *)

Definition arxiv_request `{Runtime} (query : jsval) (max_results : string) : request :=
  {| url := "https://export.arxiv.org/api/query?search_query=all:" +:+
            encodeURIComponent (to_string query) +:+
            "&start=0&max_results=" +:+ max_results;
     method := "GET";
     headers := [];
     body := None |}.

(** [entry.getElementsByTagName(name)[0]?.textContent] *)
Definition first_text (name : string) (entry : xml) : option string :=
  Dom.textContent <$> head (Dom.getElementsByTagName name entry).

(** The object literal both flows build from an [entry] element; [|| ""]
    turns an absent or empty text into the empty string. *)
Definition paper_of_entry (entry : xml) : Paper :=
  {| title := default "" ((fun t => Str.trim (Str.replace_newlines t)) <$> first_text "title" entry);
     authors := map (fun a => Str.trim (Dom.textContent a))
                    (Dom.getElementsByTagName "author" entry);
     abstract := default "" (Str.trim <$> first_text "summary" entry);
     link := default "" (first_text "id" entry) |}.

(** ** search-papers *)

Definition summary_prompt (paper : Paper) : string :=
    "Provide a very brief 2-3 bullet point summary of this research paper (max 50 words total):
              Title: " +:+ title paper +:+ "
              Abstract: " +:+ Str.substring0 1000 (abstract paper).

Definition summary_request `{Runtime} (paper : Paper) : request :=
  completion_request default_origin [] (summary_prompt paper) (2 # 10) 100 None.

(** The callback of [papers.map] in [searchPapers]: its whole body is one
    [try]/[catch]. *)
Definition summarize `{Runtime} (paper : Paper) : prog call jsval :=
  try_catch
    (aiResponse <- fetch (summary_request paper);;
     if negb (ok aiResponse) then
       errorText <- lift (text aiResponse);;
       Ret (JStr "Summary failed due to API error")
     else
       data <- lift (json aiResponse);;
       choices <- lift (get_prop data "choices");;
       if no_choices choices then Ret (JStr "Summary failed: No valid response")
       else Ret (js_or (first_content choices) (JStr "Summary not available")))
    (fun error => Ret (JStr "Summary generation failed")).

Definition consolidated_prompt (papers : list Paper) : string :=
  let papers_text :=
    Str.join (Str.nl +:+ Str.nl)
      (map (fun paper => title paper +:+ Str.nl +:+ abstract paper) papers) in
    "Synthesize a cohesive overview of these research papers (max 100 words). Focus on common themes, key findings, and broader implications. Don't list papers individually.

          Papers:
          " +:+ papers_text.

Definition consolidated_request `{Runtime} (papers : list Paper) : request :=
  completion_request default_origin [] (consolidated_prompt papers) (3 # 10) 200 None.

Definition empty_search_result : jsval :=
  JObj [("papers", JArr []); ("summaries", JArr []); ("consolidatedSummary", JStr "")].

Definition search_result (papers : list Paper) (summaries : list jsval)
    (consolidatedSummary : jsval) : jsval :=
  JObj [("papers", JArr (map json_of_paper papers));
        ("summaries", JArr summaries);
        ("consolidatedSummary", consolidatedSummary)].

Definition searchPapers `{Runtime} (req : Request) : prog hcall unit :=
  query <- lift (get_prop (req_body req) "query");;
  if negb (truthy query) then send 400 (error_body "Query is required")
  else
    try_catch
      (arxivResponse <- fetch (arxiv_request query "6");;
       if negb (ok arxivResponse) then
         Throw (Error ("ArXiv API error: " +:+ statusText arxivResponse))
       else
         xmlData <- lift (text arxivResponse);;
         xmlDoc <- lift (parseFromString xmlData);;
         let entries := Dom.getElementsByTagName "entry" xmlDoc in
         if (length entries =? 0)%nat then send 200 empty_search_result
         else
           let papers := map paper_of_entry entries in
           summaries <- Promise_all (map summarize papers);;
           consolidatedResponse <- fetch (consolidated_request papers);;
           if negb (ok consolidatedResponse) then
             errorText <- lift (text consolidatedResponse);;
             Throw (Error "Failed to generate consolidated summary")
           else
             consolidatedData <- lift (json consolidatedResponse);;
             choices <- lift (get_prop consolidatedData "choices");;
             if no_choices choices then Throw (Error "Invalid consolidated summary response")
             else
               let consolidatedSummary :=
                 js_or (first_content choices) (JStr "Overview not available") in
               send 200 (search_result papers summaries consolidatedSummary))
      (fun error => send 500 (error_body (message_or error "Internal server error"))).

(** The route's wrapper: [try { await searchPapers(req, res) } catch (error) { next(error) }] *)
Definition search_papers_handler `{Runtime} (req : Request) : prog hcall unit :=
  try_catch (searchPapers req) next_error.

(** ** generate-report *)

Definition analysis_prompt (paper : Paper) : string :=
    "Analyze this research paper and provide the following details in a structured format:
                - Research question
                - Study methodology
                - Key findings
                - Limitations
                - Conclusion

                Title: " +:+ title paper +:+ "
                Abstract: " +:+ abstract paper.

Definition analysis_request `{Runtime} (paper : Paper) : request :=
  completion_request default_origin [] (analysis_prompt paper) (3 # 10) 500 None.

(** The callback of [papers.map] in the report flow. *)
Definition analyze `{Runtime} (paper : Paper) : prog call PaperAnalysis :=
  try_catch
    (analysisResponse <- fetch (analysis_request paper);;
     if negb (ok analysisResponse) then
       errorText <- lift (text analysisResponse);;
       Ret {| paper := paper; analysis := JStr "Analysis failed due to API error" |}
     else
       data <- lift (json analysisResponse);;
       choices <- lift (get_prop data "choices");;
       if no_choices choices then
         Ret {| paper := paper; analysis := JStr "Analysis failed: No valid response from AI" |}
       else
         Ret {| paper := paper;
                analysis := js_or (first_content choices) (JStr "Analysis failed") |})
    (fun error =>
       Ret {| paper := paper; analysis := JStr "Analysis failed due to server error" |}).

Definition dataset_item (a : PaperAnalysis) : string :=
    "Title: **" +:+ title (paper a) +:+ "**  
   Authors: " +:+ Str.join ", " (authors (paper a)) +:+ "  
   Abstract: " +:+ abstract (paper a) +:+ "  
   Analysis: " +:+ to_string (analysis a) +:+ "  
  ".

Definition reportPrompt `{Runtime} (query : jsval) (paperAnalyses : list PaperAnalysis)
  : string :=
  let dataset := Str.join Str.nl (map dataset_item paperAnalyses) in
    "Generate a comprehensive, evidence-based research report on " +:+ Str.dq +:+
    to_string query +:+ Str.dq +:+
    " in a structured academic format. Base the analysis solely on the provided papers, ensuring all claims are supported by their findings. Follow this format precisely, keeping sections concise (max 150 words each unless specified) and avoiding vague generalizations. Use an academic writing style.

---

## " +:+ to_string query +:+ "  
*Generated on " +:+ toLocaleDateString +:+
    "*

---

### Abstract  
Summarize the research (100-150 words):  
- Objective: What is the main goal of this research?  
- Methodology: Overview of key methods used across papers.  
- Findings: Highlight 2-3 major results.  
- Significance: Why do these findings matter?  

---

### Introduction  
Provide context (100-150 words):  
- Background: Why is " +:+ Str.dq +:+ to_string query +:+ Str.dq +:+
    " a significant topic?  
- Problem Statement: What specific issue does this research address?  
- Research Questions: List 2-3 key questions explored in the papers.  
- Scope: Focus on insights from the provided papers only.  

---

### Literature Review  
Analyze existing research (150-200 words):  
- Current State: Summarize trends from the papers.  
- Frameworks: Identify common theories or models (if any).  
- Gaps: Highlight 1-2 gaps the papers address or leave unresolved.  
- Key Terms: Define 2-3 critical concepts from the papers.  

---

### Methodology  
Detail methods (150 words):  
- Approach: Qualitative, quantitative, or mixed?  
- Data Sources: Types of data used in the papers (e.g., experiments, surveys).  
- Analysis Techniques: Specific methods (e.g., statistical tests, simulations).  
- Tools: Mention software or frameworks (if specified).  

---

### Results and Analysis  
Present findings in a table (max 5 rows), followed by a brief analysis (150 words):  

| Category         | Finding             | Evidence (Cite Paper Title) | Impact             |  
|------------------|---------------------|-----------------------------|--------------------|  
| [e.g., Efficiency] | [e.g., 20% improvement] | [e.g., " +:+ Str.q "Paper Title" +:+
    "]   | [e.g., Scalability] |  

- Analysis: Compare findings, note strengths/weaknesses, and link to evidence.  

---

### Discussion  
Evaluate implications (150 words):  
- Interpretation: What do the results mean for " +:+ Str.dq +:+ to_string query +:+ Str.dq +:+
    "?  
- Comparison: How do findings align with broader research?  
- Implications: 1-2 practical or theoretical applications.  
- Limitations: 1-2 constraints from the papers.  

---

### Conclusion  
Summarize takeaways (100-150 words):  
- Contributions: 1-2 new insights from the papers.  
- Key Insights: What should readers remember?  
- Future Directions: 1-2 specific research questions for future work.  

---

### References  
List all papers in APA format:  
- [Author(s)]. ([Year]). [Title]. [Link].  

---

**Guidelines:**  
1. Use only the provided papers as the dataset.  
2. Cite paper titles in the text (e.g., " +:+ Str.q "As shown in 'Paper Title'" +:+
    ").  
3. Include quantitative data (e.g., percentages, metrics) where available.  
4. Avoid speculation; ground all statements in the papersâ€™ abstracts or analyses.  
5. Ensure table data is concise and relevant to " +:+ Str.dq +:+ to_string query +:+
    Str.dq +:+ ".  

**Dataset:**  
" +:+ dataset.

(** The optional organisation header. *)
Definition org_header `{Runtime} : list (string * string) :=
  if truthy (env_var "OPENROUTER_ORG_ID")
  then [("OpenAI-Organization", to_string (env_var "OPENROUTER_ORG_ID"))]
  else [].

Definition report_request `{Runtime} (query : jsval) (paperAnalyses : list PaperAnalysis)
  : request :=
  completion_request cors_origin org_header (reportPrompt query paperAnalyses)
    (3 # 10) 2000 None.

Definition report_row (user_id query finalReport : jsval) : jsval :=
  JObj [("user_id", user_id); ("title", query); ("content", finalReport)].

Definition report_result (finalReport : jsval) (paperAnalyses : list PaperAnalysis)
    (reportRecord : jsval) : jsval :=
  JObj [("report", finalReport);
        ("papers", JArr (map json_of_analysis paperAnalyses));
        ("savedReport", reportRecord)].

(** The search stage of the report flow.  Its [catch] answers and
    returns from the handler: [None] stands for that early return. *)
Definition fetch_papers `{Runtime} (query : jsval) : prog hcall (option (list Paper)) :=
  try_catch
    (arxivResponse <- fetch (arxiv_request query "5");;
     if negb (ok arxivResponse) then Throw (Error "Failed to fetch papers from arXiv")
     else
       xmlData <- lift (text arxivResponse);;
       xmlDoc <- lift (parseFromString xmlData);;
       let entries := Dom.getElementsByTagName "entry" xmlDoc in
       Ret (Some (map paper_of_entry entries)))
    (fun error =>
       send 500 (error_body "Failed to fetch papers from arXiv");;;
       Ret None).

(** The innermost [try] of the report flow: persist and answer. *)
Definition save_report `{Runtime} (req : Request) (query finalReport : jsval)
    (paperAnalyses : list PaperAnalysis) : prog hcall unit :=
  try_catch
    (let user := user req in
     user_id <- (if truthy user then lift (get_prop user "id") else Ret JUndefined);;
     if negb (truthy user) || negb (truthy user_id) then
       Throw (Error "No authenticated user found")
     else
       saved <- await (Insert "reports" (report_row user_id query finalReport));;
       reportRecord <- lift (get_prop saved "data");;
       saveError <- lift (get_prop saved "error");;
       if truthy saveError then
         msg <- lift (get_prop saveError "message");;
         Throw (Error ("Failed to save report: " +:+ to_string msg))
       else if negb (truthy reportRecord) then
         Throw (Error "No report record returned after save")
       else send 200 (report_result finalReport paperAnalyses reportRecord))
    (fun error =>
       send 500 (error_body (message_or error "Failed to save report to database"))).

(** The [try] around the report completion. *)
Definition write_report `{Runtime} (req : Request) (query : jsval)
    (paperAnalyses : list PaperAnalysis) : prog hcall unit :=
  try_catch
    (reportResponse <- fetch (report_request query paperAnalyses);;
     if negb (ok reportResponse) then
       error <- lift (json reportResponse);;
       msg <- lift (get_prop error "message");;
       Throw (Error (to_string (js_or msg (JStr "OpenRouter API error"))))
     else
       reportData <- lift (json reportResponse);;
       choices <- lift (get_prop reportData "choices");;
       if no_choices choices then
         Throw (Error "Failed to generate report: No valid response from AI")
       else
         let finalReport := first_content choices in
         if negb (truthy finalReport) then Throw (Error "No report content generated")
         else save_report req query finalReport paperAnalyses)
    (fun error => send 500 (error_body "Failed to generate report content")).

Definition generate_report_handler `{Runtime} (req : Request) : prog hcall unit :=
  try_catch
    (query <- lift (get_prop (req_body req) "query");;
     if negb (truthy query) then send 400 (error_body "Query is required")
     else
       found <- fetch_papers query;;
       match found with
       | None => Ret tt
       | Some papers =>
           paperAnalyses <- Promise_all (map analyze papers);;
           write_report req query paperAnalyses
       end)
    (fun error => send 500 (error_body (message_or error "Failed to process request"))).

(** ** suggest-prompt *)

Definition suggestion_prompt (initialQuery : jsval) : string :=
    "As a research assistant, analyze this query and suggest improvements:
          
          Original query: " +:+ Str.dq +:+ to_string initialQuery +:+ Str.dq +:+
    "

          Provide response in this JSON format:
          {
            " +:+ Str.q "refinedQuery" +:+ ": " +:+ Str.q "improved version of the query" +:+
    ",
            " +:+ Str.q "suggestedElements" +:+ ": {
              " +:+ Str.q "specificity" +:+ ": [
                " +:+ Str.q "specific aspect 1" +:+ ",
                " +:+ Str.q "specific aspect 2" +:+ "
              ],
              " +:+ Str.q "researchType" +:+ ": [
                " +:+ Str.q "methodology 1" +:+ ",
                " +:+ Str.q "methodology 2" +:+ "
              ],
              " +:+ Str.q "practicalApplication" +:+ ": [
                " +:+ Str.q "application 1" +:+ ",
                " +:+ Str.q "application 2" +:+
    "
              ]
            },
            " +:+ Str.q "questionVariations" +:+ ": [
              {
                " +:+ Str.q "question" +:+ ": " +:+
    Str.q "more specific version of the query" +:+ ",
                " +:+ Str.q "explanation" +:+ ": " +:+
    Str.q "why this version is more effective" +:+
    "
              },
              {
                " +:+ Str.q "question" +:+ ": " +:+
    Str.q "alternative approach to the query" +:+ ",
                " +:+ Str.q "explanation" +:+ ": " +:+ Str.q "how this approach differs" +:+
    "
              }
            ],
            " +:+ Str.q "relatedConcepts" +:+ ": [
              " +:+ Str.q "technical term 1" +:+ ",
              " +:+ Str.q "technical term 2" +:+
    "
            ]
          }

          Guidelines:
          1. Make suggestions more specific and measurable
          2. Include relevant technical terms
          3. Consider different research approaches
          4. Focus on practical applications
          5. Break down complex queries into specific elements".

Definition suggestion_request `{Runtime} (initialQuery : jsval) : request :=
  completion_request default_origin [] (suggestion_prompt initialQuery) (3 # 10) 800 None.

Definition tags_prompt (query : jsval) : string :=
    "Generate 3-4 relevant research type tags for this query: " +:+ Str.dq +:+
    to_string query +:+ Str.dq +:+
    "
          Return only the tags separated by commas, like: " +:+
    Str.q "Specificity, Research type, Practical application".

Definition tags_request `{Runtime} (query : jsval) : request :=
  completion_request default_origin [] (tags_prompt query) (2 # 10) 100 None.

(** [choices[0]?.message?.content.split(',').map(tag => tag.trim()) || []]:
    the optional chain ends the whole expression at a nullish link;
    [content.split] throws unless [content] is a string. *)
Definition split_tags (choices : jsval) : result (list string) :=
  let first := first_item (array_items choices) in
  if nullish first then Ok []
  else
    let msg := opt_prop first "message" in
    if nullish msg then Ok []
    else
      match opt_prop msg "content" with
      | JStr s => Ok (map Str.trim (Str.split "," s))
      | JUndefined => Exn (TypeError "Cannot read properties of undefined (reading 'split')")
      | JNull => Exn (TypeError "Cannot read properties of null (reading 'split')")
      | _ => Exn (TypeError "data.choices[0]?.message?.content.split is not a function")
      end.

Definition getResearchTags `{Runtime} {E} `{Outbound E} (query : jsval)
  : prog E (list string) :=
  try_catch
    (tagResponse <- fetch (tags_request query);;
     if negb (ok tagResponse) then
       errorText <- lift (text tagResponse);;
       Ret []
     else
       data <- lift (json tagResponse);;
       choices <- lift (get_prop data "choices");;
       if no_choices choices then Ret []
       else lift (split_tags choices))
    (fun error => Ret []).

(** [suggestions.researchTags = researchTags], in strict-mode code, as far
    as [res.json] shows the outcome: an object gains or replaces the
    property, an array takes it without serialising it, [null] and
    primitives throw. *)
Definition assign_prop (target : jsval) (k : string) (x : jsval) : result jsval :=
  match target with
  | JObj fields => Ok (JObj (set_own k x fields))
  | JArr items => Ok (JArr items)
  | JUndefined =>
      Exn (TypeError ("Cannot set properties of undefined (setting '" +:+ k +:+ "')"))
  | JNull =>
      Exn (TypeError ("Cannot set properties of null (setting '" +:+ k +:+ "')"))
  | _ => Exn (TypeError ("Cannot create property '" +:+ k +:+ "' on a primitive"))
  end.

Definition suggest_prompt_handler `{Runtime} (req : Request) : prog hcall unit :=
  try_catch
    (initialQuery <- lift (get_prop (req_body req) "initialQuery");;
     suggestionResponse <- fetch (suggestion_request initialQuery);;
     if negb (ok suggestionResponse) then
       errorText <- lift (text suggestionResponse);;
       Throw (Error "Failed to generate prompt suggestion")
     else
       data <- lift (json suggestionResponse);;
       choices <- lift (get_prop data "choices");;
       if no_choices choices then Throw (Error "Invalid suggestion response")
       else
         suggestions <- lift (JSON_parse
                                (to_string (js_or (first_content choices) (JStr "{}"))));;
         researchTags <- getResearchTags initialQuery;;
         suggestions <- lift (assign_prop suggestions "researchTags"
                                (JArr (map JStr researchTags)));;
         send 200 suggestions)
    next_error.

(** ** analyze-paper *)

Definition analyze_paper_prompt (abstract : jsval) : string :=
    "Summarize this research paper abstract in 35 words or less. Output only the summary text, no preamble, labels, or additional commentary.

        Abstract: " +:+ to_string abstract.

Definition analyze_paper_request `{Runtime} (abstract : jsval) : request :=
  completion_request cors_origin [] (analyze_paper_prompt abstract) (3 # 10) 50 (Some 1).

Definition analyze_paper_handler `{Runtime} (req : Request) : prog hcall unit :=
  try_catch
    (abstract <- lift (get_prop (req_body req) "abstract");;
     if negb (truthy abstract) then send 400 (error_body "Abstract is required")
     else
       response <- fetch (analyze_paper_request abstract);;
       if negb (ok response) then
         errorText <- lift (text response);;
         Throw (Error ("Failed to generate AI summary: " +:+ pretty (status response)
                       +:+ " - " +:+ errorText))
       else
         data <- lift (json response);;
         choices <- lift (get_prop data "choices");;
         if no_choices choices then
           Throw (Error "Invalid analysis response: No valid choices in response")
         else
           let summary := first_content choices in
           if negb (truthy summary) then Throw (Error "No summary content generated")
           else send 200 (JObj [("summary", summary)]))
    (fun error => send 500 (error_body (message_or error "Failed to analyze paper"))).

(** ** save-search *)

Definition save_search_handler `{Runtime} (req : Request) : prog hcall unit :=
  try_catch
    (query <- lift (get_prop (req_body req) "query");;
     papers <- lift (get_prop (req_body req) "papers");;
     consolidatedSummary <- lift (get_prop (req_body req) "consolidatedSummary");;
     let user := user req in
     user_id <- (if truthy user then lift (get_prop user "id") else Ret JUndefined);;
     if negb (truthy user) || negb (truthy user_id) then
       Throw (Error "No authenticated user found")
     else
       saved <- await (Insert "reports"
                         (JObj [("user_id", user_id);
                                ("title", query);
                                ("content", consolidatedSummary);
                                ("papers", papers);
                                ("type", JStr "search");
                                ("created_at", JStr toISOString)]));;
       savedSearch <- lift (get_prop saved "data");;
       saveError <- lift (get_prop saved "error");;
       if truthy saveError then
         msg <- lift (get_prop saveError "message");;
         Throw (Error ("Failed to save search: " +:+ to_string msg))
       else
         send 200 (JObj [("savedSearch", savedSearch);
                         ("message", JStr "Search saved successfully")]))
    (fun error => send 500 (error_body (message_or error "Failed to save search"))).

(** ** Authentication middlewares and the router *)

Definition unauthorized {E} `{Outbound E} (msg : string) : prog E (option Request) :=
  send 401 (error_body msg);;; Ret None.

(** The rest of both middlewares once the token is extracted.  [Some req]
    stands for [next()] with [req.user] set. *)
Definition check_token {E} `{Outbound E} (req : Request) (token : jsval)
  : prog E (option Request) :=
  reply <- await (GetUser token);;
  data <- lift (get_prop reply "data");;
  user <- lift (get_prop data "user");;
  error <- lift (get_prop reply "error");;
  if truthy error || negb (truthy user) then unauthorized "Invalid token"
  else Ret (Some (set_user req user)).

(** [middleware/auth.ts] *)
Definition authenticateToken {E} `{Outbound E} (req : Request) : prog E (option Request) :=
  try_catch
    (match authorization req with
     | Some authHeader =>
         if Str.starts_with "Bearer " authHeader then
           let token := default JUndefined (JStr <$> (Str.split " " authHeader !! 1%nat)) in
           check_token req token
         else unauthorized "No token provided"
     | None => unauthorized "No token provided"
     end)
    (fun error => unauthorized "Authentication failed").

(** [authenticateUser] of [server.ts] *)
Definition authenticateUser {E} `{Outbound E} (req : Request) : prog E (option Request) :=
  match authorization req with
  | Some authHeader =>
      if negb (String.eqb authHeader "") then
        try_catch
          (let token := JStr (Str.replace_first "Bearer " "" authHeader) in
           check_token req token)
          (fun error => unauthorized "Authentication failed")
      else unauthorized "No authorization header"
  | None => unauthorized "No authorization header"
  end.

Inductive route : Type :=
| SearchPapers
| GenerateReport
| SuggestPrompt
| AnalyzePaper
| SaveSearch.

Definition middleware_of (r : route) : Request -> prog hcall (option Request) :=
  match r with
  | SuggestPrompt => authenticateUser
  | _ => authenticateToken
  end.

Definition handler_of `{Runtime} (r : route) : Request -> prog hcall unit :=
  match r with
  | SearchPapers => search_papers_handler
  | GenerateReport => generate_report_handler
  | SuggestPrompt => suggest_prompt_handler
  | AnalyzePaper => analyze_paper_handler
  | SaveSearch => save_search_handler
  end.

(** [router.post(path, middleware, handler)]: the handler runs when the
    middleware calls [next()]. *)
Definition serve `{Runtime} (r : route) (req : Request) : prog hcall unit :=
  passed <- middleware_of r req;;
  match passed with
  | Some req' => handler_of r req'
  | None => Ret tt
  end.

(** ** A runtime for the examples *)

(** Readers for the JSON and XML texts the examples use, and URI
    escaping.  The theorems hold for any [Runtime]; this one instantiates
    them. *)

Module JsonText.

Definition is_ws (c : ascii) : bool :=
  let n := nat_of_ascii c in
  (n =? 32)%nat || (n =? 9)%nat || (n =? 10)%nat || (n =? 13)%nat.

Fixpoint skip_ws (s : string) : string :=
  match s with
  | String c rest => if is_ws c then skip_ws rest else s
  | EmptyString => s
  end.

Definition is_digit (c : ascii) : bool :=
  let n := nat_of_ascii c in (48 <=? n)%nat && (n <=? 57)%nat.

Fixpoint digits (acc : Z) (s : string) : Z * string :=
  match s with
  | String c rest =>
      if is_digit c then digits (10 * acc + Z.of_nat (nat_of_ascii c - 48)) rest
      else (acc, s)
  | EmptyString => (acc, s)
  end.

(** An integer literal; a fraction or exponent is not read. *)
Definition unsigned (s : string) : option (Z * string) :=
  match s with
  | String c rest =>
      if Ascii.eqb c "0" then Some (0, rest)
      else if is_digit c then Some (digits 0 s)
      else None
  | EmptyString => None
  end.

Definition number (s : string) : option (jsval * string) :=
  let signed :=
    match s with
    | String c rest =>
        if Ascii.eqb c "-" then
          match unsigned rest with
          | Some (n, rest') => Some (- n, rest')
          | None => None
          end
        else unsigned s
    | EmptyString => None
    end in
  match signed with
  | Some (n, String c rest) =>
      if Ascii.eqb c "." || Ascii.eqb c "e" || Ascii.eqb c "E" then None
      else Some (JNum n, String c rest)
  | Some (n, EmptyString) => Some (JNum n, EmptyString)
  | None => None
  end.

Definition escape (c : ascii) : option ascii :=
  if Ascii.eqb c "034" then Some "034"%char
  else if Ascii.eqb c "092" then Some "092"%char
  else if Ascii.eqb c "/" then Some "/"%char
  else if Ascii.eqb c "b" then Some "008"%char
  else if Ascii.eqb c "f" then Some "012"%char
  else if Ascii.eqb c "n" then Some "010"%char
  else if Ascii.eqb c "r" then Some "013"%char
  else if Ascii.eqb c "t" then Some "009"%char
  else None.

(** The characters of a string literal after its opening quote. *)
Fixpoint chars (s : string) : option (string * string) :=
  match s with
  | EmptyString => None
  | String c rest =>
      if Ascii.eqb c "034" then Some (EmptyString, rest)
      else if Ascii.eqb c "092" then
        match rest with
        | String e rest' =>
            match escape e, chars rest' with
            | Some x, Some (t, after) => Some (String x t, after)
            | _, _ => None
            end
        | EmptyString => None
        end
      else if (nat_of_ascii c <? 32)%nat then None
      else
        match chars rest with
        | Some (t, after) => Some (String c t, after)
        | None => None
        end
  end.

Definition literal (word : string) (v : jsval) (s : string) : option (jsval * string) :=
  if String.prefix word s
  then Some (v, String.substring (String.length word)
                  (String.length s - String.length word) s)
  else None.

Fixpoint value (fuel : nat) (s : string) : option (jsval * string) :=
  match fuel with
  | O => None
  | S fuel =>
      match skip_ws s with
      | EmptyString => None
      | String c rest =>
          if Ascii.eqb c "{" then
            match skip_ws rest with
            | String c' rest' =>
                if Ascii.eqb c' "}" then Some (JObj [], rest')
                else members fuel (String c' rest') []
            | EmptyString => None
            end
          else if Ascii.eqb c "[" then
            match skip_ws rest with
            | String c' rest' =>
                if Ascii.eqb c' "]" then Some (JArr [], rest')
                else elements fuel (String c' rest') []
            | EmptyString => None
            end
          else if Ascii.eqb c "034" then
            match chars rest with
            | Some (t, after) => Some (JStr t, after)
            | None => None
            end
          else if Ascii.eqb c "t" then literal "true" (JBool true) (String c rest)
          else if Ascii.eqb c "f" then literal "false" (JBool false) (String c rest)
          else if Ascii.eqb c "n" then literal "null" JNull (String c rest)
          else number (String c rest)
      end
  end
with elements (fuel : nat) (s : string) (acc : list jsval) : option (jsval * string) :=
  match fuel with
  | O => None
  | S fuel =>
      match value fuel s with
      | Some (v, after) =>
          match skip_ws after with
          | String c rest =>
              if Ascii.eqb c "," then elements fuel rest (acc ++ [v])
              else if Ascii.eqb c "]" then Some (JArr (acc ++ [v]), rest)
              else None
          | EmptyString => None
          end
      | None => None
      end
  end
with members (fuel : nat) (s : string) (acc : list (string * jsval))
  : option (jsval * string) :=
  match fuel with
  | O => None
  | S fuel =>
      match skip_ws s with
      | String q rest =>
          if Ascii.eqb q "034" then
            match chars rest with
            | Some (k, after) =>
                match skip_ws after with
                | String colon after' =>
                    if Ascii.eqb colon ":" then
                      match value fuel after' with
                      | Some (v, after'') =>
                          match skip_ws after'' with
                          | String c rest' =>
                              if Ascii.eqb c "," then members fuel rest' (set_own k v acc)
                              else if Ascii.eqb c "}" then Some (JObj (set_own k v acc), rest')
                              else None
                          | EmptyString => None
                          end
                      | None => None
                      end
                    else None
                | EmptyString => None
                end
            | None => None
            end
          else None
      | EmptyString => None
      end
  end.

Definition parse (s : string) : result jsval :=
  match value (2 * String.length s + 2) s with
  | Some (v, rest) =>
      match skip_ws rest with
      | EmptyString => Ok v
      | _ => Exn (JsError "SyntaxError" "Unexpected non-whitespace character after JSON")
      end
  | None => Exn (JsError "SyntaxError" "Unexpected token in JSON")
  end.

End JsonText.

Module XmlText.

(** The text before the first [stop] and the text after it. *)
Fixpoint until (stop : ascii) (s : string) : option (string * string) :=
  match s with
  | EmptyString => None
  | String c rest =>
      if Ascii.eqb c stop then Some (EmptyString, rest)
      else
        match until stop rest with
        | Some (t, after) => Some (String c t, after)
        | None => None
        end
  end.

(** The text up to the next tag. *)
Fixpoint text_run (s : string) : string * string :=
  match s with
  | EmptyString => (EmptyString, EmptyString)
  | String c rest =>
      if Ascii.eqb c "<" then (EmptyString, s)
      else let '(t, after) := text_run rest in (String c t, after)
  end.

Definition after_prefix (p s : string) : option string :=
  if String.prefix p s
  then Some (String.substring (String.length p) (String.length s - String.length p) s)
  else None.

(** Sibling nodes up to a closing tag or the end: elements without
    attributes, and text. *)
Fixpoint nodes (fuel : nat) (s : string) : option (list xml * string) :=
  match fuel with
  | O => None
  | S fuel =>
      match s with
      | EmptyString => Some ([], s)
      | String c rest =>
          if Ascii.eqb c "<" then
            if String.prefix "/" rest then Some ([], s)
            else
              match until ">" rest with
              | Some (name, inner) =>
                  match nodes fuel inner with
                  | Some (children, closing) =>
                      match after_prefix ("</" +:+ name +:+ ">") closing with
                      | Some following =>
                          match nodes fuel following with
                          | Some (siblings, after) =>
                              Some (XElem name children :: siblings, after)
                          | None => None
                          end
                      | None => None
                      end
                  | None => None
                  end
              | None => None
              end
          else
            let '(t, following) := text_run s in
            match nodes fuel following with
            | Some (siblings, after) => Some (XText t :: siblings, after)
            | None => None
            end
      end
  end.

Definition parse (s : string) : result xml :=
  match nodes (2 * String.length s + 2) s with
  | Some (roots, EmptyString) => Ok (XElem "#document" roots)
  | _ => Exn (JsError "ParseError" "malformed document")
  end.

End XmlText.

Module Uri.

Definition hex_digit (n : nat) : ascii :=
  ascii_of_nat (if (n <? 10)%nat then 48 + n else 55 + n).

Definition percent (n : nat) : string :=
  String "%" (String (hex_digit (n / 16)) (String (hex_digit (n mod 16)) EmptyString)).

(** The characters [encodeURIComponent] leaves alone. *)
Definition unreserved (c : ascii) : bool :=
  let n := nat_of_ascii c in
  ((48 <=? n) && (n <=? 57))%nat || ((65 <=? n) && (n <=? 90))%nat
  || ((97 <=? n) && (n <=? 122))%nat
  || existsb (Ascii.eqb c) ["-"; "_"; "."; "!"; "~"; "*"; "'"; "("; ")"]%char.

(** Code units below 128 are one UTF-8 byte, the others (below 256) two. *)
Definition encode_unit (c : ascii) : string :=
  let n := nat_of_ascii c in
  if unreserved c then String c EmptyString
  else if (n <? 128)%nat then percent n
  else percent (192 + n / 64) +:+ percent (128 + n mod 64).

Fixpoint encode (s : string) : string :=
  match s with
  | EmptyString => EmptyString
  | String c rest => encode_unit c +:+ encode rest
  end.

End Uri.

Definition example_runtime : Runtime :=
  {| JSON_parse := JsonText.parse;
     parseFromString := XmlText.parse;
     encodeURIComponent := Uri.encode;
     toLocaleDateString := "11/3/2026";
     toISOString := "2026-11-03T09:00:00.000Z";
     process_env := fun name =>
       if String.eqb name "OPENROUTER_API_KEY" then Some "sk-test" else None |}.

(** * Properties *)

(** ** Equations of the interpreter *)

Section RunEquations.

Context (w : world).

Lemma run_bind {A B} (p : prog hcall A) (f : A -> prog hcall B) tr :
  run w (bind p f) tr =
  match run w p tr with
  | (Ok a, tr') => run w (f a) tr'
  | (Exn e, tr') => (Exn e, tr')
  end.
Proof.
  revert tr. induction p as [a|e|X c k IH]; intros tr; simpl; try reflexivity.
  destruct (handle w c tr) as [x tr']. apply IH.
Qed.

Lemma run_try_catch {A} (p : prog hcall A) (h : exn -> prog hcall A) tr :
  run w (try_catch p h) tr =
  match run w p tr with
  | (Ok a, tr') => (Ok a, tr')
  | (Exn e, tr') => run w (h e) tr'
  end.
Proof.
  revert tr. induction p as [a|e|X c k IH]; intros tr; simpl; try reflexivity.
  destruct (handle w c tr) as [x tr']. apply IH.
Qed.

Lemma run_ret {A} (a : A) tr : run w (Ret a) tr = (Ok a, tr).
Proof. reflexivity. Qed.

Lemma run_throw {A} (e : exn) tr : run w (@Throw hcall A e) tr = (Exn e, tr).
Proof. reflexivity. Qed.

Lemma run_lift {A} (r : result A) tr : run w (lift r) tr = (r, tr).
Proof. destruct r; reflexivity. Qed.

Lemma run_await {A} (c : call (result A)) tr :
  run w (await c) tr = (answer w (length tr) c, tr ++ [event_of c]).
Proof. simpl. apply run_lift. Qed.

Lemma run_fetch (r : request) tr :
  run w (fetch r) tr = (net w (length tr) r, tr ++ [Fetched r]).
Proof. apply (run_await (Fetch r)). Qed.

Lemma run_send s b tr : run w (send s b) tr = (Ok tt, tr ++ [Sent (Json s b)]).
Proof. reflexivity. Qed.

Lemma run_next_error e tr : run w (next_error e) tr = (Ok tt, tr ++ [Sent (ErrorPage e)]).
Proof. reflexivity. Qed.

Lemma run_Promise_all {B} (tasks : list (prog call B)) tr :
  run w (Promise_all tasks) tr = promise_all w tasks tr.
Proof.
  change (run w (Promise_all tasks) tr)
    with (let '(x, tr') := promise_all w tasks tr in run w (lift x) tr').
  destruct (promise_all w tasks tr) as [r tr']. apply run_lift.
Qed.

Lemma run_task_bind {A B} (p : prog call A) (f : A -> prog call B) tr :
  run_task w (bind p f) tr =
  match run_task w p tr with
  | (Ok a, tr') => run_task w (f a) tr'
  | (Exn e, tr') => (Exn e, tr')
  end.
Proof.
  revert tr. induction p as [a|e|X c k IH]; intros tr; simpl; try reflexivity.
  apply IH.
Qed.

Lemma run_task_try_catch {A} (p : prog call A) (h : exn -> prog call A) tr :
  run_task w (try_catch p h) tr =
  match run_task w p tr with
  | (Ok a, tr') => (Ok a, tr')
  | (Exn e, tr') => run_task w (h e) tr'
  end.
Proof.
  revert tr. induction p as [a|e|X c k IH]; intros tr; simpl; try reflexivity.
  apply IH.
Qed.

Lemma run_task_ret {A} (a : A) tr : run_task w (Ret a) tr = (Ok a, tr).
Proof. reflexivity. Qed.

Lemma run_task_lift {A} (r : result A) tr : run_task w (lift r) tr = (r, tr).
Proof. destruct r; reflexivity. Qed.

Lemma run_task_fetch (r : request) tr :
  run_task w (fetch r) tr = (net w (length tr) r, tr ++ [Fetched r]).
Proof. simpl. apply run_task_lift. Qed.

End RunEquations.

(** ** Joining a batch *)

Section Join.

Context (w : world) {B : Type}.

(** A task that awaits one call and returns a value whatever the
    answer: the shape of both enrichment callbacks. *)
Definition single_await (t : prog call B) : Prop :=
  exists X (c : call X) (k : X -> prog call B),
    t = Vis c k /\ sync_answer c = None /\ forall x, exists v, k x = Ret v.

(** The slot of a task stopped at its first call, and that call. *)
Definition suspended (pos : nat) (t : prog call B) : slot B :=
  match t with
  | Vis c k => Waiting pos c k
  | Ret a => Settled (Ok a)
  | Throw e => Settled (Exn e)
  end.

Definition issued (t : prog call B) : list event :=
  match t with
  | Vis c _ => [event_of c]
  | _ => []
  end.

(** Task [t], started at trace position [pos] and run alone, returns
    [v]. *)
Definition returns (pos : nat) (t : prog call B) (v : B) : Prop :=
  forall tr, length tr = pos -> run_task w t tr = (Ok v, tr ++ issued t).

Definition slot_ok (pos : nat) (t : prog call B) (s : slot B) : Prop :=
  s = suspended pos t \/ exists v, s = Settled (Ok v) /\ returns pos t v.

Definition placed (base : nat) (tasks : list (prog call B))
  : list (nat * prog call B) :=
  imap (fun i t => ((base + i)%nat, t)) tasks.

(** The invariant of a join over single-await tasks: nothing rejected,
    no call issued after the start, every slot either still waiting for
    its own call or holding its own task's value. *)
Definition join_inv (base : nat) (tasks : list (prog call B)) (tr : trace)
    (j : join B) : Prop :=
  rejected j = None /\ events j = tr /\
  Forall2 (fun s pt => slot_ok pt.1 pt.2 s) (slots j) (placed base tasks).

Lemma start_single t tr :
  single_await t ->
  start t tr = (suspended (length tr) t, tr ++ issued t).
Proof.
  intros (X & c & k & -> & Hsync & _). simpl. rewrite Hsync. reflexivity.
Qed.

Lemma issued_single t : single_await t -> length (issued t) = 1%nat.
Proof. intros (X & c & k & -> & _). reflexivity. Qed.

Lemma note_suspended pos t rej :
  single_await t -> note (suspended pos t) rej = rej.
Proof. intros (X & c & k & -> & _). destruct rej; reflexivity. Qed.

Lemma start_all_spec tasks j :
  Forall single_await tasks ->
  start_all tasks j =
  {| slots := slots j ++ imap (fun i t => suspended (length (events j) + i) t) tasks;
     rejected := rejected j;
     events := events j ++ flat_map issued tasks |}.
Proof.
  intros Hall. revert j. induction Hall as [|t tasks Ht Hall IH]; intros j.
  - simpl. rewrite !app_nil_r. destruct j; reflexivity.
  - simpl. rewrite (start_single _ _ Ht), IH. simpl.
    rewrite (note_suspended _ _ _ Ht), <- !app_assoc. simpl.
    f_equal. do 2 f_equal.
    + rewrite Nat.add_0_r. reflexivity.
    + apply imap_ext. intros i t' _. unfold compose. f_equal.
      rewrite length_app, (issued_single _ Ht). lia.
Qed.

Definition is_settled (s : slot B) : bool :=
  match s with
  | Settled _ => true
  | Waiting _ _ _ => false
  end.

Lemma placed_lookup base tasks i pt :
  placed base tasks !! i = Some pt ->
  pt.1 = (base + i)%nat /\ tasks !! i = Some pt.2.
Proof.
  unfold placed. rewrite list_lookup_imap.
  destruct (tasks !! i) as [t|]; simpl; [|discriminate].
  intros [= <-]. split; reflexivity.
Qed.

Lemma join_inv_start tasks tr :
  Forall single_await tasks ->
  join_inv (length tr) tasks (tr ++ flat_map issued tasks)
    (start_all tasks {| slots := []; rejected := None; events := tr |}).
Proof.
  intros Hall. rewrite start_all_spec by assumption. simpl.
  split; [reflexivity|]. split; [reflexivity|].
  apply Forall2_same_length_lookup. split.
  - unfold placed. simpl. rewrite !length_imap. reflexivity.
  - simpl. intros i s pt Hs Hpt. apply placed_lookup in Hpt as [Hpos Ht].
    rewrite list_lookup_imap, Ht in Hs. simpl in Hs. injection Hs as <-.
    left. rewrite Hpos. reflexivity.
Qed.

(** One step of a waiting single-await task settles it with its own
    value. *)
Lemma settle_single pos t :
  single_await t ->
  exists X (c : call X) k v,
    suspended pos t = Waiting pos c k /\
    k (answer w pos c) = Ret v /\ returns pos t v.
Proof.
  intros (X & c & k & -> & Hsync & Hk).
  destruct (Hk (answer w pos c)) as [v Hv].
  exists X, c, k, v. split; [reflexivity|]. split; [assumption|].
  intros tr <-. simpl. rewrite Hv. reflexivity.
Qed.

Lemma join_inv_settle base tasks tr j i t v :
  join_inv base tasks tr j ->
  tasks !! i = Some t ->
  returns (base + i) t v ->
  join_inv base tasks tr
    {| slots := <[i := Settled (Ok v)]> (slots j);
       rejected := note (Settled (Ok v)) (rejected j);
       events := events j |}.
Proof.
  intros (Hrej & Hev & Hslots) Ht Hv. unfold join_inv. simpl.
  rewrite Hrej. split; [reflexivity|]. split; [assumption|].
  assert (Hpt : placed base tasks !! i = Some ((base + i)%nat, t)).
  { unfold placed. rewrite list_lookup_imap, Ht. reflexivity. }
  rewrite <- (list_insert_id _ _ _ Hpt).
  apply Forall2_insert; [assumption|].
  right. exists v. split; [reflexivity | assumption].
Qed.

Lemma resume_inv base tasks tr j i :
  Forall single_await tasks ->
  join_inv base tasks tr j -> join_inv base tasks tr (resume w j i).
Proof.
  intros Hall Hj. pose proof Hj as (Hrej & Hev & Hslots).
  destruct (placed base tasks !! i) as [pt|] eqn:Hpt.
  - destruct (Forall2_lookup_r _ _ _ _ _ Hslots Hpt) as (s & Hs & Hok).
    apply placed_lookup in Hpt as [Hpos Ht].
    assert (Hsingle : single_await pt.2).
    { eapply Forall_lookup_1; eassumption. }
    unfold resume. rewrite Hs.
    destruct Hok as [-> | (v & -> & _)]; [|assumption].
    destruct (settle_single pt.1 _ Hsingle) as (X & c & k & v & -> & Hk & Hv).
    rewrite Hk. simpl. rewrite Hpos in Hv.
    eapply join_inv_settle; eassumption.
  - unfold resume.
    assert (Hnone : slots j !! i = None).
    { apply lookup_ge_None. apply lookup_ge_None in Hpt.
      rewrite (Forall2_length _ _ _ Hslots). exact Hpt. }
    rewrite Hnone. assumption.
Qed.

Lemma finish_inv base tasks tr j i :
  Forall single_await tasks ->
  join_inv base tasks tr j -> join_inv base tasks tr (finish w j i).
Proof.
  intros Hall Hj. pose proof Hj as (Hrej & Hev & Hslots).
  destruct (placed base tasks !! i) as [pt|] eqn:Hpt.
  - destruct (Forall2_lookup_r _ _ _ _ _ Hslots Hpt) as (s & Hs & Hok).
    apply placed_lookup in Hpt as [Hpos Ht].
    assert (Hsingle : single_await pt.2).
    { eapply Forall_lookup_1; eassumption. }
    unfold finish. rewrite Hs.
    destruct Hok as [-> | (v & -> & _)]; [|assumption].
    destruct (settle_single pt.1 _ Hsingle) as (X & c & k & v & -> & Hk & Hv).
    rewrite Hk. simpl. rewrite Hpos in Hv.
    eapply join_inv_settle; eassumption.
  - unfold finish.
    assert (Hnone : slots j !! i = None).
    { apply lookup_ge_None. apply lookup_ge_None in Hpt.
      rewrite (Forall2_length _ _ _ Hslots). exact Hpt. }
    rewrite Hnone. assumption.
Qed.

Lemma finish_length (j : join B) i : length (slots (finish w j i)) = length (slots j).
Proof.
  unfold finish. destruct (slots j !! i) as [[X pos c k|r]|]; try reflexivity.
  destruct (run_task w (k (answer w pos c)) (events j)). simpl.
  apply length_insert.
Qed.

(** [finish] leaves slot [i] settled, and every settled slot as it is. *)
Lemma finish_settles (j : join B) i s :
  slots (finish w j i) !! i = Some s -> is_settled s = true.
Proof.
  unfold finish. destruct (slots j !! i) as [[X pos c k|r]|] eqn:Hi.
  - destruct (run_task w (k (answer w pos c)) (events j)) as [r tr']. simpl.
    rewrite list_lookup_insert_eq by (eapply lookup_lt_Some, Hi).
    intros [= <-]. reflexivity.
  - rewrite Hi. intros [= <-]. reflexivity.
  - rewrite Hi. discriminate.
Qed.

Lemma finish_stable (j : join B) i i' s :
  slots j !! i' = Some s -> is_settled s = true ->
  slots (finish w j i) !! i' = Some s.
Proof.
  intros Hs Hset. unfold finish.
  destruct (slots j !! i) as [[X pos c k|r]|] eqn:Hi; try assumption.
  destruct (run_task w (k (answer w pos c)) (events j)) as [r tr']. simpl.
  destruct (decide (i = i')) as [->|Hne].
  - rewrite Hi in Hs. injection Hs as <-. discriminate.
  - rewrite list_lookup_insert_ne by assumption. assumption.
Qed.

Lemma drain_stable (order : list nat) (j : join B) i' s :
  slots j !! i' = Some s -> is_settled s = true ->
  slots (fold_left (finish w) order j) !! i' = Some s.
Proof.
  revert j. induction order as [|i order IH]; intros j Hs Hset; simpl.
  - assumption.
  - apply IH; [|assumption]. apply finish_stable; assumption.
Qed.

Lemma drain_length (order : list nat) (j : join B) :
  length (slots (fold_left (finish w) order j)) = length (slots j).
Proof.
  revert j. induction order as [|i order IH]; intros j; simpl.
  - reflexivity.
  - rewrite IH. apply finish_length.
Qed.

Lemma drain_settles (order : list nat) (j : join B) i s :
  In i order ->
  slots (fold_left (finish w) order j) !! i = Some s -> is_settled s = true.
Proof.
  revert j. induction order as [|i0 order IH]; intros j Hin Hs; simpl in *.
  - contradiction.
  - destruct Hin as [->|Hin]; [|eapply IH; eassumption].
    destruct (slots (finish w j i) !! i) as [s0|] eqn:H0.
    + pose proof (finish_settles _ _ _ H0) as Hset.
      rewrite (drain_stable order _ _ _ H0 Hset) in Hs.
      injection Hs as <-. assumption.
    + apply lookup_ge_None in H0. rewrite <- (drain_length order) in H0.
      apply lookup_ge_None in H0. rewrite H0 in Hs. discriminate.
Qed.

Lemma drain_inv base tasks tr (order : list nat) (j : join B) :
  Forall single_await tasks ->
  join_inv base tasks tr j ->
  join_inv base tasks tr (fold_left (finish w) order j).
Proof.
  intros Hall. revert j. induction order as [|i order IH]; intros j Hj; simpl.
  - assumption.
  - apply IH, finish_inv; assumption.
Qed.

Lemma settle_inv base tasks tr (order : list nat) (j : join B) :
  Forall single_await tasks ->
  join_inv base tasks tr j ->
  join_inv base tasks tr (fold_left (resume w) order j).
Proof.
  intros Hall. revert j. induction order as [|i order IH]; intros j Hj; simpl.
  - assumption.
  - apply IH, resume_inv; assumption.
Qed.

(** Slots that are all settled with their own task's value read back as
    the list of these values. *)
Lemma values_of_settled (ss : list (slot B)) (pts : list (nat * prog call B)) :
  Forall2 (fun s pt => exists v, s = Settled (Ok v) /\ returns pt.1 pt.2 v) ss pts ->
  Forall2 (fun v pt => returns pt.1 pt.2 v) (omap value_of ss) pts.
Proof.
  induction 1 as [|s pt ss pts (v & -> & Hv) _ IH]; simpl.
  - constructor.
  - constructor; assumption.
Qed.

(** [Promise.all] over single-await tasks: whatever the settle order, it
    fulfils, the only calls made are the tasks' own, in task order, and
    slot [i] holds the value task [i] returns on its own. *)
Theorem promise_all_single tasks tr :
  Forall single_await tasks ->
  exists vs,
    promise_all w tasks tr = (Ok vs, tr ++ flat_map issued tasks) /\
    Forall2 (fun v pt => returns pt.1 pt.2 v) vs (placed (length tr) tasks).
Proof.
  intros Hall. unfold promise_all.
  set (j0 := start_all tasks _).
  set (j1 := fold_left (resume w) (settle_order w) j0).
  set (j2 := fold_left (finish w) (seq 0 (length tasks)) j1).
  assert (H2 : join_inv (length tr) tasks (tr ++ flat_map issued tasks) j2).
  { apply drain_inv, settle_inv, join_inv_start; assumption. }
  destruct H2 as (Hrej & Hev & Hslots).
  exists (omap value_of (slots j2)). split.
  - unfold joined. rewrite Hrej, Hev. reflexivity.
  - apply values_of_settled.
    apply Forall2_same_length_lookup. split; [eapply Forall2_length, Hslots|].
    intros i s pt Hs Hpt.
    pose proof (Forall2_lookup_lr _ _ _ _ _ _ Hslots Hs Hpt) as Hok.
    assert (Hset : is_settled s = true).
    { eapply (drain_settles _ j1 i); [|exact Hs].
      apply in_seq. apply lookup_lt_Some in Hpt.
      unfold placed in Hpt. rewrite length_imap in Hpt. lia. }
    apply placed_lookup in Hpt as [_ Ht].
    assert (Hsingle : single_await pt.2).
    { eapply Forall_lookup_1; eassumption. }
    destruct Hok as [-> | Hv]; [|assumption].
    destruct Hsingle as (X & c & k & Heq & _). rewrite Heq in Hset. discriminate.
Qed.

End Join.

(** ** The enrichment callbacks *)

Section Enrichment.

Context `{Runtime}.

Lemma summarize_single paper : single_await (summarize paper).
Proof.
  eexists _, (Fetch (summary_request paper)), _.
  split; [reflexivity|]. split; [reflexivity|].
  intros [resp|e]; simpl; [|eauto].
  destruct (ok resp); simpl.
  - destruct (json resp) as [data|e]; simpl; [|eauto].
    destruct (get_prop data "choices") as [choices|e]; simpl; [|eauto].
    destruct (no_choices choices); simpl; eauto.
  - destruct (text resp); simpl; eauto.
Qed.

Lemma analyze_single paper : single_await (analyze paper).
Proof.
  eexists _, (Fetch (analysis_request paper)), _.
  split; [reflexivity|]. split; [reflexivity|].
  intros [resp|e]; simpl; [|eauto].
  destruct (ok resp); simpl.
  - destruct (json resp) as [data|e]; simpl; [|eauto].
    destruct (get_prop data "choices") as [choices|e]; simpl; [|eauto].
    destruct (no_choices choices); simpl; eauto.
  - destruct (text resp); simpl; eauto.
Qed.

Lemma issued_summaries papers :
  flat_map issued (map summarize papers)
  = map (fun p => Fetched (summary_request p)) papers.
Proof. induction papers as [|p papers IH]; simpl; congruence. Qed.

Lemma issued_analyses papers :
  flat_map issued (map analyze papers)
  = map (fun p => Fetched (analysis_request p)) papers.
Proof. induction papers as [|p papers IH]; simpl; congruence. Qed.

(** The analysis callback returns its own paper, whatever is answered. *)
Lemma analyze_keeps_paper w p tr a tr' :
  run_task w (analyze p) tr = (Ok a, tr') -> paper a = p.
Proof.
  unfold analyze. rewrite run_task_try_catch, run_task_bind. simpl.
  destruct (net w (length tr) (analysis_request p)) as [resp|e]; simpl;
    [|intros [= <- _]; reflexivity].
  destruct (ok resp); simpl.
  - destruct (json resp) as [data|e]; simpl; [|intros [= <- _]; reflexivity].
    destruct (get_prop data "choices") as [choices|e]; simpl;
      [|intros [= <- _]; reflexivity].
    destruct (no_choices choices); simpl; intros [= <- _]; reflexivity.
  - destruct (text resp); simpl; intros [= <- _]; reflexivity.
Qed.

(** The same world with another settle order. *)
Definition with_order (w : world) (order : list nat) : world :=
  {| net := net w; identity := identity w; store := store w;
     settle_order := order |}.

Lemma run_task_with_order w order {A} (t : prog call A) tr :
  run_task (with_order w order) t tr = run_task w t tr.
Proof.
  revert tr. induction t as [a|e|X c k IH]; intros tr; simpl; try reflexivity.
  rewrite IH. destruct c; reflexivity.
Qed.

Lemma returns_with_order w order {B} pos (t : prog call B) v :
  returns (with_order w order) pos t v -> returns w pos t v.
Proof.
  intros Hv tr Htr. rewrite <- (run_task_with_order w order). apply Hv, Htr.
Qed.

Lemma returns_unique w {B} pos (t : prog call B) v v' :
  returns w pos t v -> returns w pos t v' -> v = v'.
Proof.
  intros Hv Hv'.
  pose proof (Hv (replicate pos (AskedUser JNull)) (length_replicate _ _)) as E.
  rewrite (Hv' _ (length_replicate _ _)) in E. congruence.
Qed.

Lemma returned_values_unique w {B} (vs vs' : list B) pts :
  Forall2 (fun v (pt : nat * prog call B) => returns w pt.1 pt.2 v) vs pts ->
  Forall2 (fun v (pt : nat * prog call B) => returns w pt.1 pt.2 v) vs' pts ->
  vs = vs'.
Proof.
  intros Hvs. revert vs'. induction Hvs as [|v pt vs pts Hv _ IH]; intros vs' Hvs'.
  - inversion Hvs'. reflexivity.
  - inversion Hvs' as [|v' ? vs'' ? Hv' Hrest]; subst.
    f_equal; [eapply returns_unique; eassumption | apply IH, Hrest].
Qed.

(** A batch of single-await tasks: one list of values for every settle
    order, slot [i] being what task [i] returns on its own. *)
Lemma batch_any_order w {B} (tasks : list (prog call B)) tr :
  Forall single_await tasks ->
  exists vs,
    (forall order,
       run (with_order w order) (Promise_all tasks) tr
       = (Ok vs, tr ++ flat_map issued tasks)) /\
    length vs = length tasks /\
    forall i t, tasks !! i = Some t ->
      exists v, vs !! i = Some v /\ returns w (length tr + i) t v.
Proof.
  intros Hall.
  destruct (promise_all_single w tasks tr Hall) as (vs & _ & Hvs).
  exists vs. split; [|split].
  - intros order. rewrite run_Promise_all.
    destruct (promise_all_single (with_order w order) tasks tr Hall)
      as (vs' & -> & Hvs').
    f_equal. f_equal. eapply returned_values_unique; [|exact Hvs].
    eapply Forall2_impl; [exact Hvs'|].
    intros v pt. apply returns_with_order.
  - rewrite (Forall2_length _ _ _ Hvs). unfold placed. apply length_imap.
  - intros i t Ht.
    assert (Hpt : placed (length tr) tasks !! i = Some ((length tr + i)%nat, t)).
    { unfold placed. rewrite list_lookup_imap, Ht. reflexivity. }
    destruct (Forall2_lookup_r _ _ _ _ _ Hvs Hpt) as (v & Hv & Hret).
    exists v. split; assumption.
Qed.

End Enrichment.

(** C1.  An enrichment batch over N papers, in summary mode (search flow)
    and in analysis mode (report flow), fulfils with a sequence of length
    N whose i-th element is the result of the callback for the i-th paper
    (what that callback returns on the answer to its own call, and, in
    analysis mode, a record holding that very paper), whatever the
    completion service answers to each call and whatever the order in
    which the calls complete. *)
Theorem enrichment_keeps_length_and_order `{Runtime}
    (w : world) (papers : list Paper) (tr : trace) :
  (exists summaries : list jsval,
     (forall order,
        run (with_order w order) (Promise_all (map summarize papers)) tr
        = (Ok summaries, tr ++ map (fun p => Fetched (summary_request p)) papers)) /\
     length summaries = length papers /\
     forall i p, papers !! i = Some p ->
       exists v, summaries !! i = Some v /\
                 returns w (length tr + i) (summarize p) v)
  /\
  (exists analyses : list PaperAnalysis,
     (forall order,
        run (with_order w order) (Promise_all (map analyze papers)) tr
        = (Ok analyses, tr ++ map (fun p => Fetched (analysis_request p)) papers)) /\
     length analyses = length papers /\
     map paper analyses = papers /\
     forall i p, papers !! i = Some p ->
       exists a, analyses !! i = Some a /\ paper a = p /\
                 returns w (length tr + i) (analyze p) a).
Proof.
  split.
  - destruct (batch_any_order w (map summarize papers) tr) as (vs & Hrun & Hlen & Hat).
    { apply Forall_map, Forall_forall. intros p _. apply summarize_single. }
    exists vs. rewrite <- issued_summaries. split; [exact Hrun|].
    rewrite length_map in Hlen. split; [exact Hlen|].
    intros i p Hp. apply (Hat i (summarize p)).
    rewrite list_lookup_fmap, Hp. reflexivity.
  - destruct (batch_any_order w (map analyze papers) tr) as (vs & Hrun & Hlen & Hat).
    { apply Forall_map, Forall_forall. intros p _. apply analyze_single. }
    exists vs. rewrite <- issued_analyses. split; [exact Hrun|].
    rewrite length_map in Hlen. split; [exact Hlen|].
    assert (Hslot : forall i p, papers !! i = Some p ->
              exists a, vs !! i = Some a /\ paper a = p /\
                        returns w (length tr + i) (analyze p) a).
    { intros i p Hp. destruct (Hat i (analyze p)) as (a & Ha & Hret).
      { rewrite list_lookup_fmap, Hp. reflexivity. }
      exists a. split; [exact Ha|]. split; [|exact Hret].
      eapply (analyze_keeps_paper w p (replicate (length tr + i) (AskedUser JNull))).
      apply Hret, length_replicate. }
    split; [|exact Hslot].
    apply list_eq. intros i. rewrite list_lookup_fmap.
    destruct (papers !! i) as [p|] eqn:Hp.
    + destruct (Hslot i p Hp) as (a & -> & <- & _). reflexivity.
    + apply lookup_ge_None in Hp. rewrite <- Hlen in Hp.
      apply lookup_ge_None in Hp. rewrite Hp. reflexivity.
Qed.

(** ** The handlers *)

Arguments summary_request : simpl never.
Arguments analysis_request : simpl never.
Arguments consolidated_request : simpl never.
Arguments report_request : simpl never.
Arguments suggestion_request : simpl never.
Arguments tags_request : simpl never.
Arguments arxiv_request : simpl never.
Arguments analyze_paper_request : simpl never.
Arguments error_body : simpl never.
Arguments report_row : simpl never.
Arguments report_result : simpl never.
Arguments search_result : simpl never.
Arguments empty_search_result : simpl never.

(** Rewrites the execution of compound code into the execution of its
    parts. *)
Ltac run_step :=
  repeat (rewrite ?run_try_catch, ?run_bind, ?run_lift, ?run_fetch, ?run_await,
            ?run_send, ?run_next_error, ?run_ret, ?run_throw;
          cbn beta iota).

(** The outbound calls of a trace: everything but the replies. *)
Definition is_outbound (e : event) : bool :=
  match e with Sent _ => false | _ => true end.

(** C3.  A search-papers or generate-report request whose body has no
    query field is answered with status 400 and the body
    {error: 'Query is required'}; the reply is the only event of the
    handler, so no call goes out, neither to the search API nor to the
    completion API. *)
Theorem missing_query_is_rejected `{Runtime}
    (w : world) (req : Request) (fields : list (string * jsval)) (tr : trace) :
  req_body req = JObj fields ->
  own_prop "query" fields = None ->
  (exists new,
     run w (search_papers_handler req) tr = (Ok tt, tr ++ new) /\
     new = [Sent (Json 400 (JObj [("error", JStr "Query is required")]))] /\
     filter is_outbound new = []) /\
  (exists new,
     run w (generate_report_handler req) tr = (Ok tt, tr ++ new) /\
     new = [Sent (Json 400 (JObj [("error", JStr "Query is required")]))] /\
     filter is_outbound new = []).
Proof.
  intros Hbody Hquery.
  split; (eexists; split; [|split; reflexivity]).
  - unfold search_papers_handler, searchPapers. run_step.
    rewrite Hbody. simpl. rewrite Hquery. simpl. run_step. reflexivity.
  - unfold generate_report_handler. run_step.
    rewrite Hbody. simpl. rewrite Hquery. simpl. run_step. reflexivity.
Qed.

Lemma arxiv_is_not_completion `{Runtime} query max_results :
  is_completion_call (Fetched (arxiv_request query max_results)) = false.
Proof. reflexivity. Qed.

(** C2.  When the search API answers a search-papers request with a
    document that has no entry element, the handler replies exactly
    {papers: [], summaries: [], consolidatedSummary: ''}; the search call
    and the reply are its only events, so the completion endpoint is
    called zero times. *)
Theorem empty_search_makes_no_completion_call `{Runtime}
    (w : world) (req : Request) (query : jsval) (resp : fetch_response)
    (xmlData : string) (xmlDoc : xml) (tr : trace) :
  get_prop (req_body req) "query" = Ok query ->
  truthy query = true ->
  net w (length tr) (arxiv_request query "6") = Ok resp ->
  ok resp = true ->
  text resp = Ok xmlData ->
  parseFromString xmlData = Ok xmlDoc ->
  Dom.getElementsByTagName "entry" xmlDoc = [] ->
  exists new,
    run w (search_papers_handler req) tr = (Ok tt, tr ++ new) /\
    new = [Fetched (arxiv_request query "6");
           Sent (Json 200 (JObj [("papers", JArr []);
                                 ("summaries", JArr []);
                                 ("consolidatedSummary", JStr "")]))] /\
    filter is_completion_call new = [].
Proof.
  intros Hquery Htruthy Hnet Hok Htext Hparse Hentries.
  eexists. split; [|split; [reflexivity|reflexivity]].
  unfold search_papers_handler, searchPapers. run_step.
  rewrite Hquery. cbn beta iota. rewrite Htruthy. simpl negb. cbn iota.
  run_step. rewrite Hnet. cbn beta iota. rewrite Hok. simpl negb. cbn iota.
  run_step. rewrite Htext. cbn beta iota. run_step. rewrite Hparse. cbn beta iota.
  rewrite Hentries. simpl. rewrite <- app_assoc. reflexivity.
Qed.

(** ** suggest-prompt *)

Section SuggestPrompt.

Context `{Runtime} (w : world).

(** The tag call always yields a list: one call, no throw. *)
Lemma getResearchTags_returns (query : jsval) tr :
  exists tags,
    run w (getResearchTags query) tr = (Ok tags, tr ++ [Fetched (tags_request query)]).
Proof.
  unfold getResearchTags. run_step.
  destruct (net w (length tr) (tags_request query)) as [resp|e]; cbn beta iota;
    [|run_step; eauto].
  destruct (ok resp); simpl negb; cbn iota; run_step.
  - destruct (json resp) as [data|e]; cbn beta iota; run_step; [|eauto].
    destruct (get_prop data "choices") as [choices|e]; cbn beta iota; [|eauto].
    destruct (no_choices choices); run_step; [eauto|].
    destruct (split_tags choices); eauto.
  - destruct (text resp); cbn beta iota; eauto.
Qed.

(** What the handler does once the body is destructured: the suggestion
    call goes out first, and every JSON reply has status 200. *)
Lemma suggest_prompt_outcome (req : Request) (initialQuery : jsval) tr :
  get_prop (req_body req) "initialQuery" = Ok initialQuery ->
  exists rest,
    run w (suggest_prompt_handler req) tr
      = (Ok tt, tr ++ Fetched (suggestion_request initialQuery) :: rest) /\
    forall s body, In (Sent (Json s body)) rest -> s = 200.
Proof.
  intros Hq. unfold suggest_prompt_handler. run_step. rewrite Hq. cbn beta iota.
  run_step.
  assert (Hend : forall e : exn, exists rest,
            (Ok tt, (tr ++ [Fetched (suggestion_request initialQuery)]) ++ [Sent (ErrorPage e)])
            = (Ok tt, tr ++ Fetched (suggestion_request initialQuery) :: rest) /\
            forall s body, In (Sent (Json s body)) rest -> s = 200).
  { intros e. eexists. rewrite <- app_assoc. split; [reflexivity|].
    simpl. intros s body [[=]|[]]. }
  destruct (net w (length tr) (suggestion_request initialQuery)) as [resp|e];
    cbn beta iota; [|apply Hend].
  destruct (ok resp); simpl negb; cbn iota; run_step.
  - destruct (json resp) as [data|e]; cbn beta iota; run_step; [|apply Hend].
    destruct (get_prop data "choices") as [choices|e]; cbn beta iota; [|apply Hend].
    destruct (no_choices choices); run_step; [apply Hend|].
    destruct (JSON_parse _) as [suggestions|e]; cbn beta iota; [|apply Hend].
    run_step.
    destruct (getResearchTags_returns initialQuery
                (tr ++ [Fetched (suggestion_request initialQuery)])) as (tags & ->).
    cbn beta iota. run_step.
    destruct (assign_prop suggestions _ _) as [merged|e]; cbn beta iota; run_step.
    + eexists. rewrite <- !app_assoc. split; [reflexivity|].
      simpl. intros s body [[=]|[[= <- _]|[]]]. reflexivity.
    + eexists. rewrite <- !app_assoc. split; [reflexivity|].
      simpl. intros s body [[=]|[[=]|[]]].
  - destruct (text resp); cbn beta iota; run_step; apply Hend.
Qed.

(** The suggestion call answered with a body whose first choice parses
    to [suggestions]. *)
Definition suggestion_parsed (o : result fetch_response) (suggestions : jsval) : Prop :=
  exists resp data choices,
    o = Ok resp /\ ok resp = true /\ json resp = Ok data /\
    get_prop data "choices" = Ok choices /\ no_choices choices = false /\
    JSON_parse (to_string (js_or (first_content choices) (JStr "{}"))) = Ok suggestions.

(** With a suggestion that parses to an object, the handler replies with
    that object, its [researchTags] set to the tags. *)
Lemma suggest_prompt_merges (req : Request) (initialQuery : jsval)
    (fields : list (string * jsval)) (tags : list string) tr :
  get_prop (req_body req) "initialQuery" = Ok initialQuery ->
  suggestion_parsed (net w (length tr) (suggestion_request initialQuery)) (JObj fields) ->
  run w (getResearchTags initialQuery) (tr ++ [Fetched (suggestion_request initialQuery)])
    = (Ok tags, (tr ++ [Fetched (suggestion_request initialQuery)])
                ++ [Fetched (tags_request initialQuery)]) ->
  run w (suggest_prompt_handler req) tr
    = (Ok tt, tr ++ [Fetched (suggestion_request initialQuery);
                     Fetched (tags_request initialQuery);
                     Sent (Json 200 (JObj (set_own "researchTags"
                                             (JArr (map JStr tags)) fields)))]).
Proof.
  intros Hq (resp & data & choices & Hnet & Hok & Hjson & Hchoices & Hvalid & Hparse) Htags.
  unfold suggest_prompt_handler. run_step. rewrite Hq. cbn beta iota. run_step.
  rewrite Hnet. cbn beta iota. rewrite Hok. simpl negb. cbn iota. run_step.
  rewrite Hjson. cbn beta iota. run_step. rewrite Hchoices. cbn beta iota.
  rewrite Hvalid. run_step. rewrite Hparse. cbn beta iota. run_step.
  rewrite Htags. cbn beta iota. run_step. simpl. rewrite <- !app_assoc. reflexivity.
Qed.

(** The ways the tag call fails: a rejected call, a non-success status,
    a body that is not JSON, a body without usable choices, a first
    choice whose content is not a string. *)
Inductive tag_call_fails : result fetch_response -> Prop :=
| tag_rejected e : tag_call_fails (Exn e)
| tag_status resp : ok resp = false -> tag_call_fails (Ok resp)
| tag_unparsed resp e : ok resp = true -> json resp = Exn e -> tag_call_fails (Ok resp)
| tag_no_body resp data e :
    ok resp = true -> json resp = Ok data -> get_prop data "choices" = Exn e ->
    tag_call_fails (Ok resp)
| tag_no_choices resp data choices :
    ok resp = true -> json resp = Ok data -> get_prop data "choices" = Ok choices ->
    no_choices choices = true -> tag_call_fails (Ok resp)
| tag_no_text resp data choices e :
    ok resp = true -> json resp = Ok data -> get_prop data "choices" = Ok choices ->
    no_choices choices = false -> split_tags choices = Exn e ->
    tag_call_fails (Ok resp).

Lemma getResearchTags_failure (query : jsval) tr :
  tag_call_fails (net w (length tr) (tags_request query)) ->
  run w (getResearchTags query) tr = (Ok [], tr ++ [Fetched (tags_request query)]).
Proof.
  intros Hfail. unfold getResearchTags. run_step.
  inversion Hfail as [e He|resp Hok He|resp e Hok Hjson He|resp data e Hok Hjson Hch He
                     |resp data choices Hok Hjson Hch Hno He
                     |resp data choices e Hok Hjson Hch Hno Hsplit He];
    cbn beta iota; run_step; try reflexivity.
  - rewrite Hok. simpl negb. cbn iota. run_step.
    destruct (text resp); cbn beta iota; run_step; reflexivity.
  - rewrite Hok. simpl negb. cbn iota. run_step. rewrite Hjson. cbn beta iota.
    run_step. reflexivity.
  - rewrite Hok. simpl negb. cbn iota. run_step. rewrite Hjson. cbn beta iota.
    run_step. rewrite Hch. cbn beta iota. run_step. reflexivity.
  - rewrite Hok. simpl negb. cbn iota. run_step. rewrite Hjson. cbn beta iota.
    run_step. rewrite Hch. cbn beta iota. rewrite Hno. run_step. reflexivity.
  - rewrite Hok. simpl negb. cbn iota. run_step. rewrite Hjson. cbn beta iota.
    run_step. rewrite Hch. cbn beta iota. rewrite Hno. run_step. rewrite Hsplit.
    cbn beta iota. run_step. reflexivity.
Qed.

End SuggestPrompt.

Lemma own_prop_set_own_eq k x fields : own_prop k (set_own k x fields) = Some x.
Proof.
  induction fields as [|[k' v] fields IH]; simpl.
  - rewrite String.eqb_refl. reflexivity.
  - destruct (String.eqb k k') eqn:E; simpl; rewrite ?String.eqb_refl, ?E; auto.
Qed.

Lemma own_prop_set_own_ne k k' x fields :
  k' <> k -> own_prop k' (set_own k x fields) = own_prop k' fields.
Proof.
  intros Hne. induction fields as [|[k0 v] fields IH]; simpl.
  - destruct (String.eqb_spec k' k); [contradiction|reflexivity].
  - destruct (String.eqb_spec k k0) as [->|Hk]; simpl.
    + destruct (String.eqb_spec k' k0); [contradiction|reflexivity].
    + destruct (String.eqb k' k0); [reflexivity|exact IH].
Qed.

(** C9.  A suggest-prompt request whose body has no initialQuery field is
    not rejected: the handler's first event is the completion call, whose
    user message is the suggestion prompt with the missing value rendered
    as the text undefined, and no reply of the handler has status 400. *)
Theorem missing_initial_query_is_not_validated `{Runtime}
    (w : world) (req : Request) (fields : list (string * jsval)) (tr : trace) :
  req_body req = JObj fields ->
  own_prop "initialQuery" fields = None ->
  exists rest,
    run w (suggest_prompt_handler req) tr
      = (Ok tt, tr ++ Fetched (suggestion_request JUndefined) :: rest) /\
    (forall body, ~ In (Sent (Json 400 body)) rest) /\
    (exists b, body (suggestion_request JUndefined) = Some b /\
               map content (messages b) = [suggestion_prompt JUndefined]) /\
    exists before after,
      suggestion_prompt JUndefined
      = before +:+ "Original query: " +:+ Str.q "undefined" +:+ after.
Proof.
  intros Hbody Hquery.
  destruct (suggest_prompt_outcome w req JUndefined tr) as (rest & Hrun & Hstatus).
  { rewrite Hbody. simpl. rewrite Hquery. reflexivity. }
  exists rest. split; [exact Hrun|]. split; [|split].
  - intros body Hin. apply Hstatus in Hin. discriminate.
  - eexists. split; reflexivity.
  - exists ("As a research assistant, analyze this query and suggest improvements:" +:+
            Str.nl +:+ "          " +:+ Str.nl +:+ "          ").
    eexists. vm_compute. reflexivity.
Qed.

(** C6 (amended).  When the model's reply parses to an object, the
    suggest-prompt response is that object with researchTags set to the
    tag list, which is always present and a sequence of strings; every
    other field is present exactly when the parsed reply has it, with the
    value it has there: no default is substituted for a field the reply
    lacks. *)
Theorem suggestion_is_reply_object_with_tags `{Runtime}
    (w : world) (req : Request) (initialQuery : jsval)
    (fields : list (string * jsval)) (tr : trace) :
  get_prop (req_body req) "initialQuery" = Ok initialQuery ->
  suggestion_parsed (net w (length tr) (suggestion_request initialQuery)) (JObj fields) ->
  exists tags merged,
    run w (suggest_prompt_handler req) tr
      = (Ok tt, tr ++ [Fetched (suggestion_request initialQuery);
                       Fetched (tags_request initialQuery);
                       Sent (Json 200 (JObj merged))]) /\
    own_prop "researchTags" merged = Some (JArr (map JStr tags)) /\
    forall k, k <> "researchTags" -> own_prop k merged = own_prop k fields.
Proof.
  intros Hq Hparsed.
  destruct (getResearchTags_returns w initialQuery
              (tr ++ [Fetched (suggestion_request initialQuery)])) as (tags & Htags).
  exists tags, (set_own "researchTags" (JArr (map JStr tags)) fields).
  split; [|split].
  - apply suggest_prompt_merges; assumption.
  - apply own_prop_set_own_eq.
  - intros k Hk. apply own_prop_set_own_ne, Hk.
Qed.

(** C7 (amended).  When the model's suggestion parses to a JSON object
    and the tag call of the suggest-prompt request fails (rejected call,
    non-success status, unusable body), the request still succeeds: the
    reply is the parsed suggestion object with researchTags the empty
    sequence, and in any world that answers the suggestion call the same
    way, whatever happens to the tag call there, the reply has the same
    value for every other field. *)
Theorem failed_tag_call_gives_empty_tags `{Runtime}
    (w : world) (req : Request) (initialQuery : jsval)
    (fields : list (string * jsval)) (tr : trace) :
  get_prop (req_body req) "initialQuery" = Ok initialQuery ->
  suggestion_parsed (net w (length tr) (suggestion_request initialQuery)) (JObj fields) ->
  tag_call_fails (net w (length tr + 1)%nat (tags_request initialQuery)) ->
  exists merged,
    run w (suggest_prompt_handler req) tr
      = (Ok tt, tr ++ [Fetched (suggestion_request initialQuery);
                       Fetched (tags_request initialQuery);
                       Sent (Json 200 (JObj merged))]) /\
    own_prop "researchTags" merged = Some (JArr []) /\
    forall w',
      net w' (length tr) (suggestion_request initialQuery)
      = net w (length tr) (suggestion_request initialQuery) ->
      exists tags merged',
        run w' (suggest_prompt_handler req) tr
          = (Ok tt, tr ++ [Fetched (suggestion_request initialQuery);
                           Fetched (tags_request initialQuery);
                           Sent (Json 200 (JObj merged'))]) /\
        own_prop "researchTags" merged' = Some (JArr (map JStr tags)) /\
        forall k, k <> "researchTags" -> own_prop k merged' = own_prop k merged.
Proof.
  intros Hq Hparsed Hfail.
  exists (set_own "researchTags" (JArr (map JStr [])) fields).
  split; [|split].
  - apply suggest_prompt_merges; [assumption..|].
    apply getResearchTags_failure. rewrite length_app. exact Hfail.
  - apply own_prop_set_own_eq.
  - intros w' Hsame.
    destruct (getResearchTags_returns w' initialQuery
                (tr ++ [Fetched (suggestion_request initialQuery)])) as (tags & Htags).
    exists tags, (set_own "researchTags" (JArr (map JStr tags)) fields).
    split; [|split].
    + apply suggest_prompt_merges; [assumption| |assumption].
      rewrite Hsame. assumption.
    + apply own_prop_set_own_eq.
    + intros k Hk. rewrite !own_prop_set_own_ne by exact Hk. reflexivity.
Qed.

(** ** Failed enrichments *)

Ltac task_step :=
  repeat (rewrite ?run_task_try_catch, ?run_task_bind, ?run_task_lift, ?run_task_fetch,
            ?run_task_ret;
          cbn beta iota).

(** How the code tells a failed completion call: by a non-success status
    whose text can be read, by a body without usable choices, or by
    anything thrown on the way (a rejected call, a body that cannot be
    read or is not JSON, a [null] body). *)
Inductive failure : Type :=
| ApiError
| NoValidResponse
| ThrownError.

Definition summary_placeholder (f : failure) : string :=
  match f with
  | ApiError => "Summary failed due to API error"
  | NoValidResponse => "Summary failed: No valid response"
  | ThrownError => "Summary generation failed"
  end.

Definition analysis_placeholder (f : failure) : string :=
  match f with
  | ApiError => "Analysis failed due to API error"
  | NoValidResponse => "Analysis failed: No valid response from AI"
  | ThrownError => "Analysis failed due to server error"
  end.

Inductive fails_with : result fetch_response -> failure -> Prop :=
| fails_rejected e : fails_with (Exn e) ThrownError
| fails_status resp errorText :
    ok resp = false -> text resp = Ok errorText -> fails_with (Ok resp) ApiError
| fails_status_unread resp e :
    ok resp = false -> text resp = Exn e -> fails_with (Ok resp) ThrownError
| fails_unparsed resp e :
    ok resp = true -> json resp = Exn e -> fails_with (Ok resp) ThrownError
| fails_no_body resp data e :
    ok resp = true -> json resp = Ok data -> get_prop data "choices" = Exn e ->
    fails_with (Ok resp) ThrownError
| fails_no_choices resp data choices :
    ok resp = true -> json resp = Ok data -> get_prop data "choices" = Ok choices ->
    no_choices choices = true -> fails_with (Ok resp) NoValidResponse.

Ltac failure_cases Hfail :=
  inversion Hfail as [e He|resp errorText Hok Htext He|resp e Hok Htext He
                     |resp e Hok Hjson He|resp data e Hok Hjson Hch He
                     |resp data choices Hok Hjson Hch Hno He];
  cbn beta iota; task_step;
  rewrite ?Hok; simpl negb; cbn iota; task_step;
  rewrite ?Htext, ?Hjson; cbn beta iota; task_step;
  rewrite ?Hch; cbn beta iota; task_step;
  rewrite ?Hno; cbn beta iota; task_step.

Lemma summarize_failure `{Runtime} w pos p f :
  fails_with (net w pos (summary_request p)) f ->
  returns w pos (summarize p) (JStr (summary_placeholder f)).
Proof.
  intros Hfail tr <-. unfold summarize. task_step.
  failure_cases Hfail; reflexivity.
Qed.

Lemma analyze_failure `{Runtime} w pos p f :
  fails_with (net w pos (analysis_request p)) f ->
  returns w pos (analyze p) {| paper := p; analysis := JStr (analysis_placeholder f) |}.
Proof.
  intros Hfail tr <-. unfold analyze. task_step.
  failure_cases Hfail; reflexivity.
Qed.

(** C4 (amended).  A paper whose completion call fails gets a fixed
    placeholder in its slot, chosen by the kind of failure: for a
    non-success status 'Summary failed due to API error' (summary mode)
    or 'Analysis failed due to API error' (analysis mode); for a body
    without usable choices 'Summary failed: No valid response' or
    'Analysis failed: No valid response from AI'; for a thrown error
    'Summary generation failed' or 'Analysis failed due to server error'.
    The batch still fulfils with one slot per paper, and every other slot
    holds what its own callback returns. *)
Theorem failed_enrichment_gets_placeholder `{Runtime}
    (w : world) (papers : list Paper) (tr : trace) (i : nat) (p : Paper) (f : failure) :
  papers !! i = Some p ->
  (fails_with (net w (length tr + i) (summary_request p)) f ->
   exists summaries : list jsval,
     (forall order,
        run (with_order w order) (Promise_all (map summarize papers)) tr
        = (Ok summaries, tr ++ map (fun p => Fetched (summary_request p)) papers)) /\
     length summaries = length papers /\
     summaries !! i = Some (JStr (summary_placeholder f)) /\
     forall j q, j <> i -> papers !! j = Some q ->
       exists v, summaries !! j = Some v /\
                 returns w (length tr + j) (summarize q) v)
  /\
  (fails_with (net w (length tr + i) (analysis_request p)) f ->
   exists analyses : list PaperAnalysis,
     (forall order,
        run (with_order w order) (Promise_all (map analyze papers)) tr
        = (Ok analyses, tr ++ map (fun p => Fetched (analysis_request p)) papers)) /\
     length analyses = length papers /\
     analyses !! i = Some {| paper := p; analysis := JStr (analysis_placeholder f) |} /\
     forall j q, j <> i -> papers !! j = Some q ->
       exists a, analyses !! j = Some a /\
                 returns w (length tr + j) (analyze q) a).
Proof.
  intros Hp. split; intros Hfail.
  - destruct (batch_any_order w (map summarize papers) tr) as (vs & Hrun & Hlen & Hat).
    { apply Forall_map, Forall_forall. intros q _. apply summarize_single. }
    exists vs. rewrite <- issued_summaries. split; [exact Hrun|].
    rewrite length_map in Hlen. split; [exact Hlen|]. split.
    + destruct (Hat i (summarize p)) as (v & Hv & Hret).
      { rewrite list_lookup_fmap, Hp. reflexivity. }
      rewrite Hv. f_equal.
      eapply returns_unique; [exact Hret|]. apply summarize_failure, Hfail.
    + intros j q _ Hq. apply (Hat j (summarize q)).
      rewrite list_lookup_fmap, Hq. reflexivity.
  - destruct (batch_any_order w (map analyze papers) tr) as (vs & Hrun & Hlen & Hat).
    { apply Forall_map, Forall_forall. intros q _. apply analyze_single. }
    exists vs. rewrite <- issued_analyses. split; [exact Hrun|].
    rewrite length_map in Hlen. split; [exact Hlen|]. split.
    + destruct (Hat i (analyze p)) as (v & Hv & Hret).
      { rewrite list_lookup_fmap, Hp. reflexivity. }
      rewrite Hv. f_equal.
      eapply returns_unique; [exact Hret|]. apply analyze_failure, Hfail.
    + intros j q _ Hq. apply (Hat j (analyze q)).
      rewrite list_lookup_fmap, Hq. reflexivity.
Qed.

(** ** generate-report *)

Section GenerateReport.

Context `{Runtime} (w : world).

Lemma with_own_order : with_order w (settle_order w) = w.
Proof. destruct w; reflexivity. Qed.

(** The analysis batch always fulfils, with one call per paper. *)
Lemma analyses_fulfil (papers : list Paper) tr :
  exists analyses,
    run w (Promise_all (map analyze papers)) tr
    = (Ok analyses, tr ++ map (fun p => Fetched (analysis_request p)) papers) /\
    length analyses = length papers.
Proof.
  destruct (batch_any_order w (map analyze papers) tr) as (vs & Hrun & Hlen & _).
  { apply Forall_map, Forall_forall. intros p _. apply analyze_single. }
  exists vs. rewrite <- issued_analyses, <- (Hrun (settle_order w)), with_own_order.
  rewrite length_map in Hlen. split; [reflexivity | exact Hlen].
Qed.

(** How the persistence stage ends: without an insert, with an insert
    and an error reply, or with an insert and the success reply that
    carries the record the store returned. *)
Inductive save_outcome (req : Request) (query finalReport : jsval)
    (paperAnalyses : list PaperAnalysis) (pos : nat) : trace -> Prop :=
| save_no_user msg :
    save_outcome req query finalReport paperAnalyses pos
      [Sent (Json 500 (error_body msg))]
| save_failed user_id msg :
    save_outcome req query finalReport paperAnalyses pos
      [Inserted "reports" (report_row user_id query finalReport);
       Sent (Json 500 (error_body msg))]
| save_done user_id saved reportRecord :
    store w pos "reports" (report_row user_id query finalReport) = Ok saved ->
    get_prop saved "data" = Ok reportRecord ->
    truthy reportRecord = true ->
    save_outcome req query finalReport paperAnalyses pos
      [Inserted "reports" (report_row user_id query finalReport);
       Sent (Json 200 (report_result finalReport paperAnalyses reportRecord))].

Lemma save_report_outcome req query finalReport paperAnalyses tr :
  exists new,
    run w (save_report req query finalReport paperAnalyses) tr = (Ok tt, tr ++ new) /\
    save_outcome req query finalReport paperAnalyses (length tr) new.
Proof.
  unfold save_report. run_step.
  assert (Hnone : forall msg, exists new,
            (Ok tt, tr ++ [Sent (Json 500 (error_body msg))])
            = (Ok tt, tr ++ new) /\
            save_outcome req query finalReport paperAnalyses (length tr) new).
  { intros msg. eexists. split; [reflexivity|]. constructor. }
  assert (Hfailed : forall user_id msg, exists new,
            (Ok tt, (tr ++ [Inserted "reports" (report_row user_id query finalReport)])
                    ++ [Sent (Json 500 (error_body msg))])
            = (Ok tt, tr ++ new) /\
            save_outcome req query finalReport paperAnalyses (length tr) new).
  { intros user_id msg. eexists. rewrite <- app_assoc.
    split; [reflexivity|]. constructor. }
  destruct (truthy (user req)) eqn:Huser; cbn beta iota; run_step.
  - destruct (get_prop (user req) "id") as [user_id|e]; cbn beta iota; [|apply Hnone].
    destruct (truthy user_id) eqn:Hid; cbn [negb orb]; cbn iota; run_step; [|apply Hnone].
    cbn [answer event_of].
    destruct (store w (length tr) "reports" (report_row user_id query finalReport))
      as [saved|e] eqn:Hstore; cbn beta iota; [|apply Hfailed].
    run_step.
    destruct (get_prop saved "data") as [reportRecord|e] eqn:Hdata; cbn beta iota;
      [|apply Hfailed].
    run_step.
    destruct (get_prop saved "error") as [saveError|e]; cbn beta iota; [|apply Hfailed].
    destruct (truthy saveError); cbn iota; run_step.
    + destruct (get_prop saveError "message"); cbn beta iota; apply Hfailed.
    + destruct (truthy reportRecord) eqn:Hrec; cbn [negb orb]; cbn iota; run_step;
        [|apply Hfailed].
      eexists. rewrite <- app_assoc. split; [reflexivity|].
      eapply save_done; eassumption.
  - simpl. apply Hnone.
Qed.

(** How the report stage ends: the completion call, then either an error
    reply or the persistence stage for the text the model returned. *)
Inductive report_outcome (req : Request) (query : jsval)
    (paperAnalyses : list PaperAnalysis) (pos : nat) : trace -> Prop :=
| report_failed :
    report_outcome req query paperAnalyses pos
      [Sent (Json 500 (error_body "Failed to generate report content"))]
| report_written finalReport new :
    truthy finalReport = true ->
    save_outcome req query finalReport paperAnalyses pos new ->
    report_outcome req query paperAnalyses pos new.

Lemma write_report_outcome req query paperAnalyses tr :
  exists rest,
    run w (write_report req query paperAnalyses) tr
    = (Ok tt, tr ++ Fetched (report_request query paperAnalyses) :: rest) /\
    report_outcome req query paperAnalyses (S (length tr)) rest.
Proof.
  unfold write_report. run_step.
  assert (Hfailed : exists rest,
            (Ok tt, (tr ++ [Fetched (report_request query paperAnalyses)])
                    ++ [Sent (Json 500 (error_body "Failed to generate report content"))])
            = (Ok tt, tr ++ Fetched (report_request query paperAnalyses) :: rest) /\
            report_outcome req query paperAnalyses (S (length tr)) rest).
  { eexists. rewrite <- app_assoc. split; [reflexivity|]. constructor. }
  destruct (net w (length tr) (report_request query paperAnalyses)) as [resp|e];
    cbn beta iota; [|exact Hfailed].
  destruct (ok resp); cbn [negb orb]; cbn iota; run_step.
  - destruct (json resp) as [data|e]; cbn beta iota; run_step; [|exact Hfailed].
    destruct (get_prop data "choices") as [choices|e]; cbn beta iota; [|exact Hfailed].
    destruct (no_choices choices); cbn iota; run_step; [exact Hfailed|].
    destruct (truthy (first_content choices)) eqn:Hcontent; cbn [negb orb]; cbn iota;
      run_step; [|exact Hfailed].
    destruct (save_report_outcome req query (first_content choices) paperAnalyses
                (tr ++ [Fetched (report_request query paperAnalyses)]))
      as (new & -> & Hnew).
    cbn beta iota. exists new. rewrite <- app_assoc. split; [reflexivity|].
    eapply report_written; [exact Hcontent|].
    rewrite length_app, Nat.add_1_r in Hnew. exact Hnew.
  - destruct (json resp) as [error|e]; cbn beta iota; run_step; [|exact Hfailed].
    destruct (get_prop error "message"); cbn beta iota; run_step; exact Hfailed.
Qed.

(** The handler once the search has answered with a document: one
    analysis call per entry, in order, then the report stage over the
    analyses. *)
Lemma generate_report_after_search req query resp xmlData xmlDoc tr :
  get_prop (req_body req) "query" = Ok query ->
  truthy query = true ->
  net w (length tr) (arxiv_request query "5") = Ok resp ->
  ok resp = true ->
  text resp = Ok xmlData ->
  parseFromString xmlData = Ok xmlDoc ->
  let papers := map paper_of_entry (Dom.getElementsByTagName "entry" xmlDoc) in
  exists analyses rest,
    run w (generate_report_handler req) tr
    = (Ok tt, tr ++ Fetched (arxiv_request query "5")
                 :: map (fun p => Fetched (analysis_request p)) papers
                 ++ Fetched (report_request query analyses) :: rest) /\
    length analyses = length papers /\
    report_outcome req query analyses (length tr + 2 + length papers) rest.
Proof.
  intros Hquery Htruthy Hnet Hok Htext Hparse papers.
  unfold generate_report_handler, fetch_papers. run_step.
  rewrite Hquery. cbn beta iota. rewrite Htruthy. cbn [negb]. cbn iota. run_step.
  rewrite Hnet. cbn beta iota. rewrite Hok. cbn [negb]. cbn iota. run_step.
  rewrite Htext. cbn beta iota. run_step. rewrite Hparse. cbn beta iota. run_step.
  fold papers.
  destruct (analyses_fulfil papers (tr ++ [Fetched (arxiv_request query "5")]))
    as (analyses & Hbatch & Hlen).
  rewrite Hbatch. cbn beta iota.
  destruct (write_report_outcome req query analyses
              ((tr ++ [Fetched (arxiv_request query "5")])
               ++ map (fun p => Fetched (analysis_request p)) papers))
    as (rest & -> & Hrest).
  cbn beta iota. exists analyses, rest. split; [|split; [exact Hlen|]].
  - rewrite <- !app_assoc. reflexivity.
  - rewrite !length_app, length_map in Hrest. simpl in Hrest.
    replace (length tr + 2 + length papers)%nat
      with (S (length tr + 1 + length papers)) by lia.
    exact Hrest.
Qed.

(** Every way the handler ends. *)
Inductive generate_report_outcome (req : Request) (pos : nat) : trace -> Prop :=
| gr_rejected s msg :
    s <> 200 -> generate_report_outcome req pos [Sent (Json s (error_body msg))]
| gr_search_failed query msg :
    generate_report_outcome req pos
      [Fetched (arxiv_request query "5"); Sent (Json 500 (error_body msg))]
| gr_reported query papers analyses rest :
    length analyses = length papers ->
    report_outcome req query analyses (pos + 2 + length papers) rest ->
    generate_report_outcome req pos
      (Fetched (arxiv_request query "5")
         :: map (fun p => Fetched (analysis_request p)) papers
         ++ Fetched (report_request query analyses) :: rest).

Lemma generate_report_ends req tr :
  exists new,
    run w (generate_report_handler req) tr = (Ok tt, tr ++ new) /\
    generate_report_outcome req (length tr) new.
Proof.
  destruct (get_prop (req_body req) "query") as [query|e] eqn:Hquery.
  2:{ unfold generate_report_handler. run_step. rewrite Hquery. cbn beta iota.
      run_step. eexists. split; [reflexivity|]. constructor. discriminate. }
  destruct (truthy query) eqn:Htruthy.
  2:{ unfold generate_report_handler. run_step. rewrite Hquery. cbn beta iota.
      rewrite Htruthy. cbn [negb]. cbn iota. run_step.
      eexists. split; [reflexivity|]. constructor. discriminate. }
  assert (Hfailed : exists new,
            (Ok tt, (tr ++ [Fetched (arxiv_request query "5")])
                    ++ [Sent (Json 500 (error_body "Failed to fetch papers from arXiv"))])
            = (Ok tt, tr ++ new) /\
            generate_report_outcome req (length tr) new).
  { eexists. rewrite <- app_assoc. split; [reflexivity|]. apply gr_search_failed. }
  destruct (net w (length tr) (arxiv_request query "5")) as [resp|e] eqn:Hnet.
  2:{ unfold generate_report_handler, fetch_papers. run_step. rewrite Hquery.
      cbn beta iota. rewrite Htruthy. cbn [negb]. cbn iota. run_step.
      rewrite Hnet. cbn beta iota. run_step. exact Hfailed. }
  destruct (ok resp) eqn:Hok.
  2:{ unfold generate_report_handler, fetch_papers. run_step. rewrite Hquery.
      cbn beta iota. rewrite Htruthy. cbn [negb]. cbn iota. run_step.
      rewrite Hnet. cbn beta iota. rewrite Hok. cbn [negb]. cbn iota. run_step.
      exact Hfailed. }
  destruct (text resp) as [xmlData|e] eqn:Htext.
  2:{ unfold generate_report_handler, fetch_papers. run_step. rewrite Hquery.
      cbn beta iota. rewrite Htruthy. cbn [negb]. cbn iota. run_step.
      rewrite Hnet. cbn beta iota. rewrite Hok. cbn [negb]. cbn iota. run_step.
      rewrite Htext. cbn beta iota. run_step. exact Hfailed. }
  destruct (parseFromString xmlData) as [xmlDoc|e] eqn:Hparse.
  2:{ unfold generate_report_handler, fetch_papers. run_step. rewrite Hquery.
      cbn beta iota. rewrite Htruthy. cbn [negb]. cbn iota. run_step.
      rewrite Hnet. cbn beta iota. rewrite Hok. cbn [negb]. cbn iota. run_step.
      rewrite Htext. cbn beta iota. run_step. rewrite Hparse. cbn beta iota.
      run_step. exact Hfailed. }
  destruct (generate_report_after_search req query resp xmlData xmlDoc tr)
    as (analyses & rest & Hrun & Hlen & Hrest); try assumption.
  eexists. split; [exact Hrun|]. apply gr_reported; assumption.
Qed.


End GenerateReport.


(** The contract of the record store, as the handler relies on it: the
    record returned for an insert has the content of the inserted row. *)
Definition store_returns_row (w : world) : Prop :=
  forall pos table row saved reportRecord,
    store w pos table row = Ok saved ->
    get_prop saved "data" = Ok reportRecord ->
    truthy reportRecord = true ->
    opt_prop reportRecord "content" = opt_prop row "content".

Lemma no_insert_among_analysis_calls `{Runtime} (papers : list Paper) :
  filter is_insert (map (fun p => Fetched (analysis_request p)) papers) = [].
Proof.
  induction papers as [|p papers IH]; [reflexivity|]. simpl.
  rewrite filter_cons_False by (simpl; auto). exact IH.
Qed.

(** C5.  A generate-report request that succeeds (a reply with status
    200) has persisted exactly one record, whose content is the report
    field of the reply; and with a store that returns the record it
    inserted, the savedReport of the reply carries that same content. *)
Theorem successful_report_is_persisted_once `{Runtime}
    (w : world) (req : Request) (tr : trace) :
  exists new,
    run w (generate_report_handler req) tr = (Ok tt, tr ++ new) /\
    forall body, In (Sent (Json 200 body)) new ->
      length (filter is_insert new) = 1%nat /\
      (exists user_id query,
         In (Inserted "reports" (report_row user_id query (opt_prop body "report"))) new) /\
      (store_returns_row w ->
       opt_prop (opt_prop body "savedReport") "content" = opt_prop body "report").
Proof.
  destruct (generate_report_ends w req tr) as (new & Hrun & Hnew).
  exists new. split; [exact Hrun|]. intros body Hin.
  destruct Hnew as [s msg Hs|query msg|query papers analyses rest Hlen Hrest].
  - destruct Hin as [[= Hs' _]|[]]. contradiction.
  - destruct Hin as [[=]|[[=]|[]]].
  - assert (Hin' : In (Sent (Json 200 body)) rest).
    { destruct Hin as [[=]|Hin]. apply in_app_or in Hin as [Hin|[[=]|Hin]].
      - apply in_map_iff in Hin as (p & [=] & _).
      - exact Hin. }
    assert (Hcount : forall rest',
              length (filter is_insert
                        (Fetched (arxiv_request query "5")
                           :: map (fun p => Fetched (analysis_request p)) papers
                           ++ Fetched (report_request query analyses) :: rest'))
              = length (filter is_insert rest')).
    { intros rest'. rewrite filter_cons_False by (simpl; auto).
      rewrite filter_app, no_insert_among_analysis_calls.
      rewrite filter_cons_False by (simpl; auto). reflexivity. }
    rewrite Hcount.
    destruct Hrest as [|finalReport saved_events Hcontent Hsave].
    + destruct Hin' as [[=]|[]].
    + destruct Hsave as [msg|user_id msg|user_id saved reportRecord Hstore Hdata Hrec].
      * destruct Hin' as [[=]|[]].
      * destruct Hin' as [[=]|[[=]|[]]].
      * destruct Hin' as [[=]|[[= <-]|[]]].
        split; [reflexivity|]. split.
        -- exists user_id, query. right. apply in_or_app. right. right. left.
           reflexivity.
        -- intros Hstore_ok. unfold report_result. simpl.
           apply (Hstore_ok _ _ _ _ _ Hstore Hdata Hrec).
Qed.

(** ** Authentication *)

Section Authentication.

Context `{Runtime} (w : world).

(** The user the identity service's answer validates the token to, as
    both middlewares read it. *)
Definition validated_user (o : result jsval) : option jsval :=
  match o with
  | Ok reply =>
      match get_prop reply "data" with
      | Ok data =>
          match get_prop data "user", get_prop reply "error" with
          | Ok user, Ok error =>
              if truthy error || negb (truthy user) then None else Some user
          | _, _ => None
          end
      | Exn _ => None
      end
  | Exn _ => None
  end.

(** The token each middleware extracts, when the header passes its
    check. *)
Definition presented_token (r : route) (req : Request) : option jsval :=
  match r, authorization req with
  | _, None => None
  | SuggestPrompt, Some authHeader =>
      if String.eqb authHeader "" then None
      else Some (JStr (Str.replace_first "Bearer " "" authHeader))
  | _, Some authHeader =>
      if Str.starts_with "Bearer " authHeader
      then Some (default JUndefined (JStr <$> (Str.split " " authHeader !! 1%nat)))
      else None
  end.

Lemma check_token_rejects (req : Request) (token : jsval) tr :
  validated_user (identity w (length tr) token) = None ->
  exists msg,
    run w (try_catch (check_token req token)
             (fun _ => unauthorized "Authentication failed")) tr
    = (Ok None, tr ++ [AskedUser token; Sent (Json 401 (error_body msg))]).
Proof.
  unfold validated_user, check_token, unauthorized. intros Hnone. run_step.
  cbn [answer event_of].
  destruct (identity w (length tr) token) as [reply|e]; cbn beta iota; run_step.
  2:{ eexists. rewrite <- app_assoc. reflexivity. }
  destruct (get_prop reply "data") as [data|e]; cbn beta iota; run_step.
  2:{ eexists. rewrite <- app_assoc. reflexivity. }
  destruct (get_prop data "user") as [user|e]; cbn beta iota; run_step.
  2:{ eexists. rewrite <- app_assoc. reflexivity. }
  destruct (get_prop reply "error") as [error|e]; cbn beta iota; run_step.
  2:{ eexists. rewrite <- app_assoc. reflexivity. }
  destruct (truthy error || negb (truthy user)); [|discriminate].
  run_step. eexists. rewrite <- app_assoc. reflexivity.
Qed.

(** On every route, a request that presents no token, or one the
    identity service does not validate to a user, is answered 401 by the
    middleware; the handler does not run, so the trace holds no search,
    completion or persistence call. *)
Lemma unvalidated_request_is_rejected (r : route) (req : Request) tr :
  match presented_token r req with
  | None =>
      exists msg,
        run w (serve r req) tr = (Ok tt, tr ++ [Sent (Json 401 (error_body msg))])
  | Some token =>
      validated_user (identity w (length tr) token) = None ->
      exists msg,
        run w (serve r req) tr
        = (Ok tt, tr ++ [AskedUser token; Sent (Json 401 (error_body msg))])
  end.
Proof.
  assert (Htoken : forall token,
            validated_user (identity w (length tr) token) = None ->
            exists msg,
              (let (r0, tr') :=
                 run w (try_catch (check_token req token)
                          (fun _ => unauthorized "Authentication failed")) tr in
               match r0 with
               | Ok (Some req') => run w (handler_of r req') tr'
               | Ok None => run w (Ret tt) tr'
               | Exn e => (Exn e, tr')
               end)
              = (Ok tt, tr ++ [AskedUser token; Sent (Json 401 (error_body msg))])).
  { intros token Hnone. destruct (check_token_rejects req token tr Hnone) as (msg & ->).
    exists msg. reflexivity. }
  unfold serve, presented_token.
  destruct r; cbn [middleware_of]; unfold authenticateToken, authenticateUser;
    destruct (authorization req) as [authHeader|]; cbn beta iota.
  all: try (unfold unauthorized; run_step; eexists; reflexivity).
  all: try (destruct (Str.starts_with "Bearer " authHeader); cbn iota;
            [intros Hnone; rewrite run_bind;
             destruct (Htoken _ Hnone) as (msg & Hrun); exists msg;
             rewrite <- Hrun; destruct (run w _ tr) as [[[?|]|] ?]; reflexivity
            |unfold unauthorized; run_step; eexists; reflexivity]).
  destruct (String.eqb authHeader ""); cbn [negb]; cbn iota.
  - unfold unauthorized. run_step. eexists. reflexivity.
  - intros Hnone. rewrite run_bind.
    destruct (Htoken _ Hnone) as (msg & Hrun). exists msg.
    rewrite <- Hrun. destruct (run w _ tr) as [[[?|]|] ?]; reflexivity.
Qed.

End Authentication.

(** * Worked examples *)

(** [JSON.stringify] of a string without control characters. *)
Fixpoint json_string_body (s : string) : string :=
  match s with
  | EmptyString => Str.dq
  | String c rest =>
      if Ascii.eqb c "034" || Ascii.eqb c "092"
      then String "092" (String c (json_string_body rest))
      else String c (json_string_body rest)
  end.

Definition json_string (s : string) : string := Str.dq +:+ json_string_body s.

(** The body of a completion whose first choice has the given content,
    written as a JSON value. *)
Definition completion_text (content_json : string) : string :=
  "{" +:+ Str.q "choices" +:+ ":[{" +:+ Str.q "message" +:+ ":{" +:+
  Str.q "content" +:+ ":" +:+ content_json +:+ "}}]}".

(** A response with the given status and body text, read by the
    example runtime's JSON reader. *)
Definition http_response (code : Z) (body_text : string) : fetch_response :=
  {| ok := (200 <=? code) && (code <? 300);
     status := code;
     statusText := if (200 <=? code) && (code <? 300) then "OK" else "Error";
     text := Ok body_text;
     json := JsonText.parse body_text |}.

Definition http_reply (code : Z) (body_text : string) : result fetch_response :=
  Ok (http_response code body_text).

Definition network_down : result fetch_response :=
  Exn (JsError "FetchError" "request to https://openrouter.ai failed").

(** The identity service knows one token. *)
Definition example_identity (token : jsval) : result jsval :=
  match token with
  | JStr t =>
      if String.eqb t "tok-1"
      then Ok (JObj [("data", JObj [("user", JObj [("id", JStr "user-1")])]);
                     ("error", JNull)])
      else Ok (JObj [("data", JObj [("user", JNull)]);
                     ("error", JObj [("message", JStr "invalid JWT")])])
  | _ => Ok (JObj [("data", JObj [("user", JNull)]);
                   ("error", JObj [("message", JStr "invalid JWT")])])
  end.

(** The store returns the inserted row with an id. *)
Definition example_store (row : jsval) : result jsval :=
  match row with
  | JObj fields => Ok (JObj [("data", JObj (("id", JNum 7) :: fields)); ("error", JNull)])
  | _ => Ok (JObj [("data", JNull); ("error", JObj [("message", JStr "bad row")])])
  end.

(** A world that answers the calls of a request in the order they are
    made, and settles batches in the given order. *)
Definition scripted (answers : list (result fetch_response)) (order : list nat) : world :=
  {| net := fun pos _ => default network_down (answers !! pos);
     identity := fun _ token => example_identity token;
     store := fun _ _ row => example_store row;
     settle_order := order |}.

Definition empty_feed : string := "<feed></feed>".

Definition two_entry_feed : string :=
  "<feed><entry><title>Attention
 is all you need</title><summary> Transformers. </summary><id>http://arxiv.org/abs/1</id><author><name>A. Vaswani</name></author></entry><entry><title>BERT</title><summary>Pre-training.</summary><id>http://arxiv.org/abs/2</id><author><name>J. Devlin</name></author><author><name>M. Chang</name></author></entry></feed>".

Definition paper_one : Paper :=
  {| title := "Attention  is all you need";
     authors := ["A. Vaswani"];
     abstract := "Transformers.";
     link := "http://arxiv.org/abs/1" |}.

Definition paper_two : Paper :=
  {| title := "BERT";
     authors := ["J. Devlin"; "M. Chang"];
     abstract := "Pre-training.";
     link := "http://arxiv.org/abs/2" |}.

Definition query_request (header : option string) (field value : string) : Request :=
  {| authorization := header;
     req_body := JObj [(field, JStr value)];
     user := JObj [("id", JStr "user-1")] |}.

Definition empty_request : Request :=
  {| authorization := Some "Bearer tok-1";
     req_body := JObj [];
     user := JObj [("id", JStr "user-1")] |}.

(** The reader of the example runtime finds both papers of the feed. *)
Example feed_has_two_papers :
  (fun doc => map paper_of_entry (Dom.getElementsByTagName "entry" doc))
    <$> (match XmlText.parse two_entry_feed with Ok d => Some d | Exn _ => None end)
  = Some [paper_one; paper_two].
Proof. vm_compute. reflexivity. Qed.

(** The batch of the search flow with the second call settling first, the
    first call failing: the summaries still come back in paper order. *)
Example summaries_settled_backwards :
  run (scripted [http_reply 500 "busy";
                 http_reply 200 (completion_text (json_string "- pre-training"))]
         [1; 0]%nat)
      (Promise_all (map (@summarize example_runtime) [paper_one; paper_two])) []
  = (Ok [JStr "Summary failed due to API error"; JStr "- pre-training"],
     [Fetched (@summary_request example_runtime paper_one);
      Fetched (@summary_request example_runtime paper_two)]).
Proof. vm_compute. reflexivity. Qed.

(** Both handlers on a request whose body is the empty object. *)
Lemma missing_query_is_rejected_witness :
  (exists new,
     run (scripted [] []) (@search_papers_handler example_runtime empty_request) []
     = (Ok tt, [] ++ new) /\
     new = [Sent (Json 400 (JObj [("error", JStr "Query is required")]))] /\
     filter is_outbound new = []) /\
  (exists new,
     run (scripted [] []) (@generate_report_handler example_runtime empty_request) []
     = (Ok tt, [] ++ new) /\
     new = [Sent (Json 400 (JObj [("error", JStr "Query is required")]))] /\
     filter is_outbound new = []).
Proof.
  apply (@missing_query_is_rejected example_runtime (scripted [] []) empty_request [] []);
    reflexivity.
Defined.

(** The search flow on a feed without entries. *)
Lemma empty_search_makes_no_completion_call_witness :
  exists new,
    run (scripted [http_reply 200 empty_feed] [])
        (@search_papers_handler example_runtime
           (query_request (Some "Bearer tok-1") "query" "transformers")) []
    = (Ok tt, [] ++ new) /\
    new = [Fetched (@arxiv_request example_runtime (JStr "transformers") "6");
           Sent (Json 200 (JObj [("papers", JArr []);
                                 ("summaries", JArr []);
                                 ("consolidatedSummary", JStr "")]))] /\
    filter is_completion_call new = [].
Proof.
  apply (@empty_search_makes_no_completion_call example_runtime
           (scripted [http_reply 200 empty_feed] [])
           (query_request (Some "Bearer tok-1") "query" "transformers")
           (JStr "transformers") (http_response 200 empty_feed) empty_feed
           (XElem "#document" [XElem "feed" []]) []);
    reflexivity.
Defined.

(** suggest-prompt on a request whose body is the empty object, the
    completion service being unreachable. *)
Lemma missing_initial_query_is_not_validated_witness :
  exists rest,
    run (scripted [network_down] []) (@suggest_prompt_handler example_runtime empty_request) []
      = (Ok tt, [] ++ Fetched (@suggestion_request example_runtime JUndefined) :: rest) /\
    (forall body, ~ In (Sent (Json 400 body)) rest) /\
    (exists b, body (@suggestion_request example_runtime JUndefined) = Some b /\
               map content (messages b) = [suggestion_prompt JUndefined]) /\
    exists before after,
      suggestion_prompt JUndefined
      = before +:+ "Original query: " +:+ Str.q "undefined" +:+ after.
Proof.
  apply (@missing_initial_query_is_not_validated example_runtime
           (scripted [network_down] []) empty_request [] []);
    reflexivity.
Defined.

(** A completion that answers with a non-success status, then one that
    answers. *)
Definition first_call_refused : world :=
  scripted [http_reply 500 "busy";
            http_reply 200 (completion_text (json_string "- pre-training"))] [].

(** C4, as stated, fails: the completion call of the first paper fails
    with a non-success status, and its slot does not hold
    'Summary generation failed' but 'Summary failed due to API error'. *)
Lemma refused_call_has_its_own_placeholder :
  exists resp summaries tr',
    net first_call_refused 0 (@summary_request example_runtime paper_one) = Ok resp /\
    ok resp = false /\
    run first_call_refused
        (Promise_all (map (@summarize example_runtime) [paper_one; paper_two])) []
    = (Ok summaries, tr') /\
    summaries !! 0%nat = Some (JStr "Summary failed due to API error") /\
    summaries !! 0%nat <> Some (JStr "Summary generation failed").
Proof.
  exists (http_response 500 "busy").
  exists [JStr "Summary failed due to API error"; JStr "- pre-training"].
  eexists. split; [reflexivity|]. split; [reflexivity|].
  split; [vm_compute; reflexivity|]. split; [reflexivity|]. discriminate.
Qed.

(** The summary batch of two papers whose first call is refused: the
    first slot holds the placeholder of a non-success status. *)
Lemma failed_enrichment_gets_placeholder_witness :
  exists summaries : list jsval,
    (forall order,
       run (with_order first_call_refused order)
           (Promise_all (map (@summarize example_runtime) [paper_one; paper_two])) []
       = (Ok summaries,
          [] ++ map (fun p => Fetched (@summary_request example_runtime p))
                  [paper_one; paper_two])) /\
    length summaries = length [paper_one; paper_two] /\
    summaries !! 0%nat = Some (JStr (summary_placeholder ApiError)) /\
    forall j q, j <> 0%nat -> [paper_one; paper_two] !! j = Some q ->
      exists v, summaries !! j = Some v /\
                returns first_call_refused (length (@nil event) + j)
                  (@summarize example_runtime q) v.
Proof.
  apply (proj1 (@failed_enrichment_gets_placeholder example_runtime first_call_refused
                  [paper_one; paper_two] [] 0%nat paper_one ApiError eq_refl)).
  apply (fails_status (http_response 500 "busy") "busy"); reflexivity.
Defined.

(** The model answers the suggestion call with an object that has only a
    refined query; the tag call answers with two tags. *)
Definition partial_suggestion : string :=
  "{" +:+ Str.q "refinedQuery" +:+ ":" +:+ Str.q "llm evaluation" +:+ "}".

Definition partial_suggestion_world : world :=
  scripted [http_reply 200 (completion_text (json_string partial_suggestion));
            http_reply 200 (completion_text (json_string "Specificity, Research type"))]
    [].

Definition tags_refused_world : world :=
  scripted [http_reply 200 (completion_text (json_string partial_suggestion));
            http_reply 503 "busy"]
    [].

Definition suggest_request : Request :=
  query_request (Some "Bearer tok-1") "initialQuery" "llm".

(** C6, as stated, fails: the reply to this request has the refined
    query and the tags, and none of suggestedElements, questionVariations
    and relatedConcepts: no default stands in for them. *)
Lemma partial_suggestion_gets_no_defaults :
  exists body,
    run partial_suggestion_world
        (@suggest_prompt_handler example_runtime suggest_request) []
    = (Ok tt, [Fetched (@suggestion_request example_runtime (JStr "llm"));
               Fetched (@tags_request example_runtime (JStr "llm"));
               Sent (Json 200 body)]) /\
    body = JObj [("refinedQuery", JStr "llm evaluation");
                 ("researchTags", JArr [JStr "Specificity"; JStr "Research type"])] /\
    opt_prop body "suggestedElements" = JUndefined /\
    opt_prop body "questionVariations" = JUndefined /\
    opt_prop body "relatedConcepts" = JUndefined.
Proof.
  eexists. split; [vm_compute; reflexivity|].
  split; [reflexivity|]. split; [reflexivity|]. split; reflexivity.
Qed.

(** The first answer of these worlds parses to the partial suggestion. *)
Lemma partial_suggestion_parsed (w : world) (rest : list (result fetch_response)) order :
  w = scripted (http_reply 200 (completion_text (json_string partial_suggestion)) :: rest)
        order ->
  @suggestion_parsed example_runtime
    (net w 0 (@suggestion_request example_runtime (JStr "llm")))
    (JObj [("refinedQuery", JStr "llm evaluation")]).
Proof.
  intros ->.
  exists (http_response 200 (completion_text (json_string partial_suggestion))).
  exists (JObj [("choices",
                 JArr [JObj [("message", JObj [("content", JStr partial_suggestion)])]])]).
  exists (JArr [JObj [("message", JObj [("content", JStr partial_suggestion)])]]).
  repeat split; vm_compute; reflexivity.
Defined.

(** The reply to the partial suggestion: the parsed object and the tags. *)
Lemma suggestion_is_reply_object_with_tags_witness :
  exists tags merged,
    run partial_suggestion_world
        (@suggest_prompt_handler example_runtime suggest_request) []
      = (Ok tt, [] ++ [Fetched (@suggestion_request example_runtime (JStr "llm"));
                       Fetched (@tags_request example_runtime (JStr "llm"));
                       Sent (Json 200 (JObj merged))]) /\
    own_prop "researchTags" merged = Some (JArr (map JStr tags)) /\
    forall k, k <> "researchTags" ->
      own_prop k merged = own_prop k [("refinedQuery", JStr "llm evaluation")].
Proof.
  apply (@suggestion_is_reply_object_with_tags example_runtime partial_suggestion_world
           suggest_request (JStr "llm") [("refinedQuery", JStr "llm evaluation")] []).
  - reflexivity.
  - eapply partial_suggestion_parsed. reflexivity.
Defined.

(** The partial suggestion with the tag call refused. *)
Lemma failed_tag_call_gives_empty_tags_witness :
  exists merged,
    run tags_refused_world (@suggest_prompt_handler example_runtime suggest_request) []
      = (Ok tt, [] ++ [Fetched (@suggestion_request example_runtime (JStr "llm"));
                       Fetched (@tags_request example_runtime (JStr "llm"));
                       Sent (Json 200 (JObj merged))]) /\
    own_prop "researchTags" merged = Some (JArr []) /\
    forall w',
      net w' (length (@nil event)) (@suggestion_request example_runtime (JStr "llm"))
      = net tags_refused_world (length (@nil event))
          (@suggestion_request example_runtime (JStr "llm")) ->
      exists tags merged',
        run w' (@suggest_prompt_handler example_runtime suggest_request) []
          = (Ok tt, [] ++ [Fetched (@suggestion_request example_runtime (JStr "llm"));
                           Fetched (@tags_request example_runtime (JStr "llm"));
                           Sent (Json 200 (JObj merged'))]) /\
        own_prop "researchTags" merged' = Some (JArr (map JStr tags)) /\
        forall k, k <> "researchTags" -> own_prop k merged' = own_prop k merged.
Proof.
  apply (@failed_tag_call_gives_empty_tags example_runtime tags_refused_world
           suggest_request (JStr "llm") [("refinedQuery", JStr "llm evaluation")] []).
  - reflexivity.
  - eapply partial_suggestion_parsed. reflexivity.
  - apply (tag_status (http_response 503 "busy")). reflexivity.
Defined.

(** The model answers the suggestion call with a JSON array, or with
    null; the tag call is refused. *)
Definition array_suggestion_world : world :=
  scripted [http_reply 200 (completion_text (json_string "[]"));
            http_reply 503 "busy"]
    [].

Definition null_suggestion_world : world :=
  scripted [http_reply 200 (completion_text (json_string "null"));
            http_reply 503 "busy"]
    [].

(** C7, as stated, fails: the tag call of this request fails, and the
    reply is the array the model sent, which has no researchTags field:
    the assignment to an array does not show in the JSON reply. *)
Lemma array_suggestion_gets_no_tags :
  exists resp body,
    net array_suggestion_world 1 (@tags_request example_runtime (JStr "llm")) = Ok resp /\
    ok resp = false /\
    run array_suggestion_world
        (@suggest_prompt_handler example_runtime suggest_request) []
    = (Ok tt, [Fetched (@suggestion_request example_runtime (JStr "llm"));
               Fetched (@tags_request example_runtime (JStr "llm"));
               Sent (Json 200 body)]) /\
    body = JArr [] /\
    opt_prop body "researchTags" = JUndefined /\
    opt_prop body "researchTags" <> JArr [].
Proof.
  exists (http_response 503 "busy"), (JArr []).
  split; [reflexivity|]. split; [reflexivity|].
  split; [vm_compute; reflexivity|]. split; [reflexivity|].
  split; [reflexivity|]. discriminate.
Qed.

(** With the suggestion null the request fails after both calls, as it
    would with a tag call that succeeds. *)
Example null_suggestion_fails_request :
  exists e,
    run null_suggestion_world
        (@suggest_prompt_handler example_runtime suggest_request) []
    = (Ok tt, [Fetched (@suggestion_request example_runtime (JStr "llm"));
               Fetched (@tags_request example_runtime (JStr "llm"));
               Sent (ErrorPage e)]).
Proof. eexists. vm_compute. reflexivity. Qed.

(** The search finds nothing; the report completion answers. *)
Definition nothing_found_world : world :=
  scripted [http_reply 200 empty_feed;
            http_reply 200 (completion_text (json_string "# No evidence"))]
    [].

Definition report_request_example : Request :=
  query_request (Some "Bearer tok-1") "query" "transformers".


(** The scripted store keeps the contract [store_returns_row]. *)
Lemma scripted_store_returns_row answers order :
  store_returns_row (scripted answers order).
Proof.
  intros pos table row saved reportRecord Hstore Hdata Hrec. simpl in Hstore.
  destruct row as [| |b|n|s|items|fields]; simpl in Hstore;
    injection Hstore as <-; simpl in Hdata; injection Hdata as <-;
    try discriminate.
  reflexivity.
Qed.

(** A whole generate-report request over two papers, the analysis of the
    second paper settling first: one insert, and the saved record carries
    the report. *)
Definition two_papers_world : world :=
  scripted [http_reply 200 two_entry_feed;
            http_reply 200 (completion_text (json_string "analysis one"));
            network_down;
            http_reply 200 (completion_text (json_string "# Report"))]
    [1; 0]%nat.

Example report_over_two_papers :
  run two_papers_world
      (@generate_report_handler example_runtime report_request_example) []
  = (Ok tt,
     [Fetched (@arxiv_request example_runtime (JStr "transformers") "5");
      Fetched (@analysis_request example_runtime paper_one);
      Fetched (@analysis_request example_runtime paper_two);
      Fetched (@report_request example_runtime (JStr "transformers")
                 [{| paper := paper_one; analysis := JStr "analysis one" |};
                  {| paper := paper_two;
                     analysis := JStr "Analysis failed due to server error" |}]);
      Inserted "reports"
        (report_row (JStr "user-1") (JStr "transformers") (JStr "# Report"));
      Sent (Json 200
              (report_result (JStr "# Report")
                 [{| paper := paper_one; analysis := JStr "analysis one" |};
                  {| paper := paper_two;
                     analysis := JStr "Analysis failed due to server error" |}]
                 (JObj [("id", JNum 7);
                        ("user_id", JStr "user-1");
                        ("title", JStr "transformers");
                        ("content", JStr "# Report")])))]).
Proof. vm_compute. reflexivity. Qed.

(** A whole search-papers request over the same feed, the second summary
    settling first and failing: papers and summaries stay aligned. *)
Definition search_two_papers_world : world :=
  scripted [http_reply 200 two_entry_feed;
            http_reply 200 (completion_text (json_string "- attention"));
            http_reply 200 "{}";
            http_reply 200 (completion_text (json_string "Two language models."))]
    [1; 0]%nat.

Example search_over_two_papers :
  run search_two_papers_world
      (@search_papers_handler example_runtime report_request_example) []
  = (Ok tt,
     [Fetched (@arxiv_request example_runtime (JStr "transformers") "6");
      Fetched (@summary_request example_runtime paper_one);
      Fetched (@summary_request example_runtime paper_two);
      Fetched (@consolidated_request example_runtime [paper_one; paper_two]);
      Sent (Json 200
              (JObj [("papers", JArr [json_of_paper paper_one; json_of_paper paper_two]);
                     ("summaries", JArr [JStr "- attention";
                                         JStr "Summary failed: No valid response"]);
                     ("consolidatedSummary", JStr "Two language models.")]))]).
Proof. vm_compute. reflexivity. Qed.

(** A request that carries the token without the Bearer scheme. *)
Definition bare_token_request : Request :=
  {| authorization := Some "tok-1";
     req_body := JObj [("initialQuery", JStr "llm"); ("query", JStr "llm")];
     user := JUndefined |}.

(** The world of [partial_suggestion_world] for a whole route: position 0
    of the trace is the identity call. *)
Definition behind_auth_world : world :=
  scripted [network_down;
            http_reply 200 (completion_text (json_string partial_suggestion));
            http_reply 200 (completion_text (json_string "Specificity, Research type"))]
    [].

(** C8, at the failing input.  The suggest-prompt route accepts an
    Authorization header that is not of the form 'Bearer <token>': the
    bare token is sent to the identity service, validated, and the
    handler runs (the completion calls go out and a 200 reply is sent);
    the routes guarded by authenticateToken answer the same request with
    401 and make no call at all. *)
Theorem suggest_prompt_accepts_header_without_bearer :
  Str.starts_with "Bearer " "tok-1" = false /\
  run behind_auth_world (@serve example_runtime SuggestPrompt bare_token_request) []
  = (Ok tt,
     [AskedUser (JStr "tok-1");
      Fetched (@suggestion_request example_runtime (JStr "llm"));
      Fetched (@tags_request example_runtime (JStr "llm"));
      Sent (Json 200
              (JObj [("refinedQuery", JStr "llm evaluation");
                     ("researchTags", JArr [JStr "Specificity"; JStr "Research type"])]))])
  /\
  forall r, r <> SuggestPrompt ->
    run behind_auth_world (@serve example_runtime r bare_token_request) []
    = (Ok tt, [Sent (Json 401 (JObj [("error", JStr "No token provided")]))]).
Proof.
  split; [reflexivity|]. split; [vm_compute; reflexivity|].
  intros r Hr. destruct r; try contradiction; vm_compute; reflexivity.
Qed.

(** * Further properties of the handlers *)

Definition is_reply (e : event) : bool :=
  match e with Sent _ => true | _ => false end.

Section SearchFlow.

Context `{Runtime} (w : world).

(** The summary batch always fulfils, with one call and one slot per
    paper. *)
Lemma summaries_fulfil (papers : list Paper) tr :
  exists summaries,
    run w (Promise_all (map summarize papers)) tr
    = (Ok summaries, tr ++ map (fun p => Fetched (summary_request p)) papers) /\
    length summaries = length papers.
Proof.
  destruct (batch_any_order w (map summarize papers) tr) as (vs & Hrun & Hlen & _).
  { apply Forall_map, Forall_forall. intros p _. apply summarize_single. }
  exists vs. rewrite <- issued_summaries, <- (Hrun (settle_order w)), with_own_order.
  rewrite length_map in Hlen. split; [reflexivity | exact Hlen].
Qed.

(** Every way [search_papers_handler] ends. *)
Inductive search_outcome : trace -> Prop :=
| so_no_body e : search_outcome [Sent (ErrorPage e)]
| so_no_query : search_outcome [Sent (Json 400 (error_body "Query is required"))]
| so_search_failed query msg :
    truthy query = true ->
    search_outcome [Fetched (arxiv_request query "6"); Sent (Json 500 (error_body msg))]
| so_nothing_found query :
    truthy query = true ->
    search_outcome [Fetched (arxiv_request query "6"); Sent (Json 200 empty_search_result)]
| so_overview_failed query papers msg :
    truthy query = true -> papers <> [] ->
    search_outcome
      (Fetched (arxiv_request query "6")
         :: map (fun p => Fetched (summary_request p)) papers
         ++ [Fetched (consolidated_request papers); Sent (Json 500 (error_body msg))])
| so_found query papers summaries overview :
    truthy query = true -> papers <> [] ->
    length summaries = length papers ->
    truthy overview = true ->
    search_outcome
      (Fetched (arxiv_request query "6")
         :: map (fun p => Fetched (summary_request p)) papers
         ++ [Fetched (consolidated_request papers);
             Sent (Json 200 (search_result papers summaries overview))]).

Lemma search_papers_ends (req : Request) tr :
  exists new,
    run w (search_papers_handler req) tr = (Ok tt, tr ++ new) /\ search_outcome new.
Proof.
  unfold search_papers_handler, searchPapers. run_step.
  destruct (get_prop (req_body req) "query") as [query|e]; cbn beta iota; run_step.
  2:{ eexists. split; [reflexivity|]. constructor. }
  destruct (truthy query) eqn:Htruthy; cbn [negb]; cbn iota; run_step.
  2:{ eexists. split; [reflexivity|]. constructor. }
  assert (Hfailed : forall msg, exists new,
            (Ok tt, (tr ++ [Fetched (arxiv_request query "6")])
                    ++ [Sent (Json 500 (error_body msg))])
            = (Ok tt, tr ++ new) /\ search_outcome new).
  { intros msg. eexists. rewrite <- app_assoc. split; [reflexivity|].
    apply so_search_failed, Htruthy. }
  destruct (net w (length tr) (arxiv_request query "6")) as [resp|e]; cbn beta iota;
    run_step; [|apply Hfailed].
  destruct (ok resp); cbn [negb]; cbn iota; run_step; [|apply Hfailed].
  destruct (text resp) as [xmlData|e]; cbn beta iota; run_step; [|apply Hfailed].
  destruct (parseFromString xmlData) as [xmlDoc|e]; cbn beta iota; run_step;
    [|apply Hfailed].
  destruct (Dom.getElementsByTagName "entry" xmlDoc) as [|entry entries] eqn:Hentries.
  { cbn. run_step. eexists. rewrite <- app_assoc. split; [reflexivity|].
    apply so_nothing_found, Htruthy. }
  set (papers := map paper_of_entry (entry :: entries)).
  assert (Hpapers : papers <> []) by discriminate.
  cbn [length Nat.eqb]. cbn iota. run_step.
  destruct (summaries_fulfil papers (tr ++ [Fetched (arxiv_request query "6")]))
    as (summaries & Hbatch & Hlen).
  rewrite Hbatch. cbn beta iota. run_step.
  set (tr2 := (tr ++ [Fetched (arxiv_request query "6")])
              ++ map (fun p => Fetched (summary_request p)) papers).
  assert (Hoverview : forall msg, exists new,
            (Ok tt, (tr2 ++ [Fetched (consolidated_request papers)])
                    ++ [Sent (Json 500 (error_body msg))])
            = (Ok tt, tr ++ new) /\ search_outcome new).
  { intros msg. eexists. unfold tr2. rewrite <- !app_assoc. split; [reflexivity|].
    apply so_overview_failed; assumption. }
  destruct (net w (length tr2) (consolidated_request papers)) as [resp2|e];
    cbn beta iota; run_step; [|apply Hoverview].
  destruct (ok resp2); cbn [negb]; cbn iota; run_step.
  - destruct (json resp2) as [data|e]; cbn beta iota; run_step; [|apply Hoverview].
    destruct (get_prop data "choices") as [choices|e]; cbn beta iota; run_step;
      [|apply Hoverview].
    destruct (no_choices choices); cbn iota; run_step; [apply Hoverview|].
    eexists. unfold tr2. rewrite <- !app_assoc. split; [reflexivity|].
    apply so_found; try assumption.
    unfold js_or. destruct (truthy (first_content choices)) eqn:Hc; [exact Hc|reflexivity].
  - destruct (text resp2); cbn beta iota; run_step; apply Hoverview.
Qed.

End SearchFlow.

Section OtherHandlers.

Context `{Runtime} (w : world).

(** Every way [analyze_paper_handler] ends; the summary of a success
    reply is the content of the first choice of the completion answered
    at trace position [pos]. *)
Inductive analyze_paper_outcome (req : Request) (pos : nat) : trace -> Prop :=
| ap_no_body msg : analyze_paper_outcome req pos [Sent (Json 500 (error_body msg))]
| ap_no_abstract :
    analyze_paper_outcome req pos
      [Sent (Json 400 (error_body "Abstract is required"))]
| ap_failed abstract msg :
    truthy abstract = true ->
    analyze_paper_outcome req pos
      [Fetched (analyze_paper_request abstract); Sent (Json 500 (error_body msg))]
| ap_summary abstract resp data choices :
    get_prop (req_body req) "abstract" = Ok abstract ->
    truthy abstract = true ->
    net w pos (analyze_paper_request abstract) = Ok resp ->
    ok resp = true ->
    json resp = Ok data ->
    get_prop data "choices" = Ok choices ->
    no_choices choices = false ->
    truthy (first_content choices) = true ->
    analyze_paper_outcome req pos
      [Fetched (analyze_paper_request abstract);
       Sent (Json 200 (JObj [("summary", first_content choices)]))].

Lemma analyze_paper_ends (req : Request) tr :
  exists new,
    run w (analyze_paper_handler req) tr = (Ok tt, tr ++ new) /\
    analyze_paper_outcome req (length tr) new.
Proof.
  unfold analyze_paper_handler. run_step.
  destruct (get_prop (req_body req) "abstract") as [abstract|e] eqn:Habstract;
    cbn beta iota; run_step.
  2:{ eexists. split; [reflexivity|]. constructor. }
  destruct (truthy abstract) eqn:Htruthy; cbn [negb]; cbn iota; run_step.
  2:{ eexists. split; [reflexivity|]. constructor. }
  assert (Hfailed : forall msg, exists new,
            (Ok tt, (tr ++ [Fetched (analyze_paper_request abstract)])
                    ++ [Sent (Json 500 (error_body msg))])
            = (Ok tt, tr ++ new) /\ analyze_paper_outcome req (length tr) new).
  { intros msg. eexists. rewrite <- app_assoc. split; [reflexivity|].
    apply ap_failed, Htruthy. }
  destruct (net w (length tr) (analyze_paper_request abstract)) as [resp|e] eqn:Hnet;
    cbn beta iota; run_step; [|apply Hfailed].
  destruct (ok resp) eqn:Hok; cbn [negb]; cbn iota; run_step.
  - destruct (json resp) as [data|e] eqn:Hjson; cbn beta iota; run_step;
      [|apply Hfailed].
    destruct (get_prop data "choices") as [choices|e] eqn:Hchoices; cbn beta iota;
      run_step; [|apply Hfailed].
    destruct (no_choices choices) eqn:Hvalid; cbn iota; run_step; [apply Hfailed|].
    destruct (truthy (first_content choices)) eqn:Hsummary; cbn [negb]; cbn iota;
      run_step; [|apply Hfailed].
    eexists. rewrite <- app_assoc. split; [reflexivity|].
    eapply ap_summary; eassumption.
  - destruct (text resp); cbn beta iota; run_step; apply Hfailed.
Qed.

Definition search_row (user_id query papers consolidatedSummary : jsval) : jsval :=
  JObj [("user_id", user_id);
        ("title", query);
        ("content", consolidatedSummary);
        ("papers", papers);
        ("type", JStr "search");
        ("created_at", JStr toISOString)].

(** Every way [save_search_handler] ends. *)
Inductive save_search_outcome (req : Request) (pos : nat) : trace -> Prop :=
| ss_not_saved msg : save_search_outcome req pos [Sent (Json 500 (error_body msg))]
| ss_failed user_id msg :
    truthy user_id = true ->
    save_search_outcome req pos
      [Inserted "reports"
         (search_row user_id (opt_prop (req_body req) "query")
            (opt_prop (req_body req) "papers")
            (opt_prop (req_body req) "consolidatedSummary"));
       Sent (Json 500 (error_body msg))]
| ss_saved user_id saved savedSearch :
    truthy user_id = true ->
    store w pos "reports"
      (search_row user_id (opt_prop (req_body req) "query")
         (opt_prop (req_body req) "papers")
         (opt_prop (req_body req) "consolidatedSummary")) = Ok saved ->
    get_prop saved "data" = Ok savedSearch ->
    save_search_outcome req pos
      [Inserted "reports"
         (search_row user_id (opt_prop (req_body req) "query")
            (opt_prop (req_body req) "papers")
            (opt_prop (req_body req) "consolidatedSummary"));
       Sent (Json 200 (JObj [("savedSearch", savedSearch);
                             ("message", JStr "Search saved successfully")]))].

Lemma get_prop_opt_prop v k x : get_prop v k = Ok x -> x = opt_prop v k.
Proof. destruct v; simpl; intros [= <-]; reflexivity. Qed.

Lemma save_search_ends (req : Request) tr :
  exists new,
    run w (save_search_handler req) tr = (Ok tt, tr ++ new) /\
    save_search_outcome req (length tr) new.
Proof.
  unfold save_search_handler. run_step.
  assert (Hnone : forall msg, exists new,
            (Ok tt, tr ++ [Sent (Json 500 (error_body msg))]) = (Ok tt, tr ++ new) /\
            save_search_outcome req (length tr) new).
  { intros msg. eexists. split; [reflexivity|]. constructor. }
  destruct (get_prop (req_body req) "query") as [query|e] eqn:Hq; cbn beta iota;
    run_step; [|apply Hnone].
  destruct (get_prop (req_body req) "papers") as [papers|e] eqn:Hp; cbn beta iota;
    run_step; [|apply Hnone].
  destruct (get_prop (req_body req) "consolidatedSummary") as [summary|e] eqn:Hs;
    cbn beta iota; run_step; [|apply Hnone].
  apply get_prop_opt_prop in Hq, Hp, Hs. subst query papers summary.
  destruct (truthy (user req)) eqn:Huser; cbn beta iota; run_step.
  2:{ cbn. apply Hnone. }
  destruct (get_prop (user req) "id") as [user_id|e]; cbn beta iota; [|apply Hnone].
  destruct (truthy user_id) eqn:Hid; cbn [negb orb]; cbn iota; run_step; [|apply Hnone].
  cbn [answer event_of]. fold (search_row user_id (opt_prop (req_body req) "query")
            (opt_prop (req_body req) "papers")
            (opt_prop (req_body req) "consolidatedSummary")).
  set (row := search_row _ _ _ _).
  assert (Hfailed : forall msg, exists new,
            (Ok tt, (tr ++ [Inserted "reports" row]) ++ [Sent (Json 500 (error_body msg))])
            = (Ok tt, tr ++ new) /\
            save_search_outcome req (length tr) new).
  { intros msg. eexists. rewrite <- app_assoc. split; [reflexivity|].
    apply ss_failed, Hid. }
  destruct (store w (length tr) "reports" row) as [saved|e] eqn:Hstore; cbn beta iota;
    run_step; [|apply Hfailed].
  destruct (get_prop saved "data") as [savedSearch|e] eqn:Hdata; cbn beta iota;
    run_step; [|apply Hfailed].
  destruct (get_prop saved "error") as [saveError|e]; cbn beta iota; run_step;
    [|apply Hfailed].
  destruct (truthy saveError); cbn iota; run_step.
  - destruct (get_prop saveError "message"); cbn beta iota; run_step; apply Hfailed.
  - eexists. rewrite <- app_assoc. split; [reflexivity|].
    eapply ss_saved; eassumption.
Qed.

(** Every way [suggest_prompt_handler] ends. *)
Inductive suggest_outcome : trace -> Prop :=
| sg_no_body e : suggest_outcome [Sent (ErrorPage e)]
| sg_no_suggestion initialQuery e :
    suggest_outcome [Fetched (suggestion_request initialQuery); Sent (ErrorPage e)]
| sg_not_merged initialQuery e :
    suggest_outcome
      [Fetched (suggestion_request initialQuery);
       Fetched (tags_request initialQuery);
       Sent (ErrorPage e)]
| sg_merged initialQuery merged :
    suggest_outcome
      [Fetched (suggestion_request initialQuery);
       Fetched (tags_request initialQuery);
       Sent (Json 200 merged)].

Lemma suggest_prompt_ends (req : Request) tr :
  exists new,
    run w (suggest_prompt_handler req) tr = (Ok tt, tr ++ new) /\ suggest_outcome new.
Proof.
  unfold suggest_prompt_handler. run_step.
  destruct (get_prop (req_body req) "initialQuery") as [initialQuery|e]; cbn beta iota;
    run_step.
  2:{ eexists. split; [reflexivity|]. constructor. }
  assert (Hend : forall e : exn, exists new,
            (Ok tt, (tr ++ [Fetched (suggestion_request initialQuery)])
                    ++ [Sent (ErrorPage e)])
            = (Ok tt, tr ++ new) /\ suggest_outcome new).
  { intros e. eexists. rewrite <- app_assoc. split; [reflexivity|]. constructor. }
  destruct (net w (length tr) (suggestion_request initialQuery)) as [resp|e];
    cbn beta iota; [|apply Hend].
  destruct (ok resp); cbn [negb]; cbn iota; run_step.
  - destruct (json resp) as [data|e]; cbn beta iota; run_step; [|apply Hend].
    destruct (get_prop data "choices") as [choices|e]; cbn beta iota; [|apply Hend].
    destruct (no_choices choices); run_step; [apply Hend|].
    destruct (JSON_parse _) as [suggestions|e]; cbn beta iota; [|apply Hend].
    run_step.
    destruct (getResearchTags_returns w initialQuery
                (tr ++ [Fetched (suggestion_request initialQuery)])) as (tags & ->).
    cbn beta iota. run_step.
    destruct (assign_prop suggestions _ _) as [merged|e]; cbn beta iota; run_step.
    + eexists. rewrite <- !app_assoc. split; [reflexivity|]. constructor.
    + eexists. rewrite <- !app_assoc. split; [reflexivity|]. constructor.
  - destruct (text resp); cbn beta iota; run_step; apply Hend.
Qed.

End OtherHandlers.

Section Routes.

Context `{Runtime} (w : world).

Lemma no_reply_among_calls {A} (f : A -> request) (l : list A) :
  filter is_reply (map (fun x => Fetched (f x)) l) = [].
Proof.
  induction l as [|x l IH]; [reflexivity|]. simpl.
  rewrite filter_cons_False by (simpl; auto). exact IH.
Qed.

(** A token the identity service validates: the middleware calls
    [next()] with [req.user] set, and replies nothing. *)
Lemma check_token_passes (req : Request) (token u : jsval) tr :
  validated_user (identity w (length tr) token) = Some u ->
  run w (try_catch (check_token req token)
           (fun _ => unauthorized "Authentication failed")) tr
  = (Ok (Some (set_user req u)), tr ++ [AskedUser token]).
Proof.
  unfold validated_user, check_token. intros Hsome. run_step. cbn [answer event_of].
  destruct (identity w (length tr) token) as [reply|e]; [|discriminate].
  cbn beta iota. run_step.
  destruct (get_prop reply "data") as [data|e]; [|discriminate].
  cbn beta iota. run_step.
  destruct (get_prop data "user") as [user|e]; [|discriminate].
  cbn beta iota. run_step.
  destruct (get_prop reply "error") as [error|e]; [|discriminate].
  cbn beta iota.
  destruct (truthy error || negb (truthy user)); [discriminate|].
  injection Hsome as <-. run_step. reflexivity.
Qed.

Lemma middleware_passes (r : route) (req : Request) (token u : jsval) tr :
  presented_token r req = Some token ->
  validated_user (identity w (length tr) token) = Some u ->
  run w (middleware_of r req) tr = (Ok (Some (set_user req u)), tr ++ [AskedUser token]).
Proof.
  unfold presented_token. intros Htoken Hvalid.
  destruct r; cbn [middleware_of]; unfold authenticateToken, authenticateUser;
    destruct (authorization req) as [authHeader|]; try discriminate; cbn beta iota.
  all: try (destruct (Str.starts_with "Bearer " authHeader); [|discriminate];
            injection Htoken as <-; cbn iota; apply check_token_passes, Hvalid).
  destruct (String.eqb authHeader ""); [discriminate|].
  injection Htoken as <-. cbn [negb]. cbn iota. apply check_token_passes, Hvalid.
Qed.

Lemma handler_replies_once (r : route) (req : Request) tr :
  exists new,
    run w (handler_of r req) tr = (Ok tt, tr ++ new) /\
    length (filter is_reply new) = 1%nat.
Proof.
  destruct r; cbn [handler_of].
  - destruct (search_papers_ends w req tr) as (new & Hrun & Hnew).
    exists new. split; [exact Hrun|].
    destruct Hnew; try reflexivity.
    + rewrite filter_cons_False by (simpl; auto).
      rewrite filter_app, no_reply_among_calls. reflexivity.
    + rewrite filter_cons_False by (simpl; auto).
      rewrite filter_app, no_reply_among_calls. reflexivity.
  - destruct (generate_report_ends w req tr) as (new & Hrun & Hnew).
    exists new. split; [exact Hrun|].
    destruct Hnew as [s msg Hs|query msg|query papers analyses rest Hlen Hrest];
      try reflexivity.
    rewrite filter_cons_False by (simpl; auto).
    rewrite filter_app, no_reply_among_calls.
    rewrite filter_cons_False by (simpl; auto). simpl.
    destruct Hrest as [|finalReport saved Hcontent Hsave]; [reflexivity|].
    destruct Hsave; reflexivity.
  - destruct (suggest_prompt_ends w req tr) as (new & Hrun & Hnew).
    exists new. split; [exact Hrun|]. destruct Hnew; reflexivity.
  - destruct (analyze_paper_ends w req tr) as (new & Hrun & Hnew).
    exists new. split; [exact Hrun|]. destruct Hnew; reflexivity.
  - destruct (save_search_ends w req tr) as (new & Hrun & Hnew).
    exists new. split; [exact Hrun|]. destruct Hnew; reflexivity.
Qed.

End Routes.

(** X1.  On every route, whatever the request and whatever the identity
    service, the search API, the completion API and the store answer,
    serving the request ends without an uncaught error and sends exactly
    one reply. *)
Theorem every_route_replies_exactly_once `{Runtime}
    (w : world) (r : route) (req : Request) (tr : trace) :
  exists new,
    run w (serve r req) tr = (Ok tt, tr ++ new) /\
    length (filter is_reply new) = 1%nat.
Proof.
  pose proof (unvalidated_request_is_rejected w r req tr) as Hreject.
  destruct (presented_token r req) as [token|] eqn:Htoken.
  - destruct (validated_user (identity w (length tr) token)) as [u|] eqn:Hvalid.
    + unfold serve. rewrite run_bind, (middleware_passes w r req token u tr Htoken Hvalid).
      cbn beta iota.
      destruct (handler_replies_once w r (set_user req u) (tr ++ [AskedUser token]))
        as (new & Hrun & Hone).
      exists (AskedUser token :: new). rewrite Hrun, <- app_assoc.
      split; [reflexivity|].
      rewrite filter_cons_False by (simpl; auto). exact Hone.
    + destruct (Hreject eq_refl) as (msg & Hrun).
      eexists. split; [exact Hrun|]. reflexivity.
  - destruct Hreject as (msg & Hrun).
    eexists. split; [exact Hrun|]. reflexivity.
Qed.

(** ** Facts about the string methods *)

Section Strings.

(** [s] has no code unit [c]. *)
Fixpoint lacks (c : ascii) (s : string) : bool :=
  match s with
  | EmptyString => true
  | String c' rest => negb (Ascii.eqb c' c) && lacks c rest
  end.

Lemma split_lacking sep s : lacks sep s = true -> Str.split sep s = [s].
Proof.
  induction s as [|c s IH]; simpl; [reflexivity|].
  destruct (Ascii.eqb c sep); simpl; [discriminate|].
  intros Hs. rewrite (IH Hs). reflexivity.
Qed.

(** The pieces of [a ++ sep ++ b] when [a] has no separator: [a], then
    the pieces of [b]. *)
Lemma split_at_first sep a b :
  lacks sep a = true ->
  Str.split sep (a +:+ String sep b) = a :: Str.split sep b.
Proof.
  induction a as [|c a IH]; simpl.
  - rewrite Ascii.eqb_refl. reflexivity.
  - destruct (Ascii.eqb c sep); simpl; [discriminate|].
    intros Ha. rewrite (IH Ha). reflexivity.
Qed.

Lemma substring_all s : String.substring 0 (String.length s) s = s.
Proof. induction s as [|c s IH]; simpl; congruence. Qed.

Lemma replace_first_at_start pat rep s :
  pat <> EmptyString ->
  Str.replace_first pat rep (pat +:+ s) = rep +:+ s.
Proof.
  intros Hpat. unfold Str.replace_first.
  assert (Hprefix : forall p t, String.prefix p (p +:+ t) = true).
  { induction p as [|c p IH]; intros t; simpl.
    - destruct t; reflexivity.
    - destruct (ascii_dec c c); [apply IH|contradiction]. }
  assert (Hindex : String.index 0 pat (pat +:+ s) = Some 0%nat).
  { destruct pat as [|c pat]; [contradiction|].
    change (String c pat +:+ s) with (String c (pat +:+ s)).
    cbn [String.index].
    change (String c (pat +:+ s)) with (String c pat +:+ s).
    rewrite Hprefix. reflexivity. }
  rewrite Hindex. cbn [Nat.add].
  assert (Hdrop : forall p t n,
            String.substring (String.length p) n (p +:+ t) = String.substring 0 n t).
  { induction p as [|c p IH]; intros t n; simpl; [reflexivity|apply IH]. }
  assert (Hlen : forall p t,
            (String.length (p +:+ t) - String.length p)%nat = String.length t).
  { induction p as [|c p IH]; intros t; [apply Nat.sub_0_r|apply IH]. }
  assert (Hnone : forall t, String.substring 0 0 t = EmptyString).
  { intros [|c t]; reflexivity. }
  rewrite Hdrop, Hlen, substring_all, Hnone. reflexivity.
Qed.

(** [trim] *)

Lemma trim_end_idempotent s : Str.trim_end (Str.trim_end s) = Str.trim_end s.
Proof.
  induction s as [|c s IH]; simpl; [reflexivity|].
  destruct (Str.trim_end s) as [|c' kept] eqn:E.
  - destruct (Str.is_space c) eqn:Hc; simpl; [reflexivity|]. rewrite Hc. reflexivity.
  - change (Str.trim_end (String c (String c' kept)))
      with (match Str.trim_end (String c' kept) with
            | EmptyString => if Str.is_space c then EmptyString else String c EmptyString
            | String x y => String c (String x y)
            end).
    rewrite IH. reflexivity.
Qed.

(** A string that does not begin with white space. *)
Definition starts_clean (s : string) : bool :=
  match s with
  | EmptyString => true
  | String c _ => negb (Str.is_space c)
  end.

Lemma trim_start_clean s : starts_clean (Str.trim_start s) = true.
Proof.
  induction s as [|c s IH]; simpl; [reflexivity|].
  destruct (Str.is_space c) eqn:Hc; [exact IH|]. simpl. rewrite Hc. reflexivity.
Qed.

Lemma trim_start_of_clean s : starts_clean s = true -> Str.trim_start s = s.
Proof.
  destruct s as [|c s]; simpl; [reflexivity|].
  destruct (Str.is_space c); [discriminate|reflexivity].
Qed.

Lemma trim_end_clean s : starts_clean s = true -> starts_clean (Str.trim_end s) = true.
Proof.
  destruct s as [|c s]; simpl; [reflexivity|]. intros Hc.
  destruct (Str.trim_end s); destruct (Str.is_space c) eqn:E; simpl; rewrite ?E;
    first [reflexivity | discriminate].
Qed.

Lemma trim_idempotent s : Str.trim (Str.trim s) = Str.trim s.
Proof.
  unfold Str.trim.
  rewrite (trim_start_of_clean (Str.trim_end (Str.trim_start s))).
  - apply trim_end_idempotent.
  - apply trim_end_clean, trim_start_clean.
Qed.

(** Line feeds *)

Lemma replace_newlines_lacks s : lacks "010" (Str.replace_newlines s) = true.
Proof.
  induction s as [|c s IH]; simpl; [reflexivity|].
  destruct (Ascii.eqb c "010") eqn:Hc; simpl; [exact IH|].
  rewrite Hc. exact IH.
Qed.

Lemma trim_start_lacks c s : lacks c s = true -> lacks c (Str.trim_start s) = true.
Proof.
  induction s as [|c' s IH]; simpl; [reflexivity|].
  intros Hs. destruct (Str.is_space c'); [|exact Hs].
  apply IH. apply andb_true_iff in Hs. apply Hs.
Qed.

Lemma trim_end_lacks c s : lacks c s = true -> lacks c (Str.trim_end s) = true.
Proof.
  induction s as [|c' s IH]; simpl; [reflexivity|].
  intros Hs. apply andb_true_iff in Hs as [Hc Hs].
  specialize (IH Hs). destruct (Str.trim_end s) as [|c'' kept].
  - destruct (Str.is_space c'); simpl; [reflexivity|]. rewrite Hc. reflexivity.
  - simpl in *. rewrite Hc. exact IH.
Qed.

Lemma substring0_length n s :
  String.length (Str.substring0 n s) = Nat.min n (String.length s).
Proof.
  unfold Str.substring0. revert s. induction n as [|n IH]; intros [|c s]; simpl;
    try reflexivity.
  rewrite IH. reflexivity.
Qed.

Lemma substring0_idempotent n s :
  Str.substring0 n (Str.substring0 n s) = Str.substring0 n s.
Proof.
  unfold Str.substring0. revert s. induction n as [|n IH]; intros [|c s]; simpl;
    try reflexivity.
  rewrite IH. reflexivity.
Qed.

Lemma length_append s t :
  String.length (s +:+ t) = (String.length s + String.length t)%nat.
Proof.
  induction s as [|c s IH]; [reflexivity|].
  change (String c s +:+ t) with (String c (s +:+ t)).
  change (String.length (String c (s +:+ t))) with (S (String.length (s +:+ t))).
  rewrite IH. reflexivity.
Qed.

End Strings.

(** ** Authentication on the routes *)

Lemma serve_asks_first `{Runtime} (w : world) (r : route) (req : Request)
    (token : jsval) tr :
  presented_token r req = Some token ->
  exists rest, run w (serve r req) tr = (Ok tt, tr ++ AskedUser token :: rest).
Proof.
  intros Htoken.
  destruct (validated_user (identity w (length tr) token)) as [u|] eqn:Hvalid.
  - unfold serve. rewrite run_bind, (middleware_passes w r req token u tr Htoken Hvalid).
    cbn beta iota.
    destruct (handler_replies_once w r (set_user req u) (tr ++ [AskedUser token]))
      as (new & -> & _).
    exists new. rewrite <- app_assoc. reflexivity.
  - pose proof (unvalidated_request_is_rejected w r req tr) as Hreject.
    rewrite Htoken in Hreject. destruct (Hreject Hvalid) as (msg & ->).
    eexists. reflexivity.
Qed.

(** X2.  When the middleware of a route extracts a token and the identity
    service validates it to a user, serving the request is one identity
    call followed by the route's handler, run on the same request with
    req.user set to that user. *)
Theorem validated_request_reaches_handler `{Runtime}
    (w : world) (r : route) (req : Request) (token u : jsval) (tr : trace) :
  presented_token r req = Some token ->
  validated_user (identity w (length tr) token) = Some u ->
  run w (serve r req) tr
  = run w (handler_of r {| authorization := authorization req;
                           req_body := req_body req;
                           user := u |})
      (tr ++ [AskedUser token]).
Proof.
  intros Htoken Hvalid. unfold serve. rewrite run_bind.
  rewrite (middleware_passes w r req token u tr Htoken Hvalid).
  cbn beta iota. reflexivity.
Qed.

(** X3.  When the identity service does not validate the extracted token
    (it rejects, reports an error, returns no user or a malformed
    answer), the route answers 401 right after the identity call: no
    search, completion or store call is made. *)
Theorem unvalidated_token_gets_401 `{Runtime}
    (w : world) (r : route) (req : Request) (token : jsval) (tr : trace) :
  presented_token r req = Some token ->
  validated_user (identity w (length tr) token) = None ->
  exists msg new,
    run w (serve r req) tr = (Ok tt, tr ++ new) /\
    new = [AskedUser token; Sent (Json 401 (JObj [("error", JStr msg)]))] /\
    filter is_completion_call new = [] /\ filter is_insert new = [].
Proof.
  intros Htoken Hvalid.
  pose proof (unvalidated_request_is_rejected w r req tr) as Hreject.
  rewrite Htoken in Hreject. destruct (Hreject Hvalid) as (msg & Hrun).
  exists msg. eexists. split; [exact Hrun|]. split; [reflexivity|].
  split; reflexivity.
Qed.

(** X4.  On the routes guarded by authenticateToken, a request without an
    Authorization header, or with one that does not start with
    'Bearer ', is answered 401 'No token provided' without any call, not
    even to the identity service. *)
Theorem header_without_bearer_gets_401 `{Runtime}
    (w : world) (r : route) (req : Request) (tr : trace) :
  r <> SuggestPrompt ->
  match authorization req with
  | Some authHeader => Str.starts_with "Bearer " authHeader = false
  | None => True
  end ->
  run w (serve r req) tr
  = (Ok tt, tr ++ [Sent (Json 401 (JObj [("error", JStr "No token provided")]))]).
Proof.
  intros Hr Hheader. unfold serve.
  assert (Hmw : middleware_of r = authenticateToken).
  { destruct r; first [reflexivity | contradiction]. }
  rewrite Hmw. unfold authenticateToken, unauthorized. run_step.
  destruct (authorization req) as [authHeader|]; cbn beta iota.
  - rewrite Hheader. cbn iota. run_step. reflexivity.
  - run_step. reflexivity.
Qed.

(** X5.  For a header 'Bearer <token>' whose token has no space, every
    route first asks the identity service about exactly that token. *)
Theorem bearer_token_is_what_is_validated `{Runtime}
    (w : world) (r : route) (req : Request) (t : string) (tr : trace) :
  lacks " " t = true ->
  authorization req = Some ("Bearer " +:+ t) ->
  exists rest, run w (serve r req) tr = (Ok tt, tr ++ AskedUser (JStr t) :: rest).
Proof.
  intros Ht Hheader. apply serve_asks_first.
  unfold presented_token. rewrite Hheader.
  assert (Htoken : Str.split " " ("Bearer " +:+ t) !! 1%nat = Some t).
  { change ("Bearer " +:+ t) with ("Bearer" +:+ String " " t).
    rewrite (split_at_first " " "Bearer" t eq_refl), (split_lacking _ _ Ht).
    reflexivity. }
  assert (Hstarts : Str.starts_with "Bearer " ("Bearer " +:+ t) = true).
  { unfold Str.starts_with. simpl. destruct t; reflexivity. }
  destruct r; rewrite ?Hstarts, ?Htoken; try reflexivity.
  simpl String.eqb. cbn iota.
  rewrite (replace_first_at_start "Bearer " "" t) by discriminate. reflexivity.
Qed.

(** X6.  The two middlewares disagree on a header whose token part has a
    space: for 'Bearer a b' authenticateToken validates only 'a', the
    piece up to the first space, while authenticateUser (suggest-prompt)
    validates 'a b'. *)
Theorem token_with_space_is_cut_by_one_middleware `{Runtime}
    (w : world) (r : route) (req : Request) (a b : string) (tr : trace) :
  lacks " " a = true ->
  authorization req = Some ("Bearer " +:+ a +:+ " " +:+ b) ->
  exists rest,
    run w (serve r req) tr
    = (Ok tt, tr ++ AskedUser (JStr (match r with
                                      | SuggestPrompt => a +:+ " " +:+ b
                                      | _ => a
                                      end)) :: rest).
Proof.
  intros Ha Hheader. apply serve_asks_first.
  unfold presented_token. rewrite Hheader.
  assert (Htoken : Str.split " " ("Bearer " +:+ a +:+ " " +:+ b) !! 1%nat = Some a).
  { change ("Bearer " +:+ a +:+ " " +:+ b)
      with ("Bearer" +:+ String " " (a +:+ String " " b)).
    rewrite (split_at_first " " "Bearer" (a +:+ String " " b) eq_refl).
    rewrite (split_at_first " " a b Ha). reflexivity. }
  assert (Hstarts : Str.starts_with "Bearer " ("Bearer " +:+ a +:+ " " +:+ b) = true).
  { unfold Str.starts_with. simpl. destruct (a +:+ " " +:+ b); reflexivity. }
  destruct r; rewrite ?Hstarts, ?Htoken; try reflexivity.
  simpl String.eqb. cbn iota.
  rewrite (replace_first_at_start "Bearer " "" (a +:+ " " +:+ b)) by discriminate.
  reflexivity.
Qed.

(** ** analyze-paper and save-search *)

(** X7.  An analyze-paper request whose body has no abstract field is
    answered 400 'Abstract is required' and makes no outbound call. *)
Theorem missing_abstract_is_rejected `{Runtime}
    (w : world) (req : Request) (fields : list (string * jsval)) (tr : trace) :
  req_body req = JObj fields ->
  own_prop "abstract" fields = None ->
  exists new,
    run w (analyze_paper_handler req) tr = (Ok tt, tr ++ new) /\
    new = [Sent (Json 400 (JObj [("error", JStr "Abstract is required")]))] /\
    filter is_outbound new = [].
Proof.
  intros Hbody Habstract. eexists. split; [|split; reflexivity].
  unfold analyze_paper_handler. run_step. rewrite Hbody. simpl.
  rewrite Habstract. simpl. run_step. reflexivity.
Qed.

(** X8.  Whatever the request and the answers, analyze-paper makes at
    most one completion call and never touches the store; its reply has
    status 400, 500 or 200, and a 200 reply is exactly {summary} where
    summary is the non-empty content of the first choice of the
    completion answered to the request's abstract. *)
Theorem analyze_paper_calls_at_most_once `{Runtime}
    (w : world) (req : Request) (tr : trace) :
  exists new,
    run w (analyze_paper_handler req) tr = (Ok tt, tr ++ new) /\
    (length (filter is_completion_call new) <= 1)%nat /\
    filter is_insert new = [] /\
    forall s body, In (Sent (Json s body)) new ->
      s = 400 \/ s = 500 \/
      (s = 200 /\ exists abstract resp data choices,
         get_prop (req_body req) "abstract" = Ok abstract /\
         new = [Fetched (analyze_paper_request abstract); Sent (Json 200 body)] /\
         net w (length tr) (analyze_paper_request abstract) = Ok resp /\
         json resp = Ok data /\
         get_prop data "choices" = Ok choices /\
         body = JObj [("summary", first_content choices)] /\
         truthy (first_content choices) = true).
Proof.
  destruct (analyze_paper_ends w req tr) as (new & Hrun & Hnew).
  exists new. split; [exact Hrun|].
  destruct Hnew as [msg| |abstract msg Ha
                   |abstract resp data choices Hget Ha Hnet Hok Hjson Hch Hvalid Hs].
  - split; [simpl; lia|]. split; [reflexivity|].
    intros s body [[= <- _]|[]]. right. left. reflexivity.
  - split; [simpl; lia|]. split; [reflexivity|].
    intros s body [[= <- _]|[]]. left. reflexivity.
  - split; [simpl; lia|]. split; [reflexivity|].
    intros s body [[=]|[[= <- _]|[]]]. right. left. reflexivity.
  - split; [simpl; lia|]. split; [reflexivity|].
    intros s body [[=]|[[= <- <-]|[]]]. right. right.
    split; [reflexivity|]. exists abstract, resp, data, choices.
    repeat split; assumption || reflexivity.
Qed.

(** [!user || !user.id] holds exactly when reading [id] off [req.user]
    gives nothing truthy. *)
Lemma no_user_id (u : jsval) :
  truthy (opt_prop u "id") = false ->
  truthy u = false \/ exists user_id, get_prop u "id" = Ok user_id /\ truthy user_id = false.
Proof.
  destruct u as [| |b|n|s|items|fields]; simpl; intros Hid;
    try (left; reflexivity); right; eexists; split; try reflexivity; exact Hid.
Qed.

(** X9.  save-search called without an authenticated user id (req.user
    missing, or without a truthy id) is answered 500
    'No authenticated user found' and inserts nothing. *)
Theorem save_search_needs_user_id `{Runtime}
    (w : world) (req : Request) (fields : list (string * jsval)) (tr : trace) :
  req_body req = JObj fields ->
  truthy (opt_prop (user req) "id") = false ->
  exists new,
    run w (save_search_handler req) tr = (Ok tt, tr ++ new) /\
    new = [Sent (Json 500 (JObj [("error", JStr "No authenticated user found")]))] /\
    filter is_insert new = [].
Proof.
  intros Hbody Hid. eexists. split; [|split; reflexivity].
  unfold save_search_handler. run_step. rewrite Hbody. simpl. run_step.
  destruct (no_user_id _ Hid) as [Huser|(user_id & Hget & Hfalsy)].
  - rewrite Huser. cbn iota. run_step. cbn [negb orb]. cbn iota. run_step. reflexivity.
  - destruct (truthy (user req)); cbn iota; run_step.
    + rewrite Hget. cbn beta iota. rewrite Hfalsy. cbn [negb orb]. cbn iota.
      run_step. reflexivity.
    + cbn [negb orb]. cbn iota. run_step. reflexivity.
Qed.

(** X10.  save-search with an authenticated user inserts one row of type
    'search' holding the query as title, the consolidated summary as
    content and the papers, and answers 200 as soon as the store reports
    no error: unlike generate-report it does not require the store to
    return a record, so savedSearch may be null. *)
Theorem save_search_accepts_any_record `{Runtime}
    (w : world) (req : Request) (fields : list (string * jsval))
    (user_id saved savedSearch saveError : jsval) (tr : trace) :
  req_body req = JObj fields ->
  truthy (user req) = true ->
  get_prop (user req) "id" = Ok user_id ->
  truthy user_id = true ->
  store w (length tr) "reports"
    (JObj [("user_id", user_id);
           ("title", default JUndefined (own_prop "query" fields));
           ("content", default JUndefined (own_prop "consolidatedSummary" fields));
           ("papers", default JUndefined (own_prop "papers" fields));
           ("type", JStr "search");
           ("created_at", JStr toISOString)]) = Ok saved ->
  get_prop saved "data" = Ok savedSearch ->
  get_prop saved "error" = Ok saveError ->
  truthy saveError = false ->
  run w (save_search_handler req) tr
  = (Ok tt,
     tr ++ [Inserted "reports"
              (JObj [("user_id", user_id);
                     ("title", default JUndefined (own_prop "query" fields));
                     ("content", default JUndefined (own_prop "consolidatedSummary" fields));
                     ("papers", default JUndefined (own_prop "papers" fields));
                     ("type", JStr "search");
                     ("created_at", JStr toISOString)]);
            Sent (Json 200 (JObj [("savedSearch", savedSearch);
                                  ("message", JStr "Search saved successfully")]))]).
Proof.
  intros Hbody Huser Hget Hid Hstore Hdata Herror Hnoerr.
  unfold save_search_handler. run_step. rewrite Hbody. simpl get_prop. cbn beta iota.
  run_step. rewrite Huser. cbn iota. run_step. rewrite Hget. cbn beta iota.
  rewrite Hid. cbn [negb orb]. cbn iota. run_step. cbn [answer event_of].
  rewrite Hstore. cbn beta iota. run_step. rewrite Hdata. cbn beta iota. run_step.
  rewrite Herror. cbn beta iota. rewrite Hnoerr. cbn iota. run_step.
  rewrite <- app_assoc. reflexivity.
Qed.

(** ** The search and report flows *)

Lemma summary_calls_are_completion_calls `{Runtime} (papers : list Paper) :
  filter is_completion_call (map (fun p => Fetched (summary_request p)) papers)
  = map (fun p => Fetched (summary_request p)) papers.
Proof.
  induction papers as [|p papers IH]; [reflexivity|]. simpl.
  rewrite filter_cons_True by reflexivity. rewrite IH. reflexivity.
Qed.

(** X11.  When the search API answers a search-papers request with a
    non-success status, the reply is 500 with the error
    'ArXiv API error: ' followed by the status text, and no completion
    call is made. *)
Theorem search_failure_is_reported `{Runtime}
    (w : world) (req : Request) (query : jsval) (resp : fetch_response) (tr : trace) :
  get_prop (req_body req) "query" = Ok query ->
  truthy query = true ->
  net w (length tr) (arxiv_request query "6") = Ok resp ->
  ok resp = false ->
  exists new,
    run w (search_papers_handler req) tr = (Ok tt, tr ++ new) /\
    new = [Fetched (arxiv_request query "6");
           Sent (Json 500 (JObj [("error",
                                  JStr ("ArXiv API error: " +:+ statusText resp))]))] /\
    filter is_completion_call new = [].
Proof.
  intros Hquery Htruthy Hnet Hok. eexists. split; [|split; reflexivity].
  unfold search_papers_handler, searchPapers. run_step.
  rewrite Hquery. cbn beta iota. rewrite Htruthy. cbn [negb]. cbn iota. run_step.
  rewrite Hnet. cbn beta iota. rewrite Hok. cbn [negb]. cbn iota. run_step.
  rewrite <- app_assoc. reflexivity.
Qed.

(** X12.  Whatever the answers, a 200 reply of search-papers has a papers
    array and a summaries array of the same length, and the run made no
    completion call when they are empty and one call per paper plus the
    overview call otherwise. *)
Theorem search_reply_is_aligned `{Runtime}
    (w : world) (req : Request) (tr : trace) :
  exists new,
    run w (search_papers_handler req) tr = (Ok tt, tr ++ new) /\
    forall body, In (Sent (Json 200 body)) new ->
      exists papers summaries,
        opt_prop body "papers" = JArr papers /\
        opt_prop body "summaries" = JArr summaries /\
        length papers = length summaries /\
        length (filter is_completion_call new)
        = match papers with [] => 0%nat | _ => S (length papers) end.
Proof.
  destruct (search_papers_ends w req tr) as (new & Hrun & Hnew).
  exists new. split; [exact Hrun|]. intros body Hin.
  destruct Hnew as [e| |query msg Hq|query Hq|query papers msg Hq Hne
                   |query papers summaries overview Hq Hne Hlen Ho].
  - destruct Hin as [[=]|[]].
  - destruct Hin as [[=]|[]].
  - destruct Hin as [[=]|[[=]|[]]].
  - destruct Hin as [[=]|[[= <-]|[]]]. exists [], []. repeat split; reflexivity.
  - destruct Hin as [[=]|Hin]. apply in_app_or in Hin as [Hin|[[=]|[[=]|[]]]].
    apply in_map_iff in Hin as (p & [=] & _).
  - destruct Hin as [[=]|Hin]. apply in_app_or in Hin as [Hin|[[=]|[[= <-]|[]]]].
    { apply in_map_iff in Hin as (p & [=] & _). }
    exists (map json_of_paper papers), summaries.
    split; [reflexivity|]. split; [reflexivity|].
    rewrite length_map. split; [symmetry; exact Hlen|].
    rewrite filter_cons_False by (simpl; auto).
    rewrite filter_app, summary_calls_are_completion_calls.
    rewrite length_app, length_map. simpl.
    destruct papers as [|p papers]; [contradiction|]. simpl. lia.
Qed.

(** X13.  When the overview call of search-papers is answered with a
    non-success status, the whole request fails with 500
    'Failed to generate consolidated summary', after every per-paper
    summary call has been made. *)
Theorem overview_failure_fails_search `{Runtime}
    (w : world) (req : Request) (query : jsval) (resp : fetch_response)
    (xmlData : string) (xmlDoc : xml) (overview : fetch_response)
    (errorText : string) (tr : trace) :
  get_prop (req_body req) "query" = Ok query ->
  truthy query = true ->
  net w (length tr) (arxiv_request query "6") = Ok resp ->
  ok resp = true ->
  text resp = Ok xmlData ->
  parseFromString xmlData = Ok xmlDoc ->
  Dom.getElementsByTagName "entry" xmlDoc <> [] ->
  let papers := map paper_of_entry (Dom.getElementsByTagName "entry" xmlDoc) in
  net w (length tr + 1 + length papers) (consolidated_request papers) = Ok overview ->
  ok overview = false ->
  text overview = Ok errorText ->
  run w (search_papers_handler req) tr
  = (Ok tt,
     tr ++ Fetched (arxiv_request query "6")
        :: map (fun p => Fetched (summary_request p)) papers
        ++ [Fetched (consolidated_request papers);
            Sent (Json 500
                    (JObj [("error", JStr "Failed to generate consolidated summary")]))]).
Proof.
  intros Hquery Htruthy Hnet Hok Htext Hparse Hentries papers Hnet2 Hok2 Htext2.
  unfold search_papers_handler, searchPapers. run_step.
  rewrite Hquery. cbn beta iota. rewrite Htruthy. cbn [negb]. cbn iota. run_step.
  rewrite Hnet. cbn beta iota. rewrite Hok. cbn [negb]. cbn iota. run_step.
  rewrite Htext. cbn beta iota. run_step. rewrite Hparse. cbn beta iota.
  fold papers.
  destruct (Dom.getElementsByTagName "entry" xmlDoc) as [|entry entries];
    [contradiction|].
  cbn [length Nat.eqb]. cbn iota. run_step.
  destruct (summaries_fulfil w papers (tr ++ [Fetched (arxiv_request query "6")]))
    as (summaries & Hbatch & Hlen).
  rewrite Hbatch. cbn beta iota. run_step.
  rewrite !length_app, length_map. cbn [length]. rewrite Hnet2. cbn beta iota.
  rewrite Hok2. cbn [negb]. cbn iota. run_step. rewrite Htext2. cbn beta iota.
  run_step. rewrite <- !app_assoc. reflexivity.
Qed.

(** X14.  Whatever goes wrong in the search stage of generate-report (a
    rejected call, a non-success status, an unreadable body, a document
    that does not parse), the reply is 500 with the fixed error
    'Failed to fetch papers from arXiv'; no completion call is made and
    nothing is stored. *)
Theorem report_search_failure_has_fixed_message `{Runtime}
    (w : world) (req : Request) (query : jsval) (tr : trace) :
  get_prop (req_body req) "query" = Ok query ->
  truthy query = true ->
  (forall resp xmlData xmlDoc,
     net w (length tr) (arxiv_request query "5") = Ok resp ->
     ok resp = true ->
     text resp = Ok xmlData ->
     parseFromString xmlData <> Ok xmlDoc) ->
  exists new,
    run w (generate_report_handler req) tr = (Ok tt, tr ++ new) /\
    new = [Fetched (arxiv_request query "5");
           Sent (Json 500 (JObj [("error", JStr "Failed to fetch papers from arXiv")]))] /\
    filter is_completion_call new = [] /\ filter is_insert new = [].
Proof.
  intros Hquery Htruthy Hfails. eexists. split; [|split; [reflexivity|split; reflexivity]].
  unfold generate_report_handler, fetch_papers. run_step.
  rewrite Hquery. cbn beta iota. rewrite Htruthy. cbn [negb]. cbn iota. run_step.
  destruct (net w (length tr) (arxiv_request query "5")) as [resp|e] eqn:Hnet;
    cbn beta iota; run_step.
  2:{ rewrite <- app_assoc. reflexivity. }
  destruct (ok resp) eqn:Hok; cbn [negb]; cbn iota; run_step.
  2:{ rewrite <- app_assoc. reflexivity. }
  destruct (text resp) as [xmlData|e] eqn:Htext; cbn beta iota; run_step.
  2:{ rewrite <- app_assoc. reflexivity. }
  destruct (parseFromString xmlData) as [xmlDoc|e] eqn:Hparse; cbn beta iota; run_step.
  2:{ rewrite <- app_assoc. reflexivity. }
  exfalso. exact (Hfails resp xmlData xmlDoc eq_refl Hok Htext Hparse).
Qed.

(** X15.  generate-report for a request without an authenticated user id
    still searches, analyses every paper and has the report written;
    only then does it fail, with 500 'No authenticated user found', and
    nothing is stored. *)
Theorem report_without_user_is_not_saved `{Runtime}
    (w : world) (req : Request) (query : jsval) (resp : fetch_response)
    (xmlData : string) (xmlDoc : xml) (tr : trace) :
  get_prop (req_body req) "query" = Ok query ->
  truthy query = true ->
  net w (length tr) (arxiv_request query "5") = Ok resp ->
  ok resp = true ->
  text resp = Ok xmlData ->
  parseFromString xmlData = Ok xmlDoc ->
  truthy (opt_prop (user req) "id") = false ->
  let papers := map paper_of_entry (Dom.getElementsByTagName "entry" xmlDoc) in
  (forall analyses, exists report data choices,
     net w (length tr + 1 + length papers) (report_request query analyses) = Ok report /\
     ok report = true /\ json report = Ok data /\
     get_prop data "choices" = Ok choices /\ no_choices choices = false /\
     truthy (first_content choices) = true) ->
  exists analyses,
    length analyses = length papers /\
    run w (generate_report_handler req) tr
    = (Ok tt,
       tr ++ Fetched (arxiv_request query "5")
          :: map (fun p => Fetched (analysis_request p)) papers
          ++ [Fetched (report_request query analyses);
              Sent (Json 500 (JObj [("error", JStr "No authenticated user found")]))]).
Proof.
  intros Hquery Htruthy Hnet Hok Htext Hparse Hid papers Hreport.
  destruct (analyses_fulfil w papers (tr ++ [Fetched (arxiv_request query "5")]))
    as (analyses & Hbatch & Hlen).
  exists analyses. split; [exact Hlen|].
  destruct (Hreport analyses)
    as (report & data & choices & Hnet2 & Hok2 & Hjson & Hchoices & Hvalid & Hcontent).
  unfold generate_report_handler, fetch_papers. run_step.
  rewrite Hquery. cbn beta iota. rewrite Htruthy. cbn [negb]. cbn iota. run_step.
  rewrite Hnet. cbn beta iota. rewrite Hok. cbn [negb]. cbn iota. run_step.
  rewrite Htext. cbn beta iota. run_step. rewrite Hparse. cbn beta iota. run_step.
  fold papers. rewrite Hbatch. cbn beta iota.
  unfold write_report, save_report. run_step.
  rewrite !length_app, length_map. cbn [length]. rewrite Hnet2. cbn beta iota.
  rewrite Hok2. cbn [negb]. cbn iota. run_step. rewrite Hjson. cbn beta iota.
  run_step. rewrite Hchoices. cbn beta iota. rewrite Hvalid. cbn iota.
  rewrite Hcontent. cbn [negb]. cbn iota. run_step.
  destruct (no_user_id _ Hid) as [Huser|(user_id & Hget & Hfalsy)].
  - rewrite Huser. cbn iota. run_step. cbn [negb orb]. cbn iota. run_step.
    rewrite <- !app_assoc. reflexivity.
  - destruct (truthy (user req)); cbn iota; run_step.
    + rewrite Hget. cbn beta iota. rewrite Hfalsy. cbn [negb orb]. cbn iota.
      run_step. rewrite <- !app_assoc. reflexivity.
    + cbn [negb orb]. cbn iota. run_step. rewrite <- !app_assoc. reflexivity.
Qed.

(** ** suggest-prompt and the tags *)

(** X16.  When the model's suggestion is not valid JSON, suggest-prompt
    fails the whole request by forwarding the parser's error; the tag
    call is never made. *)
Theorem malformed_suggestion_fails_before_tags `{Runtime}
    (w : world) (req : Request) (initialQuery : jsval) (resp : fetch_response)
    (data choices : jsval) (e : exn) (tr : trace) :
  get_prop (req_body req) "initialQuery" = Ok initialQuery ->
  net w (length tr) (suggestion_request initialQuery) = Ok resp ->
  ok resp = true ->
  json resp = Ok data ->
  get_prop data "choices" = Ok choices ->
  no_choices choices = false ->
  JSON_parse (to_string (js_or (first_content choices) (JStr "{}"))) = Exn e ->
  run w (suggest_prompt_handler req) tr
  = (Ok tt, tr ++ [Fetched (suggestion_request initialQuery); Sent (ErrorPage e)]).
Proof.
  intros Hq Hnet Hok Hjson Hchoices Hvalid Hparse.
  unfold suggest_prompt_handler. run_step. rewrite Hq. cbn beta iota. run_step.
  rewrite Hnet. cbn beta iota. rewrite Hok. cbn [negb]. cbn iota. run_step.
  rewrite Hjson. cbn beta iota. run_step. rewrite Hchoices. cbn beta iota.
  rewrite Hvalid. run_step. rewrite Hparse. cbn beta iota. run_step.
  rewrite <- app_assoc. reflexivity.
Qed.

Lemma split_tags_trimmed choices tags :
  split_tags choices = Ok tags -> Forall (fun t => Str.trim t = t) tags.
Proof.
  unfold split_tags.
  destruct (nullish (first_item (array_items choices))); [intros [= <-]; constructor|].
  destruct (nullish (opt_prop (first_item (array_items choices)) "message"));
    [intros [= <-]; constructor|].
  destruct (opt_prop _ "content"); try discriminate.
  intros [= <-]. apply Forall_map, Forall_forall. intros t _. apply trim_idempotent.
Qed.

(** X17.  getResearchTags never throws and makes exactly one completion
    call; the tags it returns have no leading or trailing white space. *)
Theorem research_tags_are_trimmed `{Runtime}
    (w : world) (query : jsval) (tr : trace) :
  exists tags,
    run w (getResearchTags query) tr = (Ok tags, tr ++ [Fetched (tags_request query)]) /\
    Forall (fun t => Str.trim t = t) tags.
Proof.
  unfold getResearchTags. run_step.
  destruct (net w (length tr) (tags_request query)) as [resp|e]; cbn beta iota;
    [|run_step; eauto].
  destruct (ok resp); cbn [negb]; cbn iota; run_step.
  - destruct (json resp) as [data|e]; cbn beta iota; run_step; [|eauto].
    destruct (get_prop data "choices") as [choices|e]; cbn beta iota; [|eauto].
    destruct (no_choices choices); run_step; [eauto|].
    destruct (split_tags choices) as [tags|e] eqn:Hsplit; [|eauto].
    exists tags. split; [reflexivity|]. eapply split_tags_trimmed, Hsplit.
  - destruct (text resp); cbn beta iota; eauto.
Qed.

(** ** Papers and prompts *)

(** X18.  Whatever the entry element, the paper built from it has a
    title on one line (no line feed) without leading or trailing white
    space, a trimmed abstract and trimmed author names. *)
Theorem paper_fields_are_normalised (entry : xml) :
  lacks "010" (title (paper_of_entry entry)) = true /\
  Str.trim (title (paper_of_entry entry)) = title (paper_of_entry entry) /\
  Str.trim (abstract (paper_of_entry entry)) = abstract (paper_of_entry entry) /\
  Forall (fun a => Str.trim a = a) (authors (paper_of_entry entry)).
Proof.
  unfold paper_of_entry. cbn [title abstract authors].
  split; [|split; [|split]].
  - destruct (first_text "title" entry) as [t|]; [|reflexivity]. simpl.
    apply trim_end_lacks, trim_start_lacks, replace_newlines_lacks.
  - destruct (first_text "title" entry) as [t|]; [|reflexivity]. simpl.
    apply trim_idempotent.
  - destruct (first_text "summary" entry) as [t|]; [|reflexivity]. simpl.
    apply trim_idempotent.
  - apply Forall_map, Forall_forall. intros a _. apply trim_idempotent.
Qed.

(** X19.  The summary prompt reads at most the first 1000 characters of
    the abstract: truncating the abstract beforehand gives the same
    prompt, and the prompt is never longer than its fixed text (137
    characters), the title and 1000 characters. *)
Theorem summary_prompt_is_bounded (p : Paper) :
  summary_prompt p
  = summary_prompt {| title := title p; authors := authors p;
                      abstract := Str.substring0 1000 (abstract p); link := link p |} /\
  (String.length (summary_prompt p) <= 137 + String.length (title p) + 1000)%nat.
Proof.
  unfold summary_prompt. cbn [title abstract]. split.
  - rewrite substring0_idempotent. reflexivity.
  - rewrite !length_append, substring0_length.
    change (String.length "Provide a very brief 2-3 bullet point summary of this research paper (max 50 words total):
              Title: ") with 112%nat.
    change (String.length "
              Abstract: ") with 25%nat.
    lia.
Qed.

(** X20.  A completion that succeeds but whose first choice has no
    (or empty) content is not a failure for the batch: the slot gets the
    fallback text 'Summary not available' in summary mode and
    'Analysis failed' in analysis mode. *)
Theorem empty_content_gets_fallback_text `{Runtime}
    (w : world) (pos : nat) (p : Paper) (resp : fetch_response) (data choices : jsval) :
  ok resp = true ->
  json resp = Ok data ->
  get_prop data "choices" = Ok choices ->
  no_choices choices = false ->
  truthy (first_content choices) = false ->
  (net w pos (summary_request p) = Ok resp ->
   returns w pos (summarize p) (JStr "Summary not available")) /\
  (net w pos (analysis_request p) = Ok resp ->
   returns w pos (analyze p) {| paper := p; analysis := JStr "Analysis failed" |}).
Proof.
  intros Hok Hjson Hchoices Hvalid Hempty.
  split; intros Hnet tr <-.
  - unfold summarize. task_step. rewrite Hnet. cbn beta iota. rewrite Hok.
    cbn [negb]. cbn iota. task_step. rewrite Hjson. cbn beta iota. task_step.
    rewrite Hchoices. cbn beta iota. rewrite Hvalid. cbn iota. task_step.
    unfold js_or. rewrite Hempty. reflexivity.
  - unfold analyze. task_step. rewrite Hnet. cbn beta iota. rewrite Hok.
    cbn [negb]. cbn iota. task_step. rewrite Hjson. cbn beta iota. task_step.
    rewrite Hchoices. cbn beta iota. rewrite Hvalid. cbn iota. task_step.
    unfold js_or. rewrite Hempty. reflexivity.
Qed.

(** ** The further properties on examples *)

Definition bearer_request (header : string) : Request :=
  {| authorization := Some header;
     req_body := JObj [("query", JStr "transformers"); ("initialQuery", JStr "llm");
                       ("abstract", JStr "We study attention.")];
     user := JUndefined |}.

Definition anonymous_request : Request :=
  {| authorization := Some "Bearer tok-1";
     req_body := JObj [("query", JStr "transformers")];
     user := JUndefined |}.

(** A valid token on analyze-paper. *)
Lemma validated_request_reaches_handler_witness :
  run (scripted [] []) (@serve example_runtime AnalyzePaper (bearer_request "Bearer tok-1")) []
  = run (scripted [] [])
      (@handler_of example_runtime AnalyzePaper
         {| authorization := authorization (bearer_request "Bearer tok-1");
            req_body := req_body (bearer_request "Bearer tok-1");
            user := JObj [("id", JStr "user-1")] |})
      ([] ++ [AskedUser (JStr "tok-1")]).
Proof.
  apply (@validated_request_reaches_handler example_runtime (scripted [] []) AnalyzePaper
           (bearer_request "Bearer tok-1") (JStr "tok-1") (JObj [("id", JStr "user-1")]) []);
    reflexivity.
Defined.

(** An unknown token on save-search. *)
Lemma unvalidated_token_gets_401_witness :
  exists msg new,
    run (scripted [] []) (@serve example_runtime SaveSearch (bearer_request "Bearer stale")) []
    = (Ok tt, [] ++ new) /\
    new = [AskedUser (JStr "stale"); Sent (Json 401 (JObj [("error", JStr msg)]))] /\
    filter is_completion_call new = [] /\ filter is_insert new = [].
Proof.
  apply (@unvalidated_token_gets_401 example_runtime (scripted [] []) SaveSearch
           (bearer_request "Bearer stale") (JStr "stale") []);
    reflexivity.
Defined.

(** A bare token on generate-report. *)
Lemma header_without_bearer_gets_401_witness :
  run (scripted [] []) (@serve example_runtime GenerateReport (bearer_request "tok-1")) []
  = (Ok tt, [] ++ [Sent (Json 401 (JObj [("error", JStr "No token provided")]))]).
Proof.
  apply (@header_without_bearer_gets_401 example_runtime (scripted [] []) GenerateReport
           (bearer_request "tok-1") []).
  - discriminate.
  - reflexivity.
Defined.

(** 'Bearer tok-1' on search-papers. *)
Lemma bearer_token_is_what_is_validated_witness :
  exists rest,
    run (scripted [] []) (@serve example_runtime SearchPapers (bearer_request "Bearer tok-1")) []
    = (Ok tt, [] ++ AskedUser (JStr "tok-1") :: rest).
Proof.
  apply (@bearer_token_is_what_is_validated example_runtime (scripted [] []) SearchPapers
           (bearer_request "Bearer tok-1") "tok-1" []);
    reflexivity.
Defined.

(** 'Bearer tok-1 extra' on search-papers and on suggest-prompt. *)
Lemma token_with_space_is_cut_by_one_middleware_witness :
  (exists rest,
     run (scripted [] [])
         (@serve example_runtime SearchPapers (bearer_request "Bearer tok-1 extra")) []
     = (Ok tt, [] ++ AskedUser (JStr "tok-1") :: rest)) /\
  (exists rest,
     run (scripted [] [])
         (@serve example_runtime SuggestPrompt (bearer_request "Bearer tok-1 extra")) []
     = (Ok tt, [] ++ AskedUser (JStr "tok-1 extra") :: rest)).
Proof.
  split.
  - apply (@token_with_space_is_cut_by_one_middleware example_runtime (scripted [] [])
             SearchPapers (bearer_request "Bearer tok-1 extra") "tok-1" "extra" []);
      reflexivity.
  - apply (@token_with_space_is_cut_by_one_middleware example_runtime (scripted [] [])
             SuggestPrompt (bearer_request "Bearer tok-1 extra") "tok-1" "extra" []);
      reflexivity.
Defined.

(** analyze-paper on the empty body. *)
Lemma missing_abstract_is_rejected_witness :
  exists new,
    run (scripted [] []) (@analyze_paper_handler example_runtime empty_request) []
    = (Ok tt, [] ++ new) /\
    new = [Sent (Json 400 (JObj [("error", JStr "Abstract is required")]))] /\
    filter is_outbound new = [].
Proof.
  apply (@missing_abstract_is_rejected example_runtime (scripted [] []) empty_request [] []);
    reflexivity.
Defined.

(** save-search without [req.user]. *)
Lemma save_search_needs_user_id_witness :
  exists new,
    run (scripted [] []) (@save_search_handler example_runtime anonymous_request) []
    = (Ok tt, [] ++ new) /\
    new = [Sent (Json 500 (JObj [("error", JStr "No authenticated user found")]))] /\
    filter is_insert new = [].
Proof.
  apply (@save_search_needs_user_id example_runtime (scripted [] []) anonymous_request
           [("query", JStr "transformers")] []);
    reflexivity.
Defined.

(** A store that reports neither an error nor a record. *)
Definition silent_store_world : world :=
  {| net := fun _ _ => network_down;
     identity := fun _ token => example_identity token;
     store := fun _ _ _ => Ok (JObj [("data", JNull); ("error", JNull)]);
     settle_order := [] |}.

Lemma save_search_accepts_any_record_witness :
  run silent_store_world (@save_search_handler example_runtime report_request_example) []
  = (Ok tt,
     [] ++ [Inserted "reports"
              (JObj [("user_id", JStr "user-1");
                     ("title", default JUndefined
                                 (own_prop "query" [("query", JStr "transformers")]));
                     ("content", default JUndefined
                                   (own_prop "consolidatedSummary"
                                      [("query", JStr "transformers")]));
                     ("papers", default JUndefined
                                  (own_prop "papers" [("query", JStr "transformers")]));
                     ("type", JStr "search");
                     ("created_at", JStr (@toISOString example_runtime))]);
            Sent (Json 200 (JObj [("savedSearch", JNull);
                                  ("message", JStr "Search saved successfully")]))]).
Proof.
  apply (@save_search_accepts_any_record example_runtime silent_store_world
           report_request_example [("query", JStr "transformers")] (JStr "user-1")
           (JObj [("data", JNull); ("error", JNull)]) JNull JNull []);
    reflexivity.
Defined.

(** The search API is down for maintenance. *)
Lemma search_failure_is_reported_witness :
  exists new,
    run (scripted [http_reply 503 "maintenance"] [])
        (@search_papers_handler example_runtime report_request_example) []
    = (Ok tt, [] ++ new) /\
    new = [Fetched (@arxiv_request example_runtime (JStr "transformers") "6");
           Sent (Json 500
                   (JObj [("error",
                           JStr ("ArXiv API error: "
                                 +:+ statusText (http_response 503 "maintenance")))]))] /\
    filter is_completion_call new = [].
Proof.
  apply (@search_failure_is_reported example_runtime
           (scripted [http_reply 503 "maintenance"] [])
           report_request_example (JStr "transformers")
           (http_response 503 "maintenance") []);
    reflexivity.
Defined.

(** Two papers summarised, the overview refused. *)
Definition overview_refused_world : world :=
  scripted [http_reply 200 two_entry_feed;
            http_reply 200 (completion_text (json_string "- attention"));
            http_reply 200 (completion_text (json_string "- pre-training"));
            http_reply 429 "slow down"]
    [].

Lemma overview_failure_fails_search_witness :
  run overview_refused_world
      (@search_papers_handler example_runtime report_request_example) []
  = (Ok tt,
     [] ++ Fetched (@arxiv_request example_runtime (JStr "transformers") "6")
        :: map (fun p => Fetched (@summary_request example_runtime p))
             [paper_one; paper_two]
        ++ [Fetched (@consolidated_request example_runtime [paper_one; paper_two]);
            Sent (Json 500
                    (JObj [("error", JStr "Failed to generate consolidated summary")]))]).
Proof.
  apply (@overview_failure_fails_search example_runtime overview_refused_world
           report_request_example (JStr "transformers")
           (http_response 200 two_entry_feed) two_entry_feed
           (XElem "#document"
              [XElem "feed"
                 [XElem "entry"
                    [XElem "title" [XText "Attention
 is all you need"];
                     XElem "summary" [XText " Transformers. "];
                     XElem "id" [XText "http://arxiv.org/abs/1"];
                     XElem "author" [XElem "name" [XText "A. Vaswani"]]];
                  XElem "entry"
                    [XElem "title" [XText "BERT"];
                     XElem "summary" [XText "Pre-training."];
                     XElem "id" [XText "http://arxiv.org/abs/2"];
                     XElem "author" [XElem "name" [XText "J. Devlin"]];
                     XElem "author" [XElem "name" [XText "M. Chang"]]]]])
           (http_response 429 "slow down") "slow down" []);
    first [reflexivity | discriminate].
Defined.

(** The search API cannot be reached. *)
Lemma report_search_failure_has_fixed_message_witness :
  exists new,
    run (scripted [network_down] [])
        (@generate_report_handler example_runtime report_request_example) []
    = (Ok tt, [] ++ new) /\
    new = [Fetched (@arxiv_request example_runtime (JStr "transformers") "5");
           Sent (Json 500 (JObj [("error", JStr "Failed to fetch papers from arXiv")]))] /\
    filter is_completion_call new = [] /\ filter is_insert new = [].
Proof.
  apply (@report_search_failure_has_fixed_message example_runtime
           (scripted [network_down] []) report_request_example (JStr "transformers") []).
  - reflexivity.
  - reflexivity.
  - intros resp xmlData xmlDoc Hnet. discriminate Hnet.
Defined.

(** The report over an empty search result, for a request without a
    user. *)
Lemma report_without_user_is_not_saved_witness :
  exists analyses,
    length analyses = length (@nil Paper) /\
    run nothing_found_world (@generate_report_handler example_runtime anonymous_request) []
    = (Ok tt,
       [] ++ Fetched (@arxiv_request example_runtime (JStr "transformers") "5")
          :: map (fun p => Fetched (@analysis_request example_runtime p)) []
          ++ [Fetched (@report_request example_runtime (JStr "transformers") analyses);
              Sent (Json 500 (JObj [("error", JStr "No authenticated user found")]))]).
Proof.
  apply (@report_without_user_is_not_saved example_runtime nothing_found_world
           anonymous_request (JStr "transformers") (http_response 200 empty_feed)
           empty_feed (XElem "#document" [XElem "feed" []]) []);
    try reflexivity.
  intros analyses.
  exists (http_response 200 (completion_text (json_string "# No evidence"))).
  exists (JObj [("choices",
                 JArr [JObj [("message", JObj [("content", JStr "# No evidence")])]])]).
  exists (JArr [JObj [("message", JObj [("content", JStr "# No evidence")])]]).
  repeat split; vm_compute; reflexivity.
Defined.

(** The model answers with prose instead of JSON. *)
Lemma malformed_suggestion_fails_before_tags_witness :
  run (scripted [http_reply 200 (completion_text (json_string "Try a narrower query."))] [])
      (@suggest_prompt_handler example_runtime suggest_request) []
  = (Ok tt,
     [] ++ [Fetched (@suggestion_request example_runtime (JStr "llm"));
            Sent (ErrorPage (JsError "SyntaxError" "Unexpected token in JSON"))]).
Proof.
  apply (@malformed_suggestion_fails_before_tags example_runtime
           (scripted [http_reply 200 (completion_text (json_string "Try a narrower query."))]
              [])
           suggest_request (JStr "llm")
           (http_response 200 (completion_text (json_string "Try a narrower query.")))
           (JObj [("choices",
                   JArr [JObj [("message",
                                JObj [("content", JStr "Try a narrower query.")])]])])
           (JArr [JObj [("message", JObj [("content", JStr "Try a narrower query.")])]])
           (JsError "SyntaxError" "Unexpected token in JSON") []);
    vm_compute; reflexivity.
Defined.

(** A completion with an empty text. *)
Lemma empty_content_gets_fallback_text_witness :
  returns (scripted [http_reply 200 (completion_text (json_string ""))] []) 0
    (@summarize example_runtime paper_one) (JStr "Summary not available") /\
  returns (scripted [http_reply 200 (completion_text (json_string ""))] []) 0
    (@analyze example_runtime paper_one)
    {| paper := paper_one; analysis := JStr "Analysis failed" |}.
Proof.
  destruct (@empty_content_gets_fallback_text example_runtime
              (scripted [http_reply 200 (completion_text (json_string ""))] []) 0%nat
              paper_one (http_response 200 (completion_text (json_string "")))
              (JObj [("choices", JArr [JObj [("message", JObj [("content", JStr "")])]])])
              (JArr [JObj [("message", JObj [("content", JStr "")])]])
              eq_refl eq_refl eq_refl eq_refl eq_refl)
    as [Hsummary Hanalysis].
  split; [apply Hsummary | apply Hanalysis]; reflexivity.
Defined.

(** ** Failures after the analyses *)

(** X21.  When the report completion of generate-report is answered with
    a non-success status, the reply is 500 with the fixed error
    'Failed to generate report content': whatever error body the
    completion service sent is not passed on, and nothing is stored. *)
Theorem report_failure_hides_upstream_message `{Runtime}
    (w : world) (req : Request) (query : jsval) (resp : fetch_response)
    (xmlData : string) (xmlDoc : xml) (tr : trace) :
  get_prop (req_body req) "query" = Ok query ->
  truthy query = true ->
  net w (length tr) (arxiv_request query "5") = Ok resp ->
  ok resp = true ->
  text resp = Ok xmlData ->
  parseFromString xmlData = Ok xmlDoc ->
  let papers := map paper_of_entry (Dom.getElementsByTagName "entry" xmlDoc) in
  (forall analyses, exists report,
     net w (length tr + 1 + length papers) (report_request query analyses) = Ok report /\
     ok report = false) ->
  exists analyses new,
    run w (generate_report_handler req) tr = (Ok tt, tr ++ new) /\
    new = Fetched (arxiv_request query "5")
            :: map (fun p => Fetched (analysis_request p)) papers
            ++ [Fetched (report_request query analyses);
                Sent (Json 500
                        (JObj [("error", JStr "Failed to generate report content")]))] /\
    filter is_insert new = [].
Proof.
  intros Hquery Htruthy Hnet Hok Htext Hparse papers Hreport.
  destruct (analyses_fulfil w papers (tr ++ [Fetched (arxiv_request query "5")]))
    as (analyses & Hbatch & Hlen).
  destruct (Hreport analyses) as (report & Hnet2 & Hok2).
  exists analyses. eexists. split; [|split; [reflexivity|]].
  - unfold generate_report_handler, fetch_papers. run_step.
    rewrite Hquery. cbn beta iota. rewrite Htruthy. cbn [negb]. cbn iota. run_step.
    rewrite Hnet. cbn beta iota. rewrite Hok. cbn [negb]. cbn iota. run_step.
    rewrite Htext. cbn beta iota. run_step. rewrite Hparse. cbn beta iota. run_step.
    fold papers. rewrite Hbatch. cbn beta iota.
    unfold write_report. run_step.
    rewrite !length_app, length_map. cbn [length]. rewrite Hnet2. cbn beta iota.
    rewrite Hok2. cbn [negb]. cbn iota. run_step.
    destruct (json report) as [error|e]; cbn beta iota; run_step.
    + destruct (get_prop error "message"); cbn beta iota; run_step;
        rewrite <- !app_assoc; reflexivity.
    + rewrite <- !app_assoc. reflexivity.
  - rewrite filter_cons_False by (simpl; auto).
    rewrite filter_app, no_insert_among_analysis_calls. reflexivity.
Qed.

(** X22.  When the store answers the insert of generate-report with an
    error, the reply is 500 with 'Failed to save report: ' followed by
    the store's message: the insert was attempted once and the report
    text is not returned. *)
Theorem store_error_is_reported `{Runtime}
    (w : world) (req : Request) (query : jsval) (paperAnalyses : list PaperAnalysis)
    (report : fetch_response) (data choices user_id saved reportRecord saveError msg : jsval)
    (tr : trace) :
  net w (length tr) (report_request query paperAnalyses) = Ok report ->
  ok report = true ->
  json report = Ok data ->
  get_prop data "choices" = Ok choices ->
  no_choices choices = false ->
  truthy (first_content choices) = true ->
  truthy (user req) = true ->
  get_prop (user req) "id" = Ok user_id ->
  truthy user_id = true ->
  store w (length tr + 1) "reports" (report_row user_id query (first_content choices))
    = Ok saved ->
  get_prop saved "data" = Ok reportRecord ->
  get_prop saved "error" = Ok saveError ->
  truthy saveError = true ->
  get_prop saveError "message" = Ok msg ->
  run w (write_report req query paperAnalyses) tr
  = (Ok tt,
     tr ++ [Fetched (report_request query paperAnalyses);
            Inserted "reports" (report_row user_id query (first_content choices));
            Sent (Json 500
                    (JObj [("error",
                            JStr ("Failed to save report: " +:+ to_string msg))]))]).
Proof.
  intros Hnet Hok Hjson Hchoices Hvalid Hcontent Huser Hid Hidt Hstore Hdata Herror
    Herr Hmsg.
  unfold write_report, save_report. run_step.
  rewrite Hnet. cbn beta iota. rewrite Hok. cbn [negb]. cbn iota. run_step.
  rewrite Hjson. cbn beta iota. run_step. rewrite Hchoices. cbn beta iota.
  rewrite Hvalid. cbn iota. rewrite Hcontent. cbn [negb]. cbn iota. run_step.
  rewrite Huser. cbn iota. run_step. rewrite Hid. cbn beta iota.
  rewrite Hidt. cbn [negb orb]. cbn iota. run_step. cbn [answer event_of].
  rewrite length_app. cbn [length]. rewrite Hstore. cbn beta iota. run_step.
  rewrite Hdata. cbn beta iota. run_step. rewrite Herror. cbn beta iota.
  rewrite Herr. cbn iota. run_step. rewrite Hmsg. cbn beta iota. run_step.
  rewrite <- !app_assoc. reflexivity.
Qed.

(** The report completion is refused with an explanation. *)
Definition report_refused_world : world :=
  scripted [http_reply 200 empty_feed;
            http_reply 402 ("{" +:+ Str.q "message" +:+ ":" +:+ Str.q "quota exceeded" +:+ "}")]
    [].

Lemma report_failure_hides_upstream_message_witness :
  exists analyses new,
    run report_refused_world
        (@generate_report_handler example_runtime report_request_example) []
    = (Ok tt, [] ++ new) /\
    new = Fetched (@arxiv_request example_runtime (JStr "transformers") "5")
            :: map (fun p => Fetched (@analysis_request example_runtime p)) []
            ++ [Fetched (@report_request example_runtime (JStr "transformers") analyses);
                Sent (Json 500
                        (JObj [("error", JStr "Failed to generate report content")]))] /\
    filter is_insert new = [].
Proof.
  apply (@report_failure_hides_upstream_message example_runtime report_refused_world
           report_request_example (JStr "transformers") (http_response 200 empty_feed)
           empty_feed (XElem "#document" [XElem "feed" []]) []);
    try reflexivity.
  intros analyses.
  exists (http_response 402
            ("{" +:+ Str.q "message" +:+ ":" +:+ Str.q "quota exceeded" +:+ "}")).
  split; reflexivity.
Defined.

(** A store that refuses every insert. *)
Definition full_store_world : world :=
  {| net := fun _ _ => http_reply 200 (completion_text (json_string "# Report"));
     identity := fun _ token => example_identity token;
     store := fun _ _ _ =>
       Ok (JObj [("data", JNull); ("error", JObj [("message", JStr "disk full")])]);
     settle_order := [] |}.

Lemma store_error_is_reported_witness :
  run full_store_world
      (@write_report example_runtime report_request_example (JStr "transformers") []) []
  = (Ok tt,
     [] ++ [Fetched (@report_request example_runtime (JStr "transformers") []);
            Inserted "reports"
              (report_row (JStr "user-1") (JStr "transformers")
                 (first_content
                    (JArr [JObj [("message", JObj [("content", JStr "# Report")])]])));
            Sent (Json 500
                    (JObj [("error",
                            JStr ("Failed to save report: "
                                  +:+ to_string (JStr "disk full")))]))]).
Proof.
  apply (@store_error_is_reported example_runtime full_store_world report_request_example
           (JStr "transformers") []
           (http_response 200 (completion_text (json_string "# Report")))
           (JObj [("choices",
                   JArr [JObj [("message", JObj [("content", JStr "# Report")])]])])
           (JArr [JObj [("message", JObj [("content", JStr "# Report")])]])
           (JStr "user-1")
           (JObj [("data", JNull); ("error", JObj [("message", JStr "disk full")])])
           JNull (JObj [("message", JStr "disk full")]) (JStr "disk full") []);
    vm_compute; reflexivity.
Defined.
